(** * Solagram frontend data hooks: address derivation, fetch guards, batching and merging

    A shallow embedding of the four React data hooks of the frontend
    ([usePost], [useUserProfile], [useComments], [useProfiles]) and the
    properties of their address derivation, in-flight guards, batched reads,
    view merging and sorting.

    Conventions of the embedding.
    - A [Buffer] is a list of bytes; [Buffer.from(s, 'utf8')] is the byte list
      of the string [s] (a Rocq string is read as its UTF-8 bytes).
    - [crypto.createHash('sha256')] is SHA-256 (FIPS 180-4), written out below
      on 32-bit words held in [Z].
    - A [PublicKey] is its byte buffer; [equals] compares the bytes.  The
      base58 rendering [toString]/[toBase58], the program-address derivation
      [PublicKey.findProgramAddressSync], the Anchor account decoder and
      [getErrorMessage] belong to libraries outside the repository and are
      parameters of the model.
    - An [async] function is a tree of synchronous steps and [await] points
      ([Async]); every remote call of the hooks is a [Request].
    - A BN counter is an integer; [toNumber()] throws above 53 bits, and
      [Number(bn)] is the double nearest to the integer ([JsNumber]).
    - A function reads the refs and the state of its hook as they are when
      it runs: the page is taken to call the closures of the latest render.
      A closure that is called after an [await] is that of the render that
      started the function: [updateProfile] takes the [profile] its render
      captured as a parameter.
    - [updateProfile], [deletePost], [followUser] and [unfollowUser] are
      given up to their submission ([Started]): the instruction with its
      accounts, and how the function goes on once the submission settled. *)

From Stdlib Require Import ZArith List Bool Lia Permutation Sorted.
From Stdlib Require Import Strings.String Strings.Ascii Strings.Byte.
Import ListNotations.

Local Open Scope string_scope.
Local Open Scope list_scope.
Local Open Scope Z_scope.

(** ** Buffers *)

Definition Buffer := list byte.

(** [Buffer.from(s, 'utf8')] *)
Definition Buffer_from (s : string) : Buffer := list_byte_of_string s.

Definition byte_to_Z (b : byte) : Z := Z.of_N (Byte.to_N b).

Definition byte_of_Z (z : Z) : byte :=
  match Byte.of_N (Z.to_N (z mod 256)) with
  | Some b => b
  | None => x00
  end.

Definition Buffer_eqb (a b : Buffer) : bool :=
  if list_eq_dec Byte.byte_eq_dec a b then true else false.

(** ** SHA-256 (what [crypto.createHash('sha256').update(buf).digest()] computes) *)

Module SHA256.

Definition w32 (x : Z) : Z := x mod 4294967296.
Definition add32 (x y : Z) : Z := w32 (x + y).
Definition rotr (n x : Z) : Z :=
  Z.lor (Z.shiftr x n) (w32 (Z.shiftl x (32 - n))).
Definition not32 (x : Z) : Z := Z.lxor x 4294967295.

Definition Ch (x y z : Z) : Z := Z.lxor (Z.land x y) (Z.land (not32 x) z).
Definition Maj (x y z : Z) : Z :=
  Z.lxor (Z.lxor (Z.land x y) (Z.land x z)) (Z.land y z).
Definition Sigma0 (x : Z) : Z := Z.lxor (Z.lxor (rotr 2 x) (rotr 13 x)) (rotr 22 x).
Definition Sigma1 (x : Z) : Z := Z.lxor (Z.lxor (rotr 6 x) (rotr 11 x)) (rotr 25 x).
Definition sigma0 (x : Z) : Z := Z.lxor (Z.lxor (rotr 7 x) (rotr 18 x)) (Z.shiftr x 3).
Definition sigma1 (x : Z) : Z := Z.lxor (Z.lxor (rotr 17 x) (rotr 19 x)) (Z.shiftr x 10).

(** The constants of FIPS 180-4, from their definition: the first 32 bits of
    the fractional parts of the cube roots (round constants) and of the
    square roots (initial hash value) of the first primes. *)
Definition is_prime (n : nat) : bool :=
  forallb (fun d => negb (Nat.eqb (n mod d) 0)) (seq 2 (n - 2)).

Definition primes : list Z :=
  map Z.of_nat (firstn 64 (filter is_prime (seq 2 400))).

Fixpoint cbrt_bits (k : nat) (n acc : Z) : Z :=
  match k with
  | O => acc
  | S k' =>
      let c := acc + 2 ^ Z.of_nat k' in
      cbrt_bits k' n (if c * c * c <=? n then c else acc)
  end.

Definition cbrt (n : Z) : Z := cbrt_bits 40 n 0.

Definition K : list Z :=
  Eval vm_compute in map (fun p => w32 (cbrt (p * 2 ^ 96))) primes.

(** The eight working variables a..h, also the chaining value. *)
Definition State : Type := (Z * Z * Z * Z * Z * Z * Z * Z)%type.

Definition initial_word (i : nat) : Z :=
  w32 (Z.sqrt (nth i primes 0 * 2 ^ 64)).

Definition H0 : State :=
  Eval vm_compute in
    (initial_word 0, initial_word 1, initial_word 2, initial_word 3,
     initial_word 4, initial_word 5, initial_word 6, initial_word 7).

(** Padding: a 1 bit, zeros up to 56 mod 64 bytes, the bit length on 64 bits. *)
Definition be_bytes (n : nat) (x : Z) : list Z :=
  map (fun i => Z.shiftr x (8 * Z.of_nat i) mod 256) (rev (seq 0 n)).

Definition pad (msg : list Z) : list Z :=
  let len := Z.of_nat (List.length msg) in
  let zeros := Z.to_nat ((55 - len) mod 64) in
  msg ++ [128] ++ repeat 0 zeros ++ be_bytes 8 (8 * len).

Fixpoint words (bs : list Z) : list Z :=
  match bs with
  | a :: b :: c :: d :: rest =>
      (Z.shiftl a 24 + Z.shiftl b 16 + Z.shiftl c 8 + d) :: words rest
  | _ => []
  end.

(** The message schedule, most recent word first. *)
Fixpoint schedule (n : nat) (rev_w : list Z) : list Z :=
  match n with
  | O => rev_w
  | S n' =>
      let w := add32 (add32 (sigma1 (nth 1 rev_w 0)) (nth 6 rev_w 0))
                     (add32 (sigma0 (nth 14 rev_w 0)) (nth 15 rev_w 0)) in
      schedule n' (w :: rev_w)
  end.

Definition round (s : State) (kw : Z * Z) : State :=
  let '(a, b, c, d, e, f, g, h) := s in
  let '(k, w) := kw in
  let t1 := add32 (add32 (add32 h (Sigma1 e)) (add32 (Ch e f g) k)) w in
  let t2 := add32 (Sigma0 a) (Maj a b c) in
  (add32 t1 t2, a, b, c, add32 d t1, e, f, g).

Definition compress (s : State) (block : list Z) : State :=
  let w := rev (schedule 48 (rev block)) in
  let '(a, b, c, d, e, f, g, h) := fold_left round (combine K w) s in
  let '(a0, b0, c0, d0, e0, f0, g0, h0) := s in
  (add32 a0 a, add32 b0 b, add32 c0 c, add32 d0 d,
   add32 e0 e, add32 f0 f, add32 g0 g, add32 h0 h).

Fixpoint process (fuel : nat) (ws : list Z) (s : State) : State :=
  match fuel with
  | O => s
  | S fuel' =>
      match ws with
      | [] => s
      | _ => process fuel' (skipn 16 ws) (compress s (firstn 16 ws))
      end
  end.

Definition word_bytes (x : Z) : Buffer := map byte_of_Z (be_bytes 4 x).

Definition digest (msg : Buffer) : Buffer :=
  let ws := words (pad (map byte_to_Z msg)) in
  let '(a, b, c, d, e, f, g, h) := process (List.length ws) ws H0 in
  word_bytes a ++ word_bytes b ++ word_bytes c ++ word_bytes d ++
  word_bytes e ++ word_bytes f ++ word_bytes g ++ word_bytes h.

Definition hex_digit (n : Z) : ascii :=
  ascii_of_nat (Z.to_nat (if n <? 10 then 48 + n else 87 + n)).

Fixpoint hex (b : Buffer) : string :=
  match b with
  | [] => EmptyString
  | x :: rest =>
      String (hex_digit (byte_to_Z x / 16))
        (String (hex_digit (byte_to_Z x mod 16)) (hex rest))
  end.

End SHA256.

(** [crypto.createHash('sha256').update(Buffer.from(s, 'utf8')).digest().slice(0, 4)] *)
Definition content_digest (s : string) : Buffer :=
  firstn 4 (SHA256.digest (Buffer_from s)).


(** ** Public keys, errors and the JavaScript values the hooks handle *)

(** A [PublicKey] of [@solana/web3.js], as the bytes [toBuffer()] returns. *)
Record PublicKey : Type := mkPublicKey { toBuffer : Buffer }.

(** [a.equals(b)] *)
Definition equals (a b : PublicKey) : bool := Buffer_eqb (toBuffer a) (toBuffer b).

(** A thrown value: [err.message] and [err.error?.errorCode?.code]. *)
Record JsError : Type := mkError { message : string; errorCode : option string }.

Definition Error (msg : string) : JsError := {| message := msg; errorCode := None |}.

(** The result of an expression that may throw. *)
Inductive Outcome (A : Type) : Type :=
| Ok (a : A)
| Thrown (e : JsError).
Arguments Ok {A} a.
Arguments Thrown {A} e.

Definition obind {A B} (o : Outcome A) (f : A -> Outcome B) : Outcome B :=
  match o with
  | Ok a => f a
  | Thrown e => Thrown e
  end.

(** [str1 || str2] and [if (str)]: the empty string is falsy. *)
Definition truthy (s : string) : bool :=
  match s with
  | EmptyString => false
  | String _ _ => true
  end.

Definition or_else (s fallback : string) : string :=
  if truthy s then s else fallback.

(** [hay.includes(needle)] *)
Fixpoint includes (hay needle : string) : bool :=
  if String.prefix needle hay then true
  else match hay with
       | EmptyString => false
       | String _ rest => includes rest needle
       end.

(** [bn.toNumber()]: BN refuses a value that needs more than 53 bits. *)
Definition toNumber (bn : Z) : Outcome Z :=
  if Z.abs bn <? 2 ^ 53 then Ok bn
  else Thrown (Error "Number can only safely store up to 53 bits").

(** The doubles the hooks compute with when they compare timestamps: one
    that holds an integer, an infinity, or NaN. *)
Inductive JsNumber : Type :=
| finite (v : Z)
| infinite (positive : bool)
| NaN.

(** The double nearest to an integer: the integer itself below 2^53; beyond,
    53 significant bits with ties to the even significand; an infinity from
    2^1024 - 2^970 on. *)
Definition nearest_double (x : Z) : JsNumber :=
  let a := Z.abs x in
  if a <? 2 ^ 53 then finite x
  else
    let e := Z.log2 a - 52 in
    let q := Z.shiftr a e in
    let r := a mod 2 ^ e in
    let half := 2 ^ (e - 1) in
    let q' := if (half <? r) || ((r =? half) && Z.odd q) then q + 1 else q in
    if 2 ^ 1024 <=? q' * 2 ^ e then infinite (0 <? x)
    else finite (Z.sgn x * (q' * 2 ^ e)).

(** [Number(bn)]: a BN has no [valueOf] of its own, so it is converted
    through [toString()], and the decimal string to the nearest double. *)
Definition Number (bn : Z) : JsNumber := nearest_double bn.

(** [x - y] on these doubles: the exact difference, rounded. *)
Definition subtract (x y : JsNumber) : JsNumber :=
  match x, y with
  | NaN, _ => NaN
  | _, NaN => NaN
  | finite a, finite b => nearest_double (a - b)
  | finite _, infinite q => infinite (negb q)
  | infinite p, finite _ => infinite p
  | infinite p, infinite q => if Bool.eqb p q then NaN else infinite p
  end.

(** What [sort] reads from the number a comparator returned: its sign, NaN
    counting as 0. *)
Definition comparison (v : JsNumber) : Z :=
  match v with
  | finite z => z
  | infinite true => 1
  | infinite false => -1
  | NaN => 0
  end.

(** ** JavaScript [Map] with string keys: insertion ordered *)

Module JSMap.

Definition t (V : Type) : Type := list (string * V).

Definition empty {V} : t V := [].

Fixpoint get {V} (m : t V) (k : string) : option V :=
  match m with
  | [] => None
  | (k', v) :: rest => if String.eqb k' k then Some v else get rest k
  end.

Definition has {V} (m : t V) (k : string) : bool :=
  match get m k with
  | Some _ => true
  | None => false
  end.

(** [set] keeps the position of a key that is present and appends a new one. *)
Fixpoint set {V} (m : t V) (k : string) (v : V) : t V :=
  match m with
  | [] => [(k, v)]
  | (k', v') :: rest =>
      if String.eqb k' k then (k', v) :: rest else (k', v') :: set rest k v
  end.

Definition entries {V} (m : t V) : list (string * V) := m.
Definition keys {V} (m : t V) : list string := map fst m.
Definition values {V} (m : t V) : list V := map snd m.

End JSMap.

(** ** JavaScript arrays *)

Module JSArray.

(** [arr.find(pred)?.[0]] over map entries, with a predicate that may throw. *)
Fixpoint find_key {V} (pred : V -> Outcome bool) (l : list (string * V))
  : Outcome (option string) :=
  match l with
  | [] => Ok None
  | (k, v) :: rest =>
      match pred v with
      | Thrown e => Thrown e
      | Ok true => Ok (Some k)
      | Ok false => find_key pred rest
      end
  end.

(** [arr.forEach((x, index) => ...)] threading the state the callback mutates. *)
Fixpoint forEach_from {A B} (f : B -> A -> nat -> Outcome B) (l : list A)
  (index : nat) (acc : B) : Outcome B :=
  match l with
  | [] => Ok acc
  | x :: rest => obind (f acc x index) (forEach_from f rest (S index))
  end.

Definition forEach {A B} (f : B -> A -> nat -> Outcome B) (l : list A) (acc : B)
  : Outcome B :=
  forEach_from f l 0%nat acc.

(** [arr.sort(cmp)]: stable (ECMAScript 2019).  With a consistent comparator
    the sorted arrangement is unique; it is computed by insertion, an element
    passing only elements it is strictly greater than. *)
Fixpoint insert {A} (cmp : A -> A -> Z) (x : A) (l : list A) : list A :=
  match l with
  | [] => [x]
  | y :: rest => if cmp x y >? 0 then y :: insert cmp x rest else x :: y :: rest
  end.

Definition sort {A} (cmp : A -> A -> Z) (l : list A) : list A :=
  fold_right (insert cmp) [] l.

End JSArray.

(** ** Accounts of the on-chain program, as the Anchor client decodes them *)

Module PostAccount.
Record t : Type := mk {
  profile : PublicKey;
  creator : PublicKey;
  content : string;
  mediaUri : string;
  likeCount : Z;
  dislikeCount : Z;
  loveCount : Z;
  hahaCount : Z;
  wowCount : Z;
  sadCount : Z;
  angryCount : Z;
  commentCount : Z;
  createdAt : Z;
  updatedAt : Z
}.
End PostAccount.

Module UserProfileAccount.
Record t : Type := mk {
  authority : PublicKey;
  handle : string;
  bio : string;
  avatarUri : string;
  followerCount : Z;
  followingCount : Z;
  createdAt : Z;
  updatedAt : Z
}.
End UserProfileAccount.

Module CommentAccount.
Record t : Type := mk {
  post : PublicKey;
  commentBy : PublicKey;
  content : string;
  createdAt : Z;
  updatedAt : Z
}.
End CommentAccount.

(** An element of [program.account.X.all()]: [{ publicKey, account }]. *)
Record ProgramAccount (T : Type) : Type := mkProgramAccount {
  publicKey : PublicKey;
  account : T
}.
Arguments mkProgramAccount {T} publicKey account.
Arguments publicKey {T} p.
Arguments account {T} p.

(** An element of [connection.getMultipleAccountsInfo]: only [data] is read. *)
Record AccountInfo : Type := mkAccountInfo { data : Buffer }.

(** [memcmp] filter of a scan. *)
Record Memcmp : Type := mkMemcmp { offset : Z; bytes : string }.

(** ** The libraries outside the repository *)

Class Library : Type := {
  (** [key.toString()] and [key.toBase58()]: the base58 rendering *)
  toString : PublicKey -> string;
  (** [new PublicKey(base58)] *)
  PublicKey_new : string -> PublicKey;
  (** [PublicKey.findProgramAddressSync(seeds, programId)]: address and bump *)
  findProgramAddressSync : list Buffer -> PublicKey -> PublicKey * Z;
  (** [program.coder.accounts.decode("userProfile", data)] *)
  decode_userProfile : Buffer -> Outcome UserProfileAccount.t;
  (** [getErrorMessage(code)] of [@/lib/errors] *)
  getErrorMessage : option string -> string
}.

(** What the hooks rely on: distinct keys render differently, and no key
    renders as the empty string. *)
Class LibraryContract (lib : Library) : Prop := {
  toString_inj : forall a b : PublicKey, toString a = toString b -> a = b;
  toString_nonempty : forall a : PublicKey, truthy (toString a) = true
}.

(** ** Remote calls *)

(** The remote calls of the hooks, indexed by what they resolve to. *)
Inductive Request : Type -> Type :=
| post_all : Request (list (ProgramAccount PostAccount.t))
| post_all_memcmp (filter : Memcmp) : Request (list (ProgramAccount PostAccount.t))
| post_fetch (pda : PublicKey) : Request PostAccount.t
| createPost_rpc (mediaUri content : string) (creator post profile : PublicKey)
    : Request string
| userProfile_fetch (pda : PublicKey) : Request UserProfileAccount.t
| userProfile_all : Request (list (ProgramAccount UserProfileAccount.t))
| comment_all_memcmp (filter : Memcmp) : Request (list (ProgramAccount CommentAccount.t))
| createComment_rpc (content : string) (commenter comment post : PublicKey)
    : Request string
| getMultipleAccountsInfo (pdas : list PublicKey) : Request (list (option AccountInfo)).

(** A remote call with its reply type forgotten, for logs. *)
Inductive Call : Type :=
| call {R : Type} (r : Request R).

Definition is_getMultipleAccountsInfo (c : Call) : bool :=
  match c with
  | call (getMultipleAccountsInfo _) => true
  | call _ => false
  end.

Definition is_comment_scan (postKey : string) (c : Call) : bool :=
  match c with
  | call (comment_all_memcmp filter) => String.eqb (bytes filter) postKey
  | call _ => false
  end.

(** ** Asynchronous functions *)

(** An [async] function over the refs and state [St] of a hook: synchronous
    reads and writes of [St], and [await] points where it is suspended until
    the remote call settles. *)
Inductive Async (St A : Type) : Type :=
| Return (a : A)
| Throw (e : JsError)
| Access (k : St -> Async St A)
| Update (f : St -> St) (k : Async St A)
| Await {R : Type} (r : Request R) (k : Outcome R -> Async St A).
Arguments Return {St A} a.
Arguments Throw {St A} e.
Arguments Access {St A} k.
Arguments Update {St A} f k.
Arguments Await {St A R} r k.

Fixpoint bind {St A B} (m : Async St A) (f : A -> Async St B) : Async St B :=
  match m with
  | Return a => f a
  | Throw e => Throw e
  | Access k => Access (fun s => bind (k s) f)
  | Update g k => Update g (bind k f)
  | Await r k => Await r (fun o => bind (k o) f)
  end.

Notation "x <- m ;; k" := (bind m (fun x => k))
  (at level 61, m at next level, right associativity).
Notation "m ;;; k" := (bind m (fun _ => k))
  (at level 61, right associativity).

(** [try { body } catch (err) { handler }] *)
Fixpoint try_catch {St A} (body : Async St A) (handler : JsError -> Async St A)
  : Async St A :=
  match body with
  | Return a => Return a
  | Throw e => handler e
  | Access k => Access (fun s => try_catch (k s) handler)
  | Update g k => Update g (try_catch k handler)
  | Await r k => Await r (fun o => try_catch (k o) handler)
  end.

(** [try { body } finally { cleanup }] *)
Fixpoint try_finally {St A} (body : Async St A) (cleanup : Async St unit)
  : Async St A :=
  match body with
  | Return a => cleanup ;;; Return a
  | Throw e => cleanup ;;; Throw e
  | Access k => Access (fun s => try_finally (k s) cleanup)
  | Update g k => Update g (try_finally k cleanup)
  | Await r k => Await r (fun o => try_finally (k o) cleanup)
  end.

(** [await remoteCall]: resumes with the value or throws the rejection. *)
Definition await {St R} (r : Request R) : Async St R :=
  Await r (fun o => match o with
                    | Ok v => Return v
                    | Thrown e => Throw e
                    end).

Definition read {St} : Async St St := Access (fun s => Return s).
Definition modify {St} (f : St -> St) : Async St unit := Update f (Return tt).

(** A synchronous expression that may throw, inside an [async] function. *)
Definition lift {St A} (o : Outcome A) : Async St A :=
  match o with
  | Ok a => Return a
  | Thrown e => Throw e
  end.

(** *** Running an asynchronous function *)

(** The remote store and the rest of the page, as one invocation sees them:
    the settlement of its n-th [await], and what other handlers did to the
    hook's refs and state while it was suspended there. *)
Definition Remote : Type := forall R, Request R -> Outcome R.

Record World (St : Type) : Type := mkWorld {
  reply : nat -> Remote;
  meanwhile : nat -> St -> St
}.
Arguments mkWorld {St} reply meanwhile.
Arguments reply {St} w n R r.
Arguments meanwhile {St} w n s.

(** A world in which nothing else touches the hook between an [await] and
    its settlement. *)
Definition quiet {St} (reply : nat -> Remote) : World St :=
  mkWorld reply (fun _ s => s).

Record Run (St A : Type) : Type := mkRun {
  final : St;
  result : Outcome A;
  calls : list Call
}.
Arguments mkRun {St A} final result calls.
Arguments final {St A} r.
Arguments result {St A} r.
Arguments calls {St A} r.

(** Runs to completion from the [n]-th [await] onwards. *)
Fixpoint run_from {St A} (w : World St) (n : nat) (m : Async St A) (s : St)
  : Run St A :=
  match m with
  | Return a => mkRun s (Ok a) []
  | Throw e => mkRun s (Thrown e) []
  | Access k => run_from w n (k s) s
  | Update f k => run_from w n k (f s)
  | Await r k =>
      let rest := run_from w (S n) (k (reply w n _ r)) (meanwhile w n s) in
      mkRun (final rest) (result rest) (call r :: calls rest)
  end.

Definition run {St A} (w : World St) (m : Async St A) (s : St) : Run St A :=
  run_from w 0%nat m s.

(** *** The event loop: several invocations in flight *)

(** A suspended invocation: the call it awaits and how it resumes. *)
Inductive Task (St : Type) : Type :=
| task {R : Type} (awaiting : Request R) (resume : Outcome R -> Async St unit).
Arguments task {St R} awaiting resume.

Definition awaited {St} (t : Task St) : Call :=
  match t with
  | task r _ => call r
  end.

Record Loop (St : Type) : Type := mkLoop {
  store : St;
  inflight : list (Task St);
  issued : list Call
}.
Arguments mkLoop {St} store inflight issued.
Arguments store {St} l.
Arguments inflight {St} l.
Arguments issued {St} l.

(** Runs the synchronous part of [m]: up to its end or its next [await]. *)
Fixpoint advance {St} (m : Async St unit) (l : Loop St) : Loop St :=
  match m with
  | Return _ => l
  | Throw _ => l
  | Access k => advance (k (store l)) l
  | Update f k => advance k (mkLoop (f (store l)) (inflight l) (issued l))
  | Await r k =>
      mkLoop (store l) (inflight l ++ [task r k]) (issued l ++ [call r])
  end.

(** A handler is called. *)
Definition invoke {St} (m : Async St unit) (l : Loop St) : Loop St := advance m l.

Fixpoint remove_nth {A} (i : nat) (l : list A) : list A :=
  match i, l with
  | _, [] => []
  | O, _ :: rest => rest
  | S i', x :: rest => x :: remove_nth i' rest
  end.

(** The [i]-th suspended invocation is resumed with the remote's answer. *)
Definition settle {St} (remote : Remote) (i : nat)
  (l : Loop St) : Loop St :=
  match nth_error (inflight l) i with
  | None => l
  | Some (task r k) =>
      advance (k (remote _ r))
        (mkLoop (store l) (remove_nth i (inflight l)) (issued l))
  end.

(** How many suspended invocations await a call that [same] selects. *)
Definition outstanding {St} (same : Call -> bool) (l : Loop St) : nat :=
  List.length (filter same (map awaited (inflight l))).

(** ** What every hook sets up *)

Module AnchorWallet.
Record t : Type := mk { publicKey : PublicKey }.
End AnchorWallet.

Record AnchorProvider : Type := mkAnchorProvider { provider_wallet : AnchorWallet.t }.
Record Program : Type := mkProgram { program_provider : AnchorProvider }.

(** [useMemo(() => wallet ? new AnchorProvider(connection, wallet, ...) : null)] *)
Definition provider (wallet : option AnchorWallet.t) : option AnchorProvider :=
  match wallet with
  | None => None
  | Some w => Some (mkAnchorProvider w)
  end.

(** [useMemo(() => provider ? new Program(idl, provider) : null)] *)
Definition program (wallet : option AnchorWallet.t) : option Program :=
  match provider wallet with
  | None => None
  | Some p => Some (mkProgram p)
  end.

(** [{ success: true, tx }] or [{ success: false, error }] *)
Inductive TxResult : Type :=
| Success (tx : string)
| Failure (error : string).

(** The instructions the hooks submit besides [createPost] and
    [createComment]: [program.methods.<name>(args).accounts({...}).rpc()]. *)
Inductive Instruction : Type :=
| updateUserProfile (handle bio avatarUri : string) (user : PublicKey)
| deleteUserPost (creator post : PublicKey)
| followUserProfile (follower followerProfile followingProfile : PublicKey)
| unfollowUserProfile (follower followerProfile followingProfile : PublicKey).

(** A function that submits such an instruction, up to its [.rpc()] call: it
    returned [undefined] or threw before submitting, or it awaits the
    submission and goes on from the transaction id or the rejection. *)
Inductive Started (St : Type) : Type :=
| returned_undefined
| threw (e : JsError)
| submitted (i : Instruction) (afterwards : Outcome string -> Async St TxResult).
Arguments returned_undefined {St}.
Arguments threw {St} e.
Arguments submitted {St} i afterwards.

Definition option_string_eqb (a b : option string) : bool :=
  match a, b with
  | Some x, Some y => String.eqb x y
  | None, None => true
  | _, _ => false
  end.

Definition isSome {A} (o : option A) : bool :=
  match o with
  | Some _ => true
  | None => false
  end.

(** [pda.equals(other)] where [other] may be [undefined]: reading it throws. *)
Definition equals_js (pda : PublicKey) (other : option PublicKey) : Outcome bool :=
  match other with
  | Some k => Ok (equals pda k)
  | None => Thrown (Error "Cannot read properties of undefined (reading '_bn')")
  end.

Fixpoint mapM {A B} (f : A -> Outcome B) (l : list A) : Outcome (list B) :=
  match l with
  | [] => Ok []
  | x :: rest =>
      obind (f x) (fun y => obind (mapM f rest) (fun ys => Ok (y :: ys)))
  end.

Section ProgramId.
Context {lib : Library}.

Definition PROGRAM_ID : PublicKey :=
  PublicKey_new "o7WMnMvBfhf21mXMeoi2yAdmfiCsEaKGZE3DHT1E1qF".

End ProgramId.

(** ** useUserProfile *)

Module UseUserProfile.

Module UserProfile.
Record t : Type := mk {
  authority : PublicKey;
  handle : string;
  bio : string;
  avatarUri : string;
  createdAt : Z;
  updatedAt : Z;
  followerCount : Z;
  followingCount : Z
}.
End UserProfile.

Record State : Type := mkState {
  profile : option UserProfile.t;
  isLoading : bool;
  error : option string;
  fetchingRef : bool;
  lastWalletRef : option string
}.

Definition initial : State := mkState None false None false None.

Definition setProfile (v : option UserProfile.t) (s : State) : State :=
  mkState v (isLoading s) (error s) (fetchingRef s) (lastWalletRef s).
Definition setIsLoading (v : bool) (s : State) : State :=
  mkState (profile s) v (error s) (fetchingRef s) (lastWalletRef s).
Definition setError (v : option string) (s : State) : State :=
  mkState (profile s) (isLoading s) v (fetchingRef s) (lastWalletRef s).
Definition set_fetchingRef (v : bool) (s : State) : State :=
  mkState (profile s) (isLoading s) (error s) v (lastWalletRef s).
Definition set_lastWalletRef (v : option string) (s : State) : State :=
  mkState (profile s) (isLoading s) (error s) (fetchingRef s) v.

Section Hook.
Context {lib : Library}.

Definition profilePda (wallet : option AnchorWallet.t) : option PublicKey :=
  match wallet with
  | None => None
  | Some w =>
      Some (fst (findProgramAddressSync
                   [Buffer_from "profile"; toBuffer (AnchorWallet.publicKey w)]
                   PROGRAM_ID))
  end.

(** [wallet?.publicKey.toString() || null] *)
Definition currentWalletKey (wallet : option AnchorWallet.t) : option string :=
  match wallet with
  | None => None
  | Some w =>
      let k := toString (AnchorWallet.publicKey w) in
      if truthy k then Some k else None
  end.

Definition userProfile_of (profileAccount : UserProfileAccount.t)
  : Outcome UserProfile.t :=
  obind (toNumber (UserProfileAccount.followerCount profileAccount)) (fun followerCount =>
  obind (toNumber (UserProfileAccount.followingCount profileAccount)) (fun followingCount =>
  obind (toNumber (UserProfileAccount.createdAt profileAccount)) (fun createdAt =>
  obind (toNumber (UserProfileAccount.updatedAt profileAccount)) (fun updatedAt =>
  Ok (UserProfile.mk
        (UserProfileAccount.authority profileAccount)
        (UserProfileAccount.handle profileAccount)
        (UserProfileAccount.bio profileAccount)
        (UserProfileAccount.avatarUri profileAccount)
        createdAt updatedAt followerCount followingCount))))).

Definition fetchProfile (wallet : option AnchorWallet.t) : Async State unit :=
  match program wallet, profilePda wallet with
  | Some _, Some pda =>
      s <- read ;;
      (* Prevent duplicate calls *)
      if fetchingRef s then Return tt
      else
        (* Check if wallet changed - if same wallet, skip if already fetched *)
        let currentWalletKey := currentWalletKey wallet in
        if option_string_eqb currentWalletKey (lastWalletRef s) && isSome (profile s)
        then Return tt
        else
          modify (set_fetchingRef true) ;;;
          modify (setIsLoading true) ;;;
          modify (setError None) ;;;
          try_finally
            (try_catch
               (profileAccount <- await (userProfile_fetch pda) ;;
                userProfile <- lift (userProfile_of profileAccount) ;;
                modify (setProfile (Some userProfile)) ;;;
                modify (set_lastWalletRef currentWalletKey))
               (fun err =>
                  (if includes (message err) "Account does not exist"
                   then modify (setProfile None)
                   else modify (setError (Some (message err)))) ;;;
                  modify (set_lastWalletRef currentWalletKey)))
            (modify (setIsLoading false) ;;;
             modify (set_fetchingRef false))
  | _, _ => modify (setProfile None)
  end.

(** The effect that runs when the wallet, the program or the callback change. *)
Definition useEffect (wallet : option AnchorWallet.t) : Async State unit :=
  match wallet, program wallet, profilePda wallet with
  | Some _, Some _, Some _ => fetchProfile wallet
  | _, _, _ =>
      modify (setProfile None) ;;;
      modify (set_lastWalletRef None)
  end.

(** [fetchProfile] as the closure a render holds: [useCallback] keeps the
    [profile] of the render that made it ([rendered]), while the refs are
    read when the closure runs.  Called when its render is the latest one,
    it is [fetchProfile] above. *)
Definition fetchProfile_of (rendered : option UserProfile.t)
  (wallet : option AnchorWallet.t) : Async State unit :=
  match program wallet, profilePda wallet with
  | Some _, Some pda =>
      s <- read ;;
      (* Prevent duplicate calls *)
      if fetchingRef s then Return tt
      else
        (* Check if wallet changed - if same wallet, skip if already fetched *)
        let currentWalletKey := currentWalletKey wallet in
        if option_string_eqb currentWalletKey (lastWalletRef s) && isSome rendered
        then Return tt
        else
          modify (set_fetchingRef true) ;;;
          modify (setIsLoading true) ;;;
          modify (setError None) ;;;
          try_finally
            (try_catch
               (profileAccount <- await (userProfile_fetch pda) ;;
                userProfile <- lift (userProfile_of profileAccount) ;;
                modify (setProfile (Some userProfile)) ;;;
                modify (set_lastWalletRef currentWalletKey))
               (fun err =>
                  (if includes (message err) "Account does not exist"
                   then modify (setProfile None)
                   else modify (setError (Some (message err)))) ;;;
                  modify (set_lastWalletRef currentWalletKey)))
            (modify (setIsLoading false) ;;;
             modify (set_fetchingRef false))
  | _, _ => modify (setProfile None)
  end.

(** [updateProfile] of the render whose [profile] is [rendered]: after the
    submission it calls the [fetchProfile] of that same render. *)
Definition updateProfile (wallet : option AnchorWallet.t)
  (rendered : option UserProfile.t) (handle bio avatarUri : string)
  : Started State :=
  match program wallet, profilePda wallet, wallet with
  | Some _, Some _, Some w =>
      submitted (updateUserProfile handle bio avatarUri (AnchorWallet.publicKey w))
        (fun sent =>
           try_catch
             (tx <- lift sent ;;
              fetchProfile_of rendered wallet ;;;
              Return (Success tx))
             (fun err => Return (Failure (getErrorMessage (errorCode err)))))
  | _, _, _ => threw (Error "Program or profile PDA or wallet not available")
  end.

End Hook.

End UseUserProfile.

(** ** usePost *)

Module UsePost.

Module Post.
Record t : Type := mk {
  profile : PublicKey;
  creator : PublicKey;
  content : string;
  media_uri : string;
  like_count : Z;
  dislike_count : Z;
  love_count : Z;
  haha_count : Z;
  wow_count : Z;
  sad_count : Z;
  angry_count : Z;
  comment_count : Z;
  created_at : Z;
  updated_at : Z;
  creator_handle : option string
}.
End Post.

(** [{ ...post, creatorHandle: handle }] *)
Module PostWithHandle.
Record t : Type := mk {
  publicKey : PublicKey;
  account : PostAccount.t;
  creatorHandle : string
}.
End PostWithHandle.

(** What [fetchPost] resolves to. *)
Inductive FetchPostResult : Type :=
| undefined
| userPost (p : Post.t)
| failure (error : string).

Record State : Type := mkState {
  post : option Post.t;
  isLoading : bool;
  error : option string;
  posts : list (ProgramAccount PostAccount.t);
  allPosts : list PostWithHandle.t;
  fetchingRef : bool
}.

Definition initial : State := mkState None false None [] [] false.

Definition setPost (v : option Post.t) (s : State) : State :=
  mkState v (isLoading s) (error s) (posts s) (allPosts s) (fetchingRef s).
Definition setIsLoading (v : bool) (s : State) : State :=
  mkState (post s) v (error s) (posts s) (allPosts s) (fetchingRef s).
Definition setError (v : option string) (s : State) : State :=
  mkState (post s) (isLoading s) v (posts s) (allPosts s) (fetchingRef s).
Definition setPosts (v : list (ProgramAccount PostAccount.t)) (s : State) : State :=
  mkState (post s) (isLoading s) (error s) v (allPosts s) (fetchingRef s).
Definition setAllPosts (v : list PostWithHandle.t) (s : State) : State :=
  mkState (post s) (isLoading s) (error s) (posts s) v (fetchingRef s).
Definition set_fetchingRef (v : bool) (s : State) : State :=
  mkState (post s) (isLoading s) (error s) (posts s) (allPosts s) v.

Section Hook.
Context {lib : Library}.

(** [const { profilePda } = useUserProfile()] *)
Definition profilePda := UseUserProfile.profilePda.

(** Derive PDA for post (utility function) *)
Definition derivePostPda (wallet : option AnchorWallet.t) (mediaUri : string)
  (profilePda : PublicKey) : option PublicKey :=
  match wallet with
  | None => None
  | Some w =>
      Some (fst (findProgramAddressSync
                   [ Buffer_from "post";
                     toBuffer (AnchorWallet.publicKey w);
                     content_digest mediaUri;
                     toBuffer profilePda ]
                   PROGRAM_ID))
  end.

Definition createPost (wallet : option AnchorWallet.t) (mediaUri content : string)
  : Async State TxResult :=
  match program wallet, wallet, profilePda wallet with
  | Some _, Some w, Some profilePda =>
      try_catch
        (postPda <- match derivePostPda wallet mediaUri profilePda with
                    | Some p => Return p
                    | None => Throw (Error "Failed to derive post PDA")
                    end ;;
         tx <- await (createPost_rpc mediaUri content
                        (AnchorWallet.publicKey w) postPda profilePda) ;;
         Return (Success tx))
        (fun err => Return (Failure (getErrorMessage (errorCode err))))
  | _, _, _ => Throw (Error "Program or wallet not available")
  end.

Definition userPost_of (postAccount : PostAccount.t) : Outcome Post.t :=
  obind (toNumber (PostAccount.likeCount postAccount)) (fun like_count =>
  obind (toNumber (PostAccount.dislikeCount postAccount)) (fun dislike_count =>
  obind (toNumber (PostAccount.loveCount postAccount)) (fun love_count =>
  obind (toNumber (PostAccount.hahaCount postAccount)) (fun haha_count =>
  obind (toNumber (PostAccount.wowCount postAccount)) (fun wow_count =>
  obind (toNumber (PostAccount.sadCount postAccount)) (fun sad_count =>
  obind (toNumber (PostAccount.angryCount postAccount)) (fun angry_count =>
  obind (toNumber (PostAccount.commentCount postAccount)) (fun comment_count =>
  obind (toNumber (PostAccount.createdAt postAccount)) (fun created_at =>
  obind (toNumber (PostAccount.updatedAt postAccount)) (fun updated_at =>
  Ok (Post.mk
        (PostAccount.profile postAccount)
        (PostAccount.creator postAccount)
        (PostAccount.content postAccount)
        (PostAccount.mediaUri postAccount)
        like_count dislike_count love_count haha_count wow_count sad_count
        angry_count comment_count created_at updated_at None))))))))))).

(** Fetch post data by PDA *)
Definition fetchPost (wallet : option AnchorWallet.t) (mediaUri : string)
  : Async State FetchPostResult :=
  match program wallet, profilePda wallet with
  | Some _, Some profilePda =>
      try_catch
        (postPda <- match derivePostPda wallet mediaUri profilePda with
                    | Some p => Return p
                    | None => Throw (Error "Failed to derive post PDA")
                    end ;;
         postAccount <- await (post_fetch postPda) ;;
         p <- lift (userPost_of postAccount) ;;
         modify (setPost (Some p)) ;;;
         Return (userPost p))
        (fun err => Return (failure (getErrorMessage (errorCode err))))
  | _, _ => Return undefined
  end.

Definition fetchAllUserPosts (wallet : option AnchorWallet.t) : Async State unit :=
  match program wallet, wallet, profilePda wallet with
  | Some _, Some _, Some profilePda =>
      try_catch
        (userPosts <- await (post_all_memcmp (mkMemcmp 8 (toString profilePda))) ;;
         modify (setPosts userPosts))
        (fun err => modify (setError (Some (getErrorMessage (errorCode err)))))
  | _, _, _ => Return tt
  end.

(** Get unique creators to avoid duplicate profile fetches: the callback of
    [allPostsResponse.forEach] and the loop. *)
Definition uniqueCreators_step (uniqueCreators : JSMap.t PublicKey)
  (post : ProgramAccount PostAccount.t) : JSMap.t PublicKey :=
  let creatorKey := toString (PostAccount.creator (account post)) in
  if JSMap.has uniqueCreators creatorKey then uniqueCreators
  else JSMap.set uniqueCreators creatorKey (PostAccount.creator (account post)).

Definition uniqueCreators (allPostsResponse : list (ProgramAccount PostAccount.t))
  : JSMap.t PublicKey :=
  fold_left uniqueCreators_step allPostsResponse JSMap.empty.

(** Derive all profile PDAs: the callback of [uniqueCreators.forEach], which
    fills [profilePdas] and [creatorToPda], and the loop. *)
Definition deriveProfilePdas_step
  : list PublicKey * JSMap.t PublicKey -> PublicKey -> list PublicKey * JSMap.t PublicKey :=
  fun '(profilePdas, creatorToPda) creator =>
    let creatorProfilePda :=
      fst (findProgramAddressSync
             [Buffer_from "profile"; toBuffer creator] PROGRAM_ID) in
    (profilePdas ++ [creatorProfilePda],
     JSMap.set creatorToPda (toString creator) creatorProfilePda).

Definition deriveProfilePdas (uniqueCreators : JSMap.t PublicKey)
  : list PublicKey * JSMap.t PublicKey :=
  fold_left deriveProfilePdas_step (JSMap.values uniqueCreators) ([], JSMap.empty).

(** Create a map of profile PDA to handle.  The body of the callback is
    inside [try { } catch (err) { }]: whatever it throws leaves the map as
    it is. *)
Definition profileMap_step (profilePdas : list PublicKey)
  (creatorToPda : JSMap.t PublicKey) (profileMap : JSMap.t string)
  (accountInfo : option AccountInfo) (index : nat) : Outcome (JSMap.t string) :=
  match accountInfo with
  | None => Ok profileMap
  | Some info =>
      match
        obind (decode_userProfile (data info)) (fun profileData =>
        let pda := nth_error profilePdas index in
        obind (JSArray.find_key (fun pdaKey => equals_js pdaKey pda)
                 (JSMap.entries creatorToPda)) (fun creator =>
        match creator with
        | Some c =>
            if truthy c
            then Ok (JSMap.set profileMap c (UserProfileAccount.handle profileData))
            else Ok profileMap
        | None => Ok profileMap
        end))
      with
      | Ok m => Ok m
      | Thrown _ => Ok profileMap
      end
  end.

(** [`User ${creatorKey.slice(0, 8)}...`] *)
Definition fallbackHandle (creatorKey : string) : string :=
  ("User " ++ substring 0 8 creatorKey ++ "...")%string.

(** Map posts with handles *)
Definition withHandle (profileMap : JSMap.t string) (post : ProgramAccount PostAccount.t)
  : PostWithHandle.t :=
  let creatorKey := toString (PostAccount.creator (account post)) in
  let handle :=
    match JSMap.get profileMap creatorKey with
    | Some h => or_else h (fallbackHandle creatorKey)
    | None => fallbackHandle creatorKey
    end in
  PostWithHandle.mk (publicKey post) (account post) handle.

(** [(a, b) => Number(b.account.createdAt) - Number(a.account.createdAt)],
    as [sort] reads its result *)
Definition byCreatedAtDesc (a b : PostWithHandle.t) : Z :=
  comparison
    (subtract (Number (PostAccount.createdAt (PostWithHandle.account b)))
       (Number (PostAccount.createdAt (PostWithHandle.account a)))).

Definition fetchAllPosts (wallet : option AnchorWallet.t) : Async State unit :=
  match program wallet, wallet with
  | Some _, Some _ =>
      s <- read ;;
      (* Prevent duplicate calls *)
      if fetchingRef s then Return tt
      else
        modify (set_fetchingRef true) ;;;
        modify (setIsLoading true) ;;;
        try_finally
          (try_catch
             ((* Fetch all posts in one call *)
              allPostsResponse <- await post_all ;;
              let uniqueCreators := uniqueCreators allPostsResponse in
              let '(profilePdas, creatorToPda) := deriveProfilePdas uniqueCreators in
              (* Batch fetch all profiles in one RPC call *)
              profileAccounts <- await (getMultipleAccountsInfo profilePdas) ;;
              profileMap <- lift (JSArray.forEach
                                    (profileMap_step profilePdas creatorToPda)
                                    profileAccounts JSMap.empty) ;;
              let postsWithHandles := map (withHandle profileMap) allPostsResponse in
              let sortedPosts := JSArray.sort byCreatedAtDesc postsWithHandles in
              modify (setAllPosts sortedPosts))
             (fun err =>
                modify (setError (Some (or_else (message err) "Failed to fetch posts")))))
          (modify (setIsLoading false) ;;;
           modify (set_fetchingRef false))
  | _, _ => Return tt
  end.

Definition deletePost (wallet : option AnchorWallet.t) (mediaUri : string)
  : Started State :=
  match program wallet, wallet, profilePda wallet with
  | Some _, Some w, Some profilePda =>
      match derivePostPda wallet mediaUri profilePda with
      | None => threw (Error "Failed to derive post PDA")
      | Some postPda =>
          submitted (deleteUserPost (AnchorWallet.publicKey w) postPda)
            (fun sent =>
               try_catch
                 (tx <- lift sent ;;
                  Return (Success tx))
                 (fun err => Return (Failure (getErrorMessage (errorCode err)))))
      end
  | _, _, _ => returned_undefined
  end.

End Hook.

End UsePost.

(** ** useComments *)

Module UseComments.

Module Comment.
Record t : Type := mk {
  post : PublicKey;
  commentBy : PublicKey;
  content : string;
  createdAt : Z;
  updatedAt : Z
}.
End Comment.

Record State : Type := mkState {
  comments : list Comment.t;
  isLoading : bool;
  error : option string;
  (** Track which post is being fetched *)
  fetchingRef : option string
}.

Definition initial : State := mkState [] false None None.

Definition setComments (v : list Comment.t) (s : State) : State :=
  mkState v (isLoading s) (error s) (fetchingRef s).
Definition setIsLoading (v : bool) (s : State) : State :=
  mkState (comments s) v (error s) (fetchingRef s).
Definition setError (v : option string) (s : State) : State :=
  mkState (comments s) (isLoading s) v (fetchingRef s).
Definition set_fetchingRef (v : option string) (s : State) : State :=
  mkState (comments s) (isLoading s) (error s) v.

Section Hook.
Context {lib : Library}.

Definition profilePda := UseUserProfile.profilePda.

(** Derive PDA for comment *)
Definition deriveCommentPda (wallet : option AnchorWallet.t) (postPda : PublicKey)
  (content : string) : option PublicKey :=
  match wallet with
  | None => None
  | Some w =>
      Some (fst (findProgramAddressSync
                   [ Buffer_from "comment";
                     toBuffer postPda;
                     toBuffer (AnchorWallet.publicKey w);
                     content_digest content ]
                   PROGRAM_ID))
  end.

(** Convert to our interface format *)
Definition comment_of (commentAccount : ProgramAccount CommentAccount.t)
  : Outcome Comment.t :=
  let commentData := account commentAccount in
  obind (toNumber (CommentAccount.createdAt commentData)) (fun createdAt =>
  obind (toNumber (CommentAccount.updatedAt commentData)) (fun updatedAt =>
  Ok (Comment.mk
        (CommentAccount.post commentData)
        (CommentAccount.commentBy commentData)
        (CommentAccount.content commentData)
        createdAt updatedAt))).

Definition byCreatedAtAsc (a b : Comment.t) : Z :=
  Comment.createdAt a - Comment.createdAt b.

(** Fetch comments with duplicate call prevention *)
Definition fetchCommentsForPost (wallet : option AnchorWallet.t) (postPda : PublicKey)
  : Async State unit :=
  match program wallet with
  | None => Return tt
  | Some _ =>
      let postKey := toString postPda in
      s <- read ;;
      (* Prevent duplicate calls for the same post *)
      if option_string_eqb (fetchingRef s) (Some postKey) then Return tt
      else
        modify (set_fetchingRef (Some postKey)) ;;;
        modify (setIsLoading true) ;;;
        modify (setError None) ;;;
        try_finally
          (try_catch
             ((* 1 RPC call: Fetch all comments for this post *)
              postComments <- await (comment_all_memcmp
                                       (mkMemcmp 8 (toString postPda))) ;;
              commentsList <- lift (mapM comment_of postComments) ;;
              (* Sort by creation time (oldest first) *)
              modify (setComments (JSArray.sort byCreatedAtAsc commentsList)))
             (fun err => modify (setError (Some (message err)))))
          (modify (setIsLoading false) ;;;
           modify (set_fetchingRef None))
  end.

(** Add comment to a post *)
Definition addComment (wallet : option AnchorWallet.t) (postPda : PublicKey)
  (content : string) : Async State TxResult :=
  match program wallet, wallet, profilePda wallet with
  | Some _, Some w, Some _ =>
      try_catch
        (commentPda <- match deriveCommentPda wallet postPda content with
                       | Some p => Return p
                       | None => Throw (Error "Failed to derive comment PDA")
                       end ;;
         tx <- await (createComment_rpc content
                        (AnchorWallet.publicKey w) commentPda postPda) ;;
         (* Refresh comments for this post *)
         fetchCommentsForPost wallet postPda ;;;
         Return (Success tx))
        (fun err => Return (Failure (getErrorMessage (errorCode err))))
  | _, _, _ => Throw (Error "Program, wallet, or profile not available")
  end.

End Hook.

End UseComments.

(** ** useProfiles *)

Module UseProfiles.

Module ProfileWithFollowStatus.
Record t : Type := mk {
  authority : PublicKey;
  handle : string;
  bio : string;
  avatarUri : string;
  createdAt : Z;
  updatedAt : Z;
  followerCount : Z;
  followingCount : Z;
  isFollowing : bool;
  followPda : option PublicKey
}.
End ProfileWithFollowStatus.

(** [{ isFollowing, followPda }] *)
Module FollowStatus.
Record t : Type := mk {
  isFollowing : bool;
  followPda : option PublicKey
}.
End FollowStatus.

Record State : Type := mkState {
  profiles : list ProfileWithFollowStatus.t;
  isLoading : bool;
  error : option string;
  fetchingRef : bool
}.

Definition initial : State := mkState [] false None false.

Definition setProfiles (v : list ProfileWithFollowStatus.t) (s : State) : State :=
  mkState v (isLoading s) (error s) (fetchingRef s).
Definition setIsLoading (v : bool) (s : State) : State :=
  mkState (profiles s) v (error s) (fetchingRef s).
Definition setError (v : option string) (s : State) : State :=
  mkState (profiles s) (isLoading s) v (fetchingRef s).
Definition set_fetchingRef (v : bool) (s : State) : State :=
  mkState (profiles s) (isLoading s) (error s) v.

Section Hook.
Context {lib : Library}.

(** Derive PDA for follow relationship *)
Definition deriveFollowPda (follower following : PublicKey) : PublicKey :=
  fst (findProgramAddressSync
         [Buffer_from "follow"; toBuffer follower; toBuffer following]
         PROGRAM_ID).

(** Derive all follow PDAs at once: the callback of
    [profileAuthorities.forEach], which fills [followPdas] and
    [authorityToFollowPda], and the loop. *)
Definition deriveFollowPdas_step (walletKey : PublicKey)
  : list PublicKey * JSMap.t PublicKey -> PublicKey -> list PublicKey * JSMap.t PublicKey :=
  fun '(followPdas, authorityToFollowPda) authority =>
    let followPda := deriveFollowPda walletKey authority in
    (followPdas ++ [followPda],
     JSMap.set authorityToFollowPda (toString authority) followPda).

Definition deriveFollowPdas (walletKey : PublicKey) (profileAuthorities : list PublicKey)
  : list PublicKey * JSMap.t PublicKey :=
  fold_left (deriveFollowPdas_step walletKey) profileAuthorities ([], JSMap.empty).

(** Create result map: the callback of [followAccounts.forEach] *)
Definition resultMap_step (followPdas : list PublicKey)
  (authorityToFollowPda : JSMap.t PublicKey) (resultMap : JSMap.t FollowStatus.t)
  (accountInfo : option AccountInfo) (index : nat) : Outcome (JSMap.t FollowStatus.t) :=
  let followPda := nth_error followPdas index in
  obind (JSArray.find_key (fun pda => equals_js pda followPda)
           (JSMap.entries authorityToFollowPda)) (fun authority =>
  match authority with
  | Some a =>
      if truthy a
      then Ok (JSMap.set resultMap a
                 (FollowStatus.mk (isSome accountInfo)
                    (if isSome accountInfo then followPda else None)))
      else Ok resultMap
  | None => Ok resultMap
  end).

Definition batchCheckFollowStatus (wallet : option AnchorWallet.t)
  (profileAuthorities : list PublicKey) : Async State (JSMap.t FollowStatus.t) :=
  match wallet, program wallet with
  | Some w, Some _ =>
      let '(followPdas, authorityToFollowPda) :=
        deriveFollowPdas (AnchorWallet.publicKey w) profileAuthorities in
      (* Batch fetch all follow accounts in ONE RPC call *)
      followAccounts <- await (getMultipleAccountsInfo followPdas) ;;
      lift (JSArray.forEach (resultMap_step followPdas authorityToFollowPda)
              followAccounts JSMap.empty)
  | _, _ => Return JSMap.empty
  end.

(** Build profiles with follow status: the callback of [otherProfiles.map] *)
Definition withFollowStatus (followStatusMap : JSMap.t FollowStatus.t)
  (profileAccount : ProgramAccount UserProfileAccount.t)
  : Outcome ProfileWithFollowStatus.t :=
  let profileData := account profileAccount in
  let authorityKey := toString (UserProfileAccount.authority profileData) in
  let followStatus :=
    match JSMap.get followStatusMap authorityKey with
    | Some st => st
    | None => FollowStatus.mk false None
    end in
  obind (toNumber (UserProfileAccount.followerCount profileData)) (fun followerCount =>
  obind (toNumber (UserProfileAccount.followingCount profileData)) (fun followingCount =>
  obind (toNumber (UserProfileAccount.createdAt profileData)) (fun createdAt =>
  obind (toNumber (UserProfileAccount.updatedAt profileData)) (fun updatedAt =>
  Ok (ProfileWithFollowStatus.mk
        (UserProfileAccount.authority profileData)
        (UserProfileAccount.handle profileData)
        (UserProfileAccount.bio profileData)
        (UserProfileAccount.avatarUri profileData)
        createdAt updatedAt followerCount followingCount
        (FollowStatus.isFollowing followStatus)
        (FollowStatus.followPda followStatus)))))).

(** Filter out current user's profile *)
Definition otherProfiles (walletKey : PublicKey)
  (allProfiles : list (ProgramAccount UserProfileAccount.t))
  : list (ProgramAccount UserProfileAccount.t) :=
  filter
    (fun profileAccount =>
       negb (equals (UserProfileAccount.authority (account profileAccount)) walletKey))
    allProfiles.

(** Fetch all profiles with batch follow status check *)
Definition fetchAllProfiles (wallet : option AnchorWallet.t) : Async State unit :=
  match program wallet, wallet with
  | Some _, Some w =>
      s <- read ;;
      (* Prevent duplicate calls *)
      if fetchingRef s then Return tt
      else
        modify (set_fetchingRef true) ;;;
        modify (setIsLoading true) ;;;
        modify (setError None) ;;;
        try_finally
          (try_catch
             (allProfiles <- await userProfile_all ;;
              let otherProfiles := otherProfiles (AnchorWallet.publicKey w) allProfiles in
              (* Extract all profile authorities *)
              let profileAuthorities :=
                map (fun profileAccount =>
                       UserProfileAccount.authority (account profileAccount))
                    otherProfiles in
              (* Batch check follow status for ALL profiles at once *)
              followStatusMap <- batchCheckFollowStatus wallet profileAuthorities ;;
              profilesWithStatus <- lift (mapM (withFollowStatus followStatusMap)
                                            otherProfiles) ;;
              modify (setProfiles profilesWithStatus))
             (fun err => modify (setError (Some (message err)))))
          (modify (setIsLoading false) ;;;
           modify (set_fetchingRef false))
  | _, _ => Return tt
  end.

(** Follow a user *)
Definition followUser (wallet : option AnchorWallet.t) (profileAuthority : PublicKey)
  : Started State :=
  match program wallet, wallet with
  | Some _, Some w =>
      (* Derive PDAs *)
      let followPda := deriveFollowPda (AnchorWallet.publicKey w) profileAuthority in
      let followerProfilePda :=
        fst (findProgramAddressSync
               [Buffer_from "profile"; toBuffer (AnchorWallet.publicKey w)] PROGRAM_ID) in
      let followingProfilePda :=
        fst (findProgramAddressSync
               [Buffer_from "profile"; toBuffer profileAuthority] PROGRAM_ID) in
      submitted
        (followUserProfile (AnchorWallet.publicKey w) followerProfilePda followingProfilePda)
        (fun sent =>
           try_catch
             (tx <- lift sent ;;
              (* Update local state *)
              fetchAllProfiles wallet ;;;
              Return (Success tx))
             (fun err => Return (Failure (getErrorMessage (errorCode err)))))
  | _, _ => threw (Error "Program or wallet not available")
  end.

(** Unfollow a user *)
Definition unfollowUser (wallet : option AnchorWallet.t) (profileAuthority : PublicKey)
  : Started State :=
  match program wallet, wallet with
  | Some _, Some w =>
      (* Derive PDAs *)
      let followPda := deriveFollowPda (AnchorWallet.publicKey w) profileAuthority in
      let followerProfilePda :=
        fst (findProgramAddressSync
               [Buffer_from "profile"; toBuffer (AnchorWallet.publicKey w)] PROGRAM_ID) in
      let followingProfilePda :=
        fst (findProgramAddressSync
               [Buffer_from "profile"; toBuffer profileAuthority] PROGRAM_ID) in
      submitted
        (unfollowUserProfile (AnchorWallet.publicKey w) followerProfilePda followingProfilePda)
        (fun sent =>
           try_catch
             (tx <- lift sent ;;
              (* Update local state *)
              fetchAllProfiles wallet ;;;
              Return (Success tx))
             (fun err => Return (Failure (getErrorMessage (errorCode err)))))
  | _, _ => threw (Error "Program or wallet not available")
  end.

Definition useEffect (wallet : option AnchorWallet.t) : Async State unit :=
  match wallet, program wallet with
  | Some _, Some _ => fetchAllProfiles wallet
  | _, _ => modify (setProfiles [])
  end.

End Hook.

End UseProfiles.


(** ** Vocabulary of the statements *)

(** A completed invocation either never took the guard (it issued no call
    and left the guard as it was) or left the guard free. *)
Definition released {St G} (guard : St -> G) (free : G) (s : St) (r : Run St unit)
  : Prop :=
  (calls r = [] /\ guard (final r) = guard s)
  \/ (calls r <> [] /\ guard (final r) = free).

Section Vocabulary.
Context {lib : Library}.

(** The profile address of an owner: seeds ["profile"] and the owner's key. *)
Definition profileAddress (owner : PublicKey) : PublicKey :=
  fst (findProgramAddressSync [Buffer_from "profile"; toBuffer owner] PROGRAM_ID).


End Vocabulary.

(** The primary record under a decorated post. *)
Definition undecorate (p : UsePost.PostWithHandle.t) : ProgramAccount PostAccount.t :=
  mkProgramAccount (UsePost.PostWithHandle.publicKey p) (UsePost.PostWithHandle.account p).





(** The hook state after a fetch of all posts stored [sorted]. *)
Definition posts_after (s : UsePost.State) (sorted : list UsePost.PostWithHandle.t)
  : UsePost.State :=
  UsePost.set_fetchingRef false
    (UsePost.setIsLoading false
       (UsePost.setAllPosts sorted
          (UsePost.setIsLoading true (UsePost.set_fetchingRef true s)))).



Section FollowVocabulary.
Context {lib : Library}.

(** The follow address of an ordered pair: seeds ["follow"], the follower's
    key, then the followed key. *)
Definition followAddress (follower following : PublicKey) : PublicKey :=
  fst (findProgramAddressSync
         [Buffer_from "follow"; toBuffer follower; toBuffer following]
         PROGRAM_ID).

(** What the result map holds for an authority: whether an account exists at
    the follow address, and that address when it does. *)
Definition followStatusOf (accounts : PublicKey -> option AccountInfo)
  (walletKey authority : PublicKey) : UseProfiles.FollowStatus.t :=
  let followPda := UseProfiles.deriveFollowPda walletKey authority in
  UseProfiles.FollowStatus.mk
    (isSome (accounts followPda))
    (if isSome (accounts followPda) then Some followPda else None).

(** No two authorities of the list share a follow address. *)
Definition follow_addresses_distinct (walletKey : PublicKey)
  (authorities : list PublicKey) : Prop :=
  forall a b, In a authorities -> In b authorities ->
    UseProfiles.deriveFollowPda walletKey a = UseProfiles.deriveFollowPda walletKey b ->
    a = b.

End FollowVocabulary.

(** The rejection of a read of an address that holds no account, as
    [fetchProfile] recognises it. *)
Definition notFoundError (e : JsError) : Prop :=
  includes (message e) "Account does not exist" = true.

Section Invariants.
Context {lib : Library}.


(** The entries of [authorityToFollowPda] are the authorities seen so far,
    each with its follow address. *)
Definition follow_entries (walletKey : PublicKey) (seen : list PublicKey)
  (m : JSMap.t PublicKey) : Prop :=
  forall k p, In (k, p) m <->
    exists a, In a seen /\ k = toString a /\ p = UseProfiles.deriveFollowPda walletKey a.

End Invariants.

(** ** Schedules: calls of a handler and settlements, in any order *)

Section Schedules.
Context {St H : Type}.

Inductive Event : Type :=
| Call_handler (h : H)
| Settle (remote : Remote) (i : nat).

Definition step (handler : H -> Async St unit) (l : Loop St) (e : Event) : Loop St :=
  match e with
  | Call_handler h => invoke (handler h) l
  | Settle remote i => settle remote i l
  end.

Definition play (handler : H -> Async St unit) (events : list Event) (l : Loop St)
  : Loop St :=
  fold_left (step handler) events l.

Variable guard : St -> bool.

(** From [s], [m] ends with the guard free, or suspends with the guard held
    and, resumed with the guard still held, does so again. *)
Fixpoint releases (m : Async St unit) (s : St) : Prop :=
  match m with
  | Return _ => guard s = false
  | Throw _ => guard s = false
  | Access k => releases (k s) s
  | Update f k => releases k (f s)
  | Await _ k => guard s = true /\ forall o s', guard s' = true -> releases (k o) s'
  end.

(** Nothing is in flight and the guard is free, or one invocation is in
    flight, the guard is held, and it will release the guard. *)
Definition coalesced (l : Loop St) : Prop :=
  (guard (store l) = false /\ inflight l = [])
  \/ (guard (store l) = true
      /\ exists R (r : Request R) k,
           inflight l = [task r k]
           /\ forall o s', guard s' = true -> releases (k o) s').

End Schedules.
Arguments Event H : clear implicits.

Section Handlers.
Context {lib : Library}.

(** What the page can call on [useUserProfile]: the effect or [refetch]. *)
Definition profileHandler (h : bool * option AnchorWallet.t)
  : Async UseUserProfile.State unit :=
  if fst h then UseUserProfile.useEffect (snd h)
  else UseUserProfile.fetchProfile (snd h).

(** What the page can call on [useProfiles]: the effect or [refetch]. *)
Definition profilesHandler (h : bool * option AnchorWallet.t)
  : Async UseProfiles.State unit :=
  if fst h then UseProfiles.useEffect (snd h)
  else UseProfiles.fetchAllProfiles (snd h).

End Handlers.

Section HandleVocabulary.
Context {lib : Library}.

(** The handle read for a creator: that of the profile account at the
    creator's profile address, when there is one and it decodes. *)
Definition decodedHandle (accounts : PublicKey -> option AccountInfo)
  (creator : PublicKey) : option string :=
  match accounts (profileAddress creator) with
  | None => None
  | Some info =>
      match decode_userProfile (data info) with
      | Ok profileData => Some (UserProfileAccount.handle profileData)
      | Thrown _ => None
      end
  end.

(** The placeholder for a creator: the word User, a space, the first 8
    characters of the creator's key, and three dots. *)
Definition placeholderHandle (creator : PublicKey) : string :=
  ("User " ++ substring 0 8 (toString creator) ++ "...")%string.

(** The handle shown for a creator: the decoded one unless it is missing or
    empty, then the placeholder. *)
Definition shownHandle (accounts : PublicKey -> option AccountInfo)
  (creator : PublicKey) : string :=
  match decodedHandle accounts creator with
  | Some EmptyString => placeholderHandle creator
  | Some h => h
  | None => placeholderHandle creator
  end.

(** No two creators of the posts share a profile address. *)
Definition profile_addresses_distinct (posts : list (ProgramAccount PostAccount.t))
  : Prop :=
  forall p q, In p posts -> In q posts ->
    profileAddress (PostAccount.creator (account p))
    = profileAddress (PostAccount.creator (account q)) ->
    PostAccount.creator (account p) = PostAccount.creator (account q).

(** The entries of [creatorToPda] are the creators seen so far, each with its
    profile address. *)
Definition profile_entries (seen : list PublicKey) (m : JSMap.t PublicKey) : Prop :=
  forall k p, In (k, p) m <->
    exists c, In c seen /\ k = toString c /\ p = profileAddress c.

End HandleVocabulary.

(** ** Integers of the ledger in JavaScript *)

(** What [toNumber()] accepts. *)
Definition safeInteger (bn : Z) : Prop := Z.abs bn < 2 ^ 53.

(** What [toNumber()] throws otherwise. *)
Definition tooLarge : JsError := Error "Number can only safely store up to 53 bits".

Definition comment_safe (c : ProgramAccount CommentAccount.t) : Prop :=
  safeInteger (CommentAccount.createdAt (account c))
  /\ safeInteger (CommentAccount.updatedAt (account c)).

Definition profile_safe (p : UserProfileAccount.t) : Prop :=
  safeInteger (UserProfileAccount.followerCount p)
  /\ safeInteger (UserProfileAccount.followingCount p)
  /\ safeInteger (UserProfileAccount.createdAt p)
  /\ safeInteger (UserProfileAccount.updatedAt p).

Definition post_safe (p : PostAccount.t) : Prop :=
  safeInteger (PostAccount.likeCount p)
  /\ safeInteger (PostAccount.dislikeCount p)
  /\ safeInteger (PostAccount.loveCount p)
  /\ safeInteger (PostAccount.hahaCount p)
  /\ safeInteger (PostAccount.wowCount p)
  /\ safeInteger (PostAccount.sadCount p)
  /\ safeInteger (PostAccount.angryCount p)
  /\ safeInteger (PostAccount.commentCount p)
  /\ safeInteger (PostAccount.createdAt p)
  /\ safeInteger (PostAccount.updatedAt p).

Section DecorationVocabulary.
Context {lib : Library}.

(** A scanned profile with the follow status read from the ledger. *)
Definition decorated (accounts : PublicKey -> option AccountInfo) (walletKey : PublicKey)
  (profileAccount : ProgramAccount UserProfileAccount.t)
  : UseProfiles.ProfileWithFollowStatus.t :=
  let p := account profileAccount in
  let followPda :=
    UseProfiles.deriveFollowPda walletKey (UserProfileAccount.authority p) in
  UseProfiles.ProfileWithFollowStatus.mk
    (UserProfileAccount.authority p) (UserProfileAccount.handle p)
    (UserProfileAccount.bio p) (UserProfileAccount.avatarUri p)
    (UserProfileAccount.createdAt p) (UserProfileAccount.updatedAt p)
    (UserProfileAccount.followerCount p) (UserProfileAccount.followingCount p)
    (isSome (accounts followPda))
    (if isSome (accounts followPda) then Some followPda else None).

End DecorationVocabulary.

(** ** Functions that cannot reject, and refreshes after a submission *)

Section NeverThrows.
Context {St A : Type}.

(** No path through [m] ends in an uncaught exception. *)
Fixpoint never_throws (m : Async St A) : Prop :=
  match m with
  | Return _ => True
  | Throw _ => False
  | Access k => forall s, never_throws (k s)
  | Update _ k => never_throws k
  | Await _ k => forall o, never_throws (k o)
  end.

End NeverThrows.

Section RefreshVocabulary.
Context {lib : Library} {St : Type}.

(** How a function goes on after its submission settled: a rejection becomes
    [{ success: false, error }] and nothing else happens; a transaction id
    becomes [{ success: true, tx }] once [refresh] has run. *)
Definition refreshes_with (refresh : Async St unit)
  (afterwards : Outcome string -> Async St TxResult) : Prop :=
  (forall (world : World St) s e,
      run world (afterwards (Thrown e)) s
      = mkRun s (Ok (Failure (getErrorMessage (errorCode e)))) [])
  /\ (forall (world : World St) s tx,
        run world (afterwards (Ok tx)) s
        = mkRun (final (run world refresh s)) (Ok (Success tx))
            (calls (run world refresh s))).

End RefreshVocabulary.

(** The profile as the hook shows it. *)
Definition profile_view (profileAccount : UserProfileAccount.t)
  : UseUserProfile.UserProfile.t :=
  UseUserProfile.UserProfile.mk
    (UserProfileAccount.authority profileAccount)
    (UserProfileAccount.handle profileAccount)
    (UserProfileAccount.bio profileAccount)
    (UserProfileAccount.avatarUri profileAccount)
    (UserProfileAccount.createdAt profileAccount)
    (UserProfileAccount.updatedAt profileAccount)
    (UserProfileAccount.followerCount profileAccount)
    (UserProfileAccount.followingCount profileAccount).

(** The post as the hook shows it. *)
Definition post_view (postAccount : PostAccount.t) : UsePost.Post.t :=
  UsePost.Post.mk
    (PostAccount.profile postAccount)
    (PostAccount.creator postAccount)
    (PostAccount.content postAccount)
    (PostAccount.mediaUri postAccount)
    (PostAccount.likeCount postAccount)
    (PostAccount.dislikeCount postAccount)
    (PostAccount.loveCount postAccount)
    (PostAccount.hahaCount postAccount)
    (PostAccount.wowCount postAccount)
    (PostAccount.sadCount postAccount)
    (PostAccount.angryCount postAccount)
    (PostAccount.commentCount postAccount)
    (PostAccount.createdAt postAccount)
    (PostAccount.updatedAt postAccount)
    None.

Section AddressVocabulary.
Context {lib : Library}.

(** The post address of an owner's media URI. *)
Definition postAddress (owner : PublicKey) (mediaUri : string) : PublicKey :=
  fst (findProgramAddressSync
         [ Buffer_from "post"; toBuffer owner; content_digest mediaUri;
           toBuffer (profileAddress owner) ]
         PROGRAM_ID).

(** The address of an owner's comment on a post. *)
Definition commentAddress (owner postPda : PublicKey) (content : string) : PublicKey :=
  fst (findProgramAddressSync
         [ Buffer_from "comment"; toBuffer postPda; toBuffer owner;
           content_digest content ]
         PROGRAM_ID).

(** The scan of the posts of an owner's profile. *)
Definition userPostsScan (owner : PublicKey) : Call :=
  call (post_all_memcmp (mkMemcmp 8 (toString (profileAddress owner)))).

End AddressVocabulary.

(** The comment as the hook shows it. *)
Definition comment_view (commentAccount : ProgramAccount CommentAccount.t)
  : UseComments.Comment.t :=
  UseComments.Comment.mk
    (CommentAccount.post (account commentAccount))
    (CommentAccount.commentBy (account commentAccount))
    (CommentAccount.content (account commentAccount))
    (CommentAccount.createdAt (account commentAccount))
    (CommentAccount.updatedAt (account commentAccount)).

(** ** A concrete library and ledger, to evaluate the hooks on *)

Module Demo.

(** A key renders as ['K'] followed by its bytes read as text. *)
Definition demo_toString (k : PublicKey) : string :=
  String "K" (string_of_list_byte (toBuffer k)).

Definition demo_PublicKey_new (s : string) : PublicKey :=
  mkPublicKey (Buffer_from s).

(** The first candidate of the program-address search: the SHA-256 digest of
    the seeds, the bump 255, the program id and the marker. *)
Definition demo_findProgramAddressSync (seeds : list Buffer) (programId : PublicKey)
  : PublicKey * Z :=
  (mkPublicKey
     (SHA256.digest
        (List.concat seeds ++ [xff] ++ toBuffer programId
         ++ Buffer_from "ProgramDerivedAddress")),
   255).

(** A profile payload: an 8-byte discriminator, then the handle. *)
Definition demo_decode_userProfile (data : Buffer) : Outcome UserProfileAccount.t :=
  if Buffer_eqb (firstn 8 data) (Buffer_from "profile:")
  then Ok (UserProfileAccount.mk (mkPublicKey []) (string_of_list_byte (skipn 8 data))
             "" "" 0 0 0 0)
  else Thrown (Error "Invalid account discriminator").

Definition demo_getErrorMessage (code : option string) : string :=
  match code with
  | Some c => c
  | None => "Operation failed"
  end.

#[export] Instance library : Library := {
  toString := demo_toString;
  PublicKey_new := demo_PublicKey_new;
  findProgramAddressSync := demo_findProgramAddressSync;
  decode_userProfile := demo_decode_userProfile;
  getErrorMessage := demo_getErrorMessage
}.

Definition key (name : string) : PublicKey := mkPublicKey (Buffer_from name).
Definition walletOf (name : string) : option AnchorWallet.t :=
  Some (AnchorWallet.mk (key name)).

Definition notFound : JsError := Error "Account does not exist or has no data".
Definition networkError : JsError := Error "failed to get info about account".

(** The ledger: what each remote read returns. *)
Record Ledger : Type := mkLedger {
  allPostAccounts : Outcome (list (ProgramAccount PostAccount.t));
  postAt : PublicKey -> Outcome PostAccount.t;
  profileAt : PublicKey -> Outcome UserProfileAccount.t;
  allProfileAccounts : Outcome (list (ProgramAccount UserProfileAccount.t));
  commentsOf : string -> Outcome (list (ProgramAccount CommentAccount.t));
  accountInfoAt : PublicKey -> option AccountInfo
}.

Definition remote (l : Ledger) : Remote := fun R r =>
  match r in Request R return Outcome R with
  | post_all => allPostAccounts l
  | post_all_memcmp _ => allPostAccounts l
  | post_fetch pda => postAt l pda
  | createPost_rpc _ _ _ _ _ => Ok "tx"
  | userProfile_fetch pda => profileAt l pda
  | userProfile_all => allProfileAccounts l
  | comment_all_memcmp f => commentsOf l (bytes f)
  | createComment_rpc _ _ _ _ => Ok "tx"
  | getMultipleAccountsInfo pdas => Ok (map (accountInfoAt l) pdas)
  end.

(** Every [await] is answered from the ledger; nothing else touches the hook. *)
Definition world {St} (l : Ledger) : World St :=
  quiet (fun _ => remote l).

Definition emptyLedger : Ledger :=
  mkLedger (Ok []) (fun _ => Thrown notFound) (fun _ => Thrown notFound)
    (Ok []) (fun _ => Ok []) (fun _ => None).

Definition postBy (address creator : string) (createdAt : Z)
  : ProgramAccount PostAccount.t :=
  mkProgramAccount (key address)
    (PostAccount.mk (key "profile") (key creator) "text" "uri"
       0 0 0 0 0 0 0 0 createdAt createdAt).

Definition profileOf (authority handle : string) : ProgramAccount UserProfileAccount.t :=
  mkProgramAccount (key authority)
    (UserProfileAccount.mk (key authority) handle "" "" 0 0 0 0).

Definition commentAt (content : string) (createdAt : Z)
  : ProgramAccount CommentAccount.t :=
  mkProgramAccount (key content)
    (CommentAccount.mk (key "post") (key "bob") content createdAt createdAt).


(** Scenario B: 50 posts by 5 creators. *)
Definition creatorNames : list string := ["alice"; "bob"; "carol"; "dave"; "erin"].

Definition posts50 : list (ProgramAccount PostAccount.t) :=
  map (fun i => postBy (String (ascii_of_nat (48 + i)) "")
                  (nth (i mod 5) creatorNames "") (Z.of_nat i))
      (seq 0 50).

Definition fiftyPosts : Ledger :=
  mkLedger (Ok posts50) (fun _ => Thrown notFound) (fun _ => Thrown notFound)
    (Ok []) (fun _ => Ok []) (fun _ => None).

(** Three posts: alice has a profile, bob has none, carol's does not decode. *)
Definition threePosts : list (ProgramAccount PostAccount.t) :=
  [postBy "p1" "alice" 10; postBy "p2" "bob" 20; postBy "p3" "carol" 30].

Definition profileAccounts (k : PublicKey) : option AccountInfo :=
  if equals k (profileAddress (key "alice"))
  then Some (mkAccountInfo (Buffer_from "profile:alice.sol"))
  else if equals k (profileAddress (key "carol"))
       then Some (mkAccountInfo (Buffer_from "garbage"))
       else None.

Definition threeCreators : Ledger :=
  mkLedger (Ok threePosts) (fun _ => Thrown notFound) (fun _ => Thrown notFound)
    (Ok []) (fun _ => Ok []) profileAccounts.



Definition threeComments : list (ProgramAccount CommentAccount.t) :=
  [commentAt "second" 20; commentAt "first" 10; commentAt "third" 30].


(** Only alice has a profile; every other profile read fails on the network. *)
Definition aliceAccount : UserProfileAccount.t :=
  UserProfileAccount.mk (key "alice") "alice.sol" "" "" 3 4 100 100.

Definition aliceOnly : Ledger :=
  mkLedger (Ok [])
    (fun _ => Thrown notFound)
    (fun pda => if equals pda (profileAddress (key "alice"))
                then Ok aliceAccount else Thrown networkError)
    (Ok []) (fun _ => Ok []) (fun _ => None).

(** The hook after alice's profile was fetched, and after the wallet then
    changed to bob's. *)
Definition afterAlice : UseUserProfile.State :=
  final (run (world aliceOnly) (UseUserProfile.useEffect (walletOf "alice"))
           UseUserProfile.initial).

Definition switchedToBob : Loop UseUserProfile.State :=
  invoke (UseUserProfile.useEffect (walletOf "bob")) (mkLoop afterAlice [] []).

(** Alice follows bob and not carol. *)
Definition followAccounts (k : PublicKey) : option AccountInfo :=
  if equals k (followAddress (key "alice") (key "bob"))
  then Some (mkAccountInfo (Buffer_from "follow:"))
  else None.

Definition following : Ledger :=
  mkLedger (Ok []) (fun _ => Thrown notFound) (fun _ => Thrown notFound)
    (Ok [profileOf "alice" "alice.sol"; profileOf "bob" "bob.sol";
         profileOf "carol" "carol.sol"])
    (fun _ => Ok []) followAccounts.

(** A post fetched earlier, still in the hook. *)
Definition stalePost : UsePost.Post.t :=
  UsePost.Post.mk (key "profile") (key "alice") "old text" "old.png"
    0 0 0 0 0 0 0 0 1 1 None.

(** Three comment fetches before any settles: post A, post B, post A. *)
Definition interleaved : Loop UseComments.State :=
  invoke (UseComments.fetchCommentsForPost (walletOf "alice") (key "postA"))
    (invoke (UseComments.fetchCommentsForPost (walletOf "alice") (key "postB"))
       (invoke (UseComments.fetchCommentsForPost (walletOf "alice") (key "postA"))
          (mkLoop UseComments.initial [] []))).

(** A comment whose timestamp does not fit 53 bits, after one that does, and
    a post whose like counter does not. *)
Definition hugeComments : list (ProgramAccount CommentAccount.t) :=
  [commentAt "fine" 10; commentAt "huge" (2 ^ 53)].

Definition hugePost : PostAccount.t :=
  PostAccount.mk (key "profile") (key "alice") "text" "uri"
    (2 ^ 53) 0 0 0 0 0 0 0 1 1.

Definition overflowing : Ledger :=
  mkLedger (Ok []) (fun _ => Ok hugePost) (fun _ => Thrown notFound)
    (Ok []) (fun _ => Ok hugeComments) (fun _ => None).

(** Every post address holds alice's first post. *)
Definition onePost : Ledger :=
  mkLedger (Ok []) (fun _ => Ok (account (postBy "p1" "alice" 10)))
    (fun _ => Thrown notFound) (Ok []) (fun _ => Ok []) (fun _ => None).

(** The post hook with an error recorded by an earlier fetch. *)
Definition failedBefore : UsePost.State :=
  UsePost.setError (Some "failed to get info about account") UsePost.initial.

(** Post A has the three comments, every other post none. *)
Definition twoThreads : Ledger :=
  mkLedger (Ok []) (fun _ => Thrown notFound) (fun _ => Thrown notFound) (Ok [])
    (fun postKey => if String.eqb postKey "KpostA" then Ok threeComments else Ok [])
    (fun _ => None).

(** Three posts whose timestamps are 2^53, 2^53 + 1 and 2^53 + 2: the first
    two are the same double. *)
Definition beyond53 : list (ProgramAccount PostAccount.t) :=
  [postBy "r1" "alice" (2 ^ 53); postBy "r2" "alice" (2 ^ 53 + 1);
   postBy "r3" "alice" (2 ^ 53 + 2)].

Definition farFuture : Ledger :=
  mkLedger (Ok beyond53) (fun _ => Thrown notFound) (fun _ => Thrown notFound)
    (Ok []) (fun _ => Ok []) (fun _ => None).

End Demo.

(** * Properties *)

(** ** SHA-256 test vectors and the 4-byte content digest *)

Example sha256_abc :
  SHA256.hex (SHA256.digest (Buffer_from "abc")) =
  "ba7816bf8f01cfea414140de5dae2223b00361a396177a9cb410ff61f20015ad".
Proof. vm_compute. reflexivity. Qed.

Example sha256_empty :
  SHA256.hex (SHA256.digest (Buffer_from "")) =
  "e3b0c44298fc1c149afbf4c8996fb92427ae41e4649b934ca495991b7852b855".
Proof. vm_compute. reflexivity. Qed.

Example sha256_two_blocks :
  SHA256.hex (SHA256.digest (Buffer_from
    "abcdbcdecdefdefgefghfghighijhijkijkljklmklmnlmnomnopnopq")) =
  "248d6a61d20638b8e5c026930c3e6039a33ce45964ff2167f6ecedd419db06c1".
Proof. vm_compute. reflexivity. Qed.

Example content_digest_hello :
  SHA256.hex (content_digest "hello") = "2cf24dba".
Proof. vm_compute. reflexivity. Qed.

Lemma digest_length (msg : Buffer) : List.length (SHA256.digest msg) = 32%nat.
Proof.
  unfold SHA256.digest.
  destruct (SHA256.process _ _ _) as [[[[[[[a b] c] d] e] f] g] h].
  reflexivity.
Qed.

Lemma content_digest_length (s : string) : List.length (content_digest s) = 4%nat.
Proof.
  unfold content_digest.
  rewrite length_firstn, digest_length. reflexivity.
Qed.

Example content_digest_collision :
  content_digest "nice post 41472" = content_digest "nice post 140658".
Proof. vm_compute. reflexivity. Qed.

(** ** Laws of running asynchronous functions *)

Lemma run_eta {St A} (r : Run St A) : mkRun (final r) (result r) (calls r) = r.
Proof. destruct r; reflexivity. Qed.

Lemma run_from_bind {St A B} (w : World St) (m : Async St A) (f : A -> Async St B) :
  forall n s,
    run_from w n (bind m f) s =
    match result (run_from w n m s) with
    | Ok a =>
        let r2 := run_from w (n + List.length (calls (run_from w n m s))) (f a)
                    (final (run_from w n m s)) in
        mkRun (final r2) (result r2) (calls (run_from w n m s) ++ calls r2)
    | Thrown e =>
        mkRun (final (run_from w n m s)) (Thrown e) (calls (run_from w n m s))
    end.
Proof.
  induction m as [a | e | k IH | g k IH | R r k IH]; intros n s; simpl.
  - rewrite Nat.add_0_r. symmetry. apply run_eta.
  - reflexivity.
  - apply IH.
  - apply IH.
  - rewrite IH.
    destruct (result (run_from w (S n) (k (reply w n _ r)) (meanwhile w n s))); simpl.
    + rewrite Nat.add_succ_r. reflexivity.
    + reflexivity.
Qed.

Lemma run_from_try_catch {St A} (w : World St) (m : Async St A)
  (handler : JsError -> Async St A) :
  forall n s,
    run_from w n (try_catch m handler) s =
    match result (run_from w n m s) with
    | Ok a => run_from w n m s
    | Thrown e =>
        let r2 := run_from w (n + List.length (calls (run_from w n m s))) (handler e)
                    (final (run_from w n m s)) in
        mkRun (final r2) (result r2) (calls (run_from w n m s) ++ calls r2)
    end.
Proof.
  induction m as [a | e | k IH | g k IH | R r k IH]; intros n s; simpl.
  - reflexivity.
  - rewrite Nat.add_0_r. symmetry. apply run_eta.
  - apply IH.
  - apply IH.
  - rewrite IH.
    destruct (result (run_from w (S n) (k (reply w n _ r)) (meanwhile w n s))) eqn:E;
      simpl.
    + rewrite E. reflexivity.
    + rewrite Nat.add_succ_r. reflexivity.
Qed.

Lemma run_from_try_finally {St A} (w : World St) (m : Async St A)
  (cleanup : Async St unit) :
  forall n s,
    run_from w n (try_finally m cleanup) s =
    let rm := run_from w n m s in
    let rc := run_from w (n + List.length (calls rm)) cleanup (final rm) in
    mkRun (final rc)
      (match result rc with
       | Ok _ => result rm
       | Thrown e => Thrown e
       end)
      (calls rm ++ calls rc).
Proof.
  induction m as [a | e | k IH | g k IH | R r k IH]; intros n s; simpl.
  - rewrite run_from_bind, Nat.add_0_r.
    destruct (result (run_from w n cleanup s)); simpl.
    + rewrite app_nil_r. reflexivity.
    + reflexivity.
  - rewrite run_from_bind, Nat.add_0_r.
    destruct (result (run_from w n cleanup s)); simpl.
    + rewrite app_nil_r. reflexivity.
    + reflexivity.
  - apply IH.
  - apply IH.
  - rewrite IH. simpl. rewrite Nat.add_succ_r. reflexivity.
Qed.

(** ** Keys, maps and arrays *)

Lemma Buffer_eqb_eq (a b : Buffer) : Buffer_eqb a b = true <-> a = b.
Proof.
  unfold Buffer_eqb. destruct (list_eq_dec Byte.byte_eq_dec a b); split; intros H;
    congruence.
Qed.

Lemma equals_eq (a b : PublicKey) : equals a b = true <-> a = b.
Proof.
  unfold equals. rewrite Buffer_eqb_eq. destruct a, b; simpl.
  split; intros H; congruence.
Qed.

Lemma equals_refl (a : PublicKey) : equals a a = true.
Proof. apply equals_eq. reflexivity. Qed.

Lemma JSMap_get_In {V} (m : JSMap.t V) (k : string) (v : V) :
  JSMap.get m k = Some v -> In (k, v) m.
Proof.
  induction m as [| [k' v'] m IH]; simpl; [discriminate |].
  destruct (String.eqb k' k) eqn:E.
  - apply String.eqb_eq in E. intros [= ->]. left. congruence.
  - intros H. right. auto.
Qed.

Lemma JSMap_get_None {V} (m : JSMap.t V) (k : string) :
  JSMap.get m k = None <-> ~ In k (JSMap.keys m).
Proof.
  induction m as [| [k' v'] m IH]; simpl.
  - tauto.
  - destruct (String.eqb k' k) eqn:E.
    + apply String.eqb_eq in E. split; [discriminate | intros H; tauto].
    + apply String.eqb_neq in E. rewrite IH. tauto.
Qed.

Lemma JSMap_has_false {V} (m : JSMap.t V) (k : string) :
  JSMap.has m k = false <-> ~ In k (JSMap.keys m).
Proof.
  unfold JSMap.has. rewrite <- JSMap_get_None.
  destruct (JSMap.get m k); split; congruence.
Qed.

Lemma JSMap_has_true {V} (m : JSMap.t V) (k : string) :
  JSMap.has m k = true <-> In k (JSMap.keys m).
Proof.
  destruct (JSMap.has m k) eqn:E.
  - split; [intros _ | reflexivity].
    destruct (in_dec string_dec k (JSMap.keys m)) as [H | H]; [exact H |].
    apply JSMap_has_false in H. congruence.
  - apply JSMap_has_false in E. split; [discriminate | tauto].
Qed.

(** A new key is appended. *)
Lemma JSMap_set_new {V} (m : JSMap.t V) (k : string) (v : V) :
  JSMap.get m k = None -> JSMap.set m k v = m ++ [(k, v)].
Proof.
  induction m as [| [k' v'] m IH]; simpl; [reflexivity |].
  destruct (String.eqb k' k); [discriminate |].
  intros H. rewrite IH by exact H. reflexivity.
Qed.

Lemma JSMap_set_In {V} (m : JSMap.t V) (k : string) (v : V) (k' : string) (v' : V) :
  In (k', v') (JSMap.set m k v) -> (k', v') = (k, v) \/ In (k', v') m.
Proof.
  induction m as [| [k0 v0] m IH]; simpl.
  - intros [H | []]. left. congruence.
  - destruct (String.eqb k0 k) eqn:E; simpl.
    + apply String.eqb_eq in E. subst k0. intros [H | H]; [left; congruence | auto].
    + intros [H | H]; [auto |]. destruct (IH H); auto.
Qed.

Lemma JSMap_get_set_same {V} (m : JSMap.t V) (k : string) (v : V) :
  JSMap.get (JSMap.set m k v) k = Some v.
Proof.
  induction m as [| [k0 v0] m IH]; simpl.
  - rewrite String.eqb_refl. reflexivity.
  - destruct (String.eqb k0 k) eqn:E; simpl; rewrite E; [reflexivity | exact IH].
Qed.

Lemma JSMap_get_set_other {V} (m : JSMap.t V) (k k' : string) (v : V) :
  k <> k' -> JSMap.get (JSMap.set m k v) k' = JSMap.get m k'.
Proof.
  intros Hne. induction m as [| [k0 v0] m IH]; simpl.
  - apply String.eqb_neq in Hne. rewrite Hne. reflexivity.
  - destruct (String.eqb k0 k) eqn:E; simpl.
    + apply String.eqb_eq in E. subst k0.
      apply String.eqb_neq in Hne. rewrite Hne. reflexivity.
    + rewrite IH. reflexivity.
Qed.

Lemma JSMap_In_set_same {V} (m : JSMap.t V) (k : string) (v : V) :
  In (k, v) (JSMap.set m k v).
Proof. apply JSMap_get_In, JSMap_get_set_same. Qed.

Lemma JSMap_In_set_other {V} (m : JSMap.t V) (k k' : string) (v v' : V) :
  k <> k' -> In (k', v') m -> In (k', v') (JSMap.set m k v).
Proof.
  intros Hne. induction m as [| [k0 v0] m IH]; simpl; [tauto |].
  destruct (String.eqb k0 k) eqn:E; simpl.
  - apply String.eqb_eq in E. subst k0. intros [H | H]; [congruence | auto].
  - intros [H | H]; auto.
Qed.


Lemma forEach_from_total {A B} (f : B -> A -> nat -> Outcome B) :
  (forall acc x i, exists acc', f acc x i = Ok acc') ->
  forall l i acc, exists r, JSArray.forEach_from f l i acc = Ok r.
Proof.
  intros Hf. induction l as [| x l IH]; intros i acc; simpl.
  - eauto.
  - destruct (Hf acc x i) as [acc' ->]. simpl. apply IH.
Qed.


Lemma mapM_Forall2 {A B} (f : A -> Outcome B) (l : list A) (l' : list B) :
  mapM f l = Ok l' -> Forall2 (fun x y => f x = Ok y) l l'.
Proof.
  revert l'. induction l as [| x l IH]; simpl; intros l'.
  - intros [= <-]. constructor.
  - destruct (f x) as [y | e] eqn:E; simpl; [| discriminate].
    destruct (mapM f l) as [ys | e]; simpl; [| discriminate].
    intros [= <-]. constructor; auto.
Qed.

(** ** Array.prototype.sort with a comparator that subtracts keys *)

Section SortByKey.
Variable A : Type.
Variable key : A -> Z.
Variable cmp : A -> A -> Z.
Hypothesis cmp_key : forall a b, cmp a b = key a - key b.

Lemma insert_perm (x : A) (l : list A) : Permutation (JSArray.insert cmp x l) (x :: l).
Proof.
  induction l as [| y l IH]; simpl.
  - apply Permutation_refl.
  - destruct (cmp x y >? 0).
    + eapply perm_trans; [apply perm_skip, IH | apply perm_swap].
    + apply Permutation_refl.
Qed.

Lemma sort_perm (l : list A) : Permutation (JSArray.sort cmp l) l.
Proof.
  induction l as [| x l IH]; simpl.
  - apply perm_nil.
  - eapply perm_trans; [apply insert_perm | apply perm_skip, IH].
Qed.





End SortByKey.


(** The same for a comparator that agrees with the key in sign only. *)
Section SortBySign.
Variable A : Type.
Variable key : A -> Z.
Variable cmp : A -> A -> Z.
Hypothesis cmp_sign : forall a b, (cmp a b >? 0) = (key a >? key b).





End SortBySign.


(** ** Doubles *)

Example nearest_double_examples :
  nearest_double (2 ^ 53 - 1) = finite (2 ^ 53 - 1)
  /\ nearest_double (2 ^ 53) = finite (2 ^ 53)
  /\ nearest_double (2 ^ 53 + 1) = finite (2 ^ 53)
  /\ nearest_double (2 ^ 53 + 2) = finite (2 ^ 53 + 2)
  /\ nearest_double (2 ^ 53 + 3) = finite (2 ^ 53 + 4)
  /\ nearest_double (2 ^ 54 + 2) = finite (2 ^ 54)
  /\ nearest_double (2 ^ 54 + 6) = finite (2 ^ 54 + 8)
  /\ nearest_double (- (2 ^ 53 + 3)) = finite (- (2 ^ 53 + 4))
  /\ nearest_double (2 ^ 63 - 1) = finite (2 ^ 63)
  /\ nearest_double (2 ^ 1024 - 2 ^ 970 - 1) = finite (2 ^ 1024 - 2 ^ 971)
  /\ nearest_double (2 ^ 1024 - 2 ^ 970) = infinite true
  /\ nearest_double (- 2 ^ 1024) = infinite false.
Proof.
  repeat match goal with |- _ /\ _ => split end; vm_compute; reflexivity.
Qed.





(** ** usePost: unique creators, profile addresses and the merged view *)

Section FetchAllPosts.
Context {lib : Library}.

Lemma uniqueCreators_fold (posts : list (ProgramAccount PostAccount.t)) :
  forall (m : JSMap.t PublicKey),
    NoDup (JSMap.keys m) ->
    (forall k c, In (k, c) m -> k = toString c) ->
    NoDup (JSMap.keys (fold_left UsePost.uniqueCreators_step posts m))
    /\ (forall k c, In (k, c) (fold_left UsePost.uniqueCreators_step posts m) ->
          k = toString c
          /\ (In (k, c) m
              \/ exists post, In post posts /\ PostAccount.creator (account post) = c))
    /\ (forall k, In k (JSMap.keys m) ->
          In k (JSMap.keys (fold_left UsePost.uniqueCreators_step posts m)))
    /\ (forall post, In post posts ->
          In (toString (PostAccount.creator (account post)))
             (JSMap.keys (fold_left UsePost.uniqueCreators_step posts m))).
Proof.
  induction posts as [| p posts IH]; intros m Hnd Hkey; simpl.
  - repeat split; auto. intros post [].
  - assert (Hstep : NoDup (JSMap.keys (UsePost.uniqueCreators_step m p))
                    /\ (forall k c, In (k, c) (UsePost.uniqueCreators_step m p) ->
                          In (k, c) m
                          \/ (k, c) = (toString (PostAccount.creator (account p)),
                                       PostAccount.creator (account p)))
                    /\ (forall k, In k (JSMap.keys m) ->
                          In k (JSMap.keys (UsePost.uniqueCreators_step m p)))
                    /\ In (toString (PostAccount.creator (account p)))
                         (JSMap.keys (UsePost.uniqueCreators_step m p))).
    { unfold UsePost.uniqueCreators_step.
      destruct (JSMap.has m (toString (PostAccount.creator (account p)))) eqn:E.
      - apply JSMap_has_true in E. repeat split; auto.
      - apply JSMap_has_false in E. pose proof E as E'.
        apply JSMap_get_None in E'. rewrite (JSMap_set_new _ _ _ E').
        unfold JSMap.keys in *. rewrite map_app. simpl. repeat split.
        + apply NoDup_app; [exact Hnd | constructor; [intros [] | constructor] |].
          intros a Ha [<- | []]. exact (E Ha).
        + intros k c H. apply in_app_or in H. destruct H as [H | [H | []]]; auto.
        + intros k H. apply in_or_app. auto.
        + apply in_or_app. right. left. reflexivity. }
    destruct Hstep as (Hnd' & Hin' & Hkeys' & Hp).
    destruct (IH (UsePost.uniqueCreators_step m p) Hnd') as (H1 & H2 & H3 & H4).
    { intros k c H. destruct (Hin' k c H) as [H0 | [= -> ->]]; auto. }
    repeat split.
    + exact H1.
    + apply (H2 k c H).
    + destruct (H2 k c H) as (_ & [H0 | (post & Hpost & Hc)]).
      * destruct (Hin' k c H0) as [H5 | [= -> ->]]; [auto |].
        right. exists p. auto.
      * right. exists post. auto.
    + intros k H. auto.
    + intros post [<- | Hpost]; auto.
Qed.

Lemma uniqueCreators_spec (posts : list (ProgramAccount PostAccount.t)) :
  NoDup (JSMap.keys (UsePost.uniqueCreators posts))
  /\ (forall k c, In (k, c) (UsePost.uniqueCreators posts) ->
        k = toString c
        /\ exists post, In post posts /\ PostAccount.creator (account post) = c)
  /\ (forall post, In post posts ->
        In (toString (PostAccount.creator (account post)))
           (JSMap.keys (UsePost.uniqueCreators posts))).
Proof.
  destruct (uniqueCreators_fold posts JSMap.empty) as (H1 & H2 & _ & H4).
  - constructor.
  - intros k c [].
  - repeat split; auto.
    + apply (H2 k c H).
    + destruct (H2 k c H) as (_ & [[] | Hex]). exact Hex.
Qed.

Lemma keys_of_values (m : JSMap.t PublicKey) :
  (forall k c, In (k, c) m -> k = toString c) ->
  map toString (JSMap.values m) = JSMap.keys m.
Proof.
  unfold JSMap.values, JSMap.keys. induction m as [| [k c] m IH]; simpl; intros H.
  - reflexivity.
  - rewrite (H k c) by auto. rewrite IH; [reflexivity |].
    intros k' c' Hin. apply H. auto.
Qed.

Lemma deriveProfilePdas_fold (creators : list PublicKey) :
  forall pdas m,
    (forall k p, In (k, p) m -> exists c, k = toString c /\ p = profileAddress c) ->
    fst (fold_left UsePost.deriveProfilePdas_step creators (pdas, m))
      = pdas ++ map profileAddress creators
    /\ (forall k p,
          In (k, p) (snd (fold_left UsePost.deriveProfilePdas_step creators (pdas, m))) ->
          exists c, k = toString c /\ p = profileAddress c).
Proof.
  induction creators as [| c creators IH]; intros pdas m Hm; cbn [fold_left].
  - simpl. rewrite app_nil_r. auto.
  - change (UsePost.deriveProfilePdas_step (pdas, m) c)
      with (pdas ++ [profileAddress c], JSMap.set m (toString c) (profileAddress c)).
    destruct (IH (pdas ++ [profileAddress c])
                (JSMap.set m (toString c) (profileAddress c))) as (H1 & H2).
    + intros k p H. apply JSMap_set_In in H. destruct H as [[= -> ->] | H]; eauto.
    + split; [| exact H2]. etransitivity; [exact H1 |].
      rewrite <- app_assoc. reflexivity.
Qed.

Lemma deriveProfilePdas_spec (uniqueCreators : JSMap.t PublicKey) :
  fst (UsePost.deriveProfilePdas uniqueCreators)
    = map profileAddress (JSMap.values uniqueCreators)
  /\ (forall k p, In (k, p) (snd (UsePost.deriveProfilePdas uniqueCreators)) ->
        exists c, k = toString c /\ p = profileAddress c).
Proof.
  destruct (deriveProfilePdas_fold (JSMap.values uniqueCreators) [] JSMap.empty)
    as (H1 & H2); [intros k p [] |].
  split; [exact H1 | exact H2].
Qed.

Lemma profileMap_step_total pdas c2p m ai i :
  exists m', UsePost.profileMap_step pdas c2p m ai i = Ok m'.
Proof.
  unfold UsePost.profileMap_step. destruct ai as [info |]; [| eauto].
  destruct (obind _ _); eauto.
Qed.



End FetchAllPosts.

(** ** usePost: what a fetch of all posts does *)

Section FetchAllPostsRun.
Context {lib : Library}.

Lemma fetchAllPosts_success (reply : nat -> Remote) (w0 : AnchorWallet.t)
  (s : UsePost.State) posts infos :
  UsePost.fetchingRef s = false ->
  reply 0%nat _ post_all = Ok posts ->
  reply 1%nat _ (getMultipleAccountsInfo
                   (fst (UsePost.deriveProfilePdas (UsePost.uniqueCreators posts))))
    = Ok infos ->
  exists profileMap,
    JSArray.forEach
      (UsePost.profileMap_step
         (fst (UsePost.deriveProfilePdas (UsePost.uniqueCreators posts)))
         (snd (UsePost.deriveProfilePdas (UsePost.uniqueCreators posts))))
      infos JSMap.empty = Ok profileMap /\
    run (quiet reply) (UsePost.fetchAllPosts (Some w0)) s =
    mkRun
      (posts_after s
         (JSArray.sort UsePost.byCreatedAtDesc
            (map (UsePost.withHandle profileMap) posts)))
      (Ok tt)
      [ call post_all;
        call (getMultipleAccountsInfo
                (fst (UsePost.deriveProfilePdas (UsePost.uniqueCreators posts)))) ].
Proof.
  intros Hfree Hposts Hinfos.
  destruct (forEach_from_total _
              (profileMap_step_total
                 (fst (UsePost.deriveProfilePdas (UsePost.uniqueCreators posts)))
                 (snd (UsePost.deriveProfilePdas (UsePost.uniqueCreators posts))))
              infos 0%nat JSMap.empty) as [profileMap Hmap].
  exists profileMap. split; [exact Hmap |].
  unfold run, UsePost.fetchAllPosts. simpl. rewrite Hfree. simpl.
  rewrite Hposts. simpl.
  destruct (UsePost.deriveProfilePdas (UsePost.uniqueCreators posts)) as [pdas c2p] eqn:Ed.
  simpl in *. rewrite Hinfos. simpl.
  unfold JSArray.forEach in Hmap. unfold JSArray.forEach. rewrite Hmap. simpl.
  reflexivity.
Qed.

(** The calls of a fetch whose scan succeeded, whatever the batch read returns. *)
Lemma fetchAllPosts_calls (reply : nat -> Remote) (w0 : AnchorWallet.t)
  (s : UsePost.State) posts :
  UsePost.fetchingRef s = false ->
  reply 0%nat _ post_all = Ok posts ->
  calls (run (quiet reply) (UsePost.fetchAllPosts (Some w0)) s)
  = [ call post_all;
      call (getMultipleAccountsInfo
              (fst (UsePost.deriveProfilePdas (UsePost.uniqueCreators posts)))) ].
Proof.
  intros Hfree Hposts.
  destruct (reply 1%nat _ (getMultipleAccountsInfo
              (fst (UsePost.deriveProfilePdas (UsePost.uniqueCreators posts)))))
    as [infos | e] eqn:Hinfos.
  - destruct (fetchAllPosts_success reply w0 s posts infos Hfree Hposts Hinfos)
      as (profileMap & _ & ->). reflexivity.
  - unfold run, UsePost.fetchAllPosts. simpl. rewrite Hfree. simpl.
    rewrite Hposts. simpl.
    destruct (UsePost.deriveProfilePdas (UsePost.uniqueCreators posts)) as [pdas c2p].
    simpl in *. rewrite Hinfos. simpl. reflexivity.
Qed.

Lemma undecorate_withHandle profileMap (posts : list (ProgramAccount PostAccount.t)) :
  map undecorate (map (UsePost.withHandle profileMap) posts) = posts.
Proof.
  induction posts as [| [k a] posts IH]; simpl; [reflexivity |].
  rewrite IH. reflexivity.
Qed.

End FetchAllPostsRun.

(** ** Batched profile reads, fallback handles and the order of fetched lists *)

Section MergedView.
Context {lib : Library}.

(** C2.  A fetch of all posts whose scan returned [posts] deduplicates the
    creators by key (every creator of a post is among the unique creators, no
    key twice, each unique creator the creator of some post), derives one
    profile address per unique creator, and issues exactly one
    [getMultipleAccountsInfo] for these addresses, whatever the number of
    posts. *)
Theorem one_batch_read_for_unique_creators (reply : nat -> Remote)
  (w0 : AnchorWallet.t) (s : UsePost.State)
  (posts : list (ProgramAccount PostAccount.t)) :
  UsePost.fetchingRef s = false ->
  reply 0%nat _ post_all = Ok posts ->
  NoDup (map toString (JSMap.values (UsePost.uniqueCreators posts)))
  /\ (forall post, In post posts ->
        In (toString (PostAccount.creator (account post)))
           (map toString (JSMap.values (UsePost.uniqueCreators posts))))
  /\ (forall c, In c (JSMap.values (UsePost.uniqueCreators posts)) ->
        exists post, In post posts /\ PostAccount.creator (account post) = c)
  /\ calls (run (quiet reply) (UsePost.fetchAllPosts (Some w0)) s)
     = [ call post_all;
         call (getMultipleAccountsInfo
                 (map profileAddress (JSMap.values (UsePost.uniqueCreators posts)))) ]
  /\ List.length
       (filter is_getMultipleAccountsInfo
          (calls (run (quiet reply) (UsePost.fetchAllPosts (Some w0)) s))) = 1%nat.
Proof.
  intros Hfree Hposts.
  destruct (uniqueCreators_spec posts) as (Hnd & Hent & Hcov).
  assert (Hkeys : map toString (JSMap.values (UsePost.uniqueCreators posts))
                  = JSMap.keys (UsePost.uniqueCreators posts)).
  { apply keys_of_values. intros k c H. apply (Hent k c H). }
  rewrite Hkeys. rewrite (fetchAllPosts_calls reply w0 s posts Hfree Hposts).
  rewrite (proj1 (deriveProfilePdas_spec _)).
  repeat split; auto.
  intros c Hc. unfold JSMap.values in Hc. apply in_map_iff in Hc.
  destruct Hc as ([k c'] & <- & Hin). apply (Hent k c' Hin).
Qed.





End MergedView.

(** ** useComments: what a fetch of the comments of a post does *)

Section FetchComments.
Context {lib : Library}.




End FetchComments.

(** ** useProfiles: follow status and the profile list *)

Section Profiles.
Context {lib : Library}.

Lemma withFollowStatus_authority followStatusMap profileAccount p :
  UseProfiles.withFollowStatus followStatusMap profileAccount = Ok p ->
  UseProfiles.ProfileWithFollowStatus.authority p
  = UserProfileAccount.authority (account profileAccount).
Proof.
  unfold UseProfiles.withFollowStatus.
  destruct (toNumber (UserProfileAccount.followerCount _)); simpl; [| discriminate].
  destruct (toNumber (UserProfileAccount.followingCount _)); simpl; [| discriminate].
  destruct (toNumber (UserProfileAccount.createdAt _)); simpl; [| discriminate].
  destruct (toNumber (UserProfileAccount.updatedAt _)); simpl; [| discriminate].
  intros [= <-]. reflexivity.
Qed.

Lemma mapM_withFollowStatus_authorities followStatusMap l l' :
  mapM (UseProfiles.withFollowStatus followStatusMap) l = Ok l' ->
  map UseProfiles.ProfileWithFollowStatus.authority l'
  = map (fun profileAccount => UserProfileAccount.authority (account profileAccount)) l.
Proof.
  intros H. apply mapM_Forall2 in H.
  induction H as [| x y l l' Hxy _ IH]; simpl; [reflexivity |].
  rewrite IH, (withFollowStatus_authority _ _ _ Hxy). reflexivity.
Qed.

Lemma otherProfiles_not_own (walletKey : PublicKey) allProfiles :
  Forall (fun a => a <> walletKey)
    (map (fun profileAccount => UserProfileAccount.authority (account profileAccount))
       (UseProfiles.otherProfiles walletKey allProfiles)).
Proof.
  apply Forall_forall. intros a Ha. apply in_map_iff in Ha.
  destruct Ha as (pa & <- & Hin). unfold UseProfiles.otherProfiles in Hin.
  apply filter_In in Hin. destruct Hin as (_ & Hneq).
  intros Heq. apply equals_eq in Heq. rewrite Heq in Hneq. discriminate.
Qed.

Lemma deriveFollowPdas_fold_fst (walletKey : PublicKey) (authorities : list PublicKey) :
  forall pdas m,
    fst (fold_left (UseProfiles.deriveFollowPdas_step walletKey) authorities (pdas, m))
    = pdas ++ map (UseProfiles.deriveFollowPda walletKey) authorities.
Proof.
  induction authorities as [| a authorities IH]; intros pdas m; cbn [fold_left].
  - simpl. rewrite app_nil_r. reflexivity.
  - change (UseProfiles.deriveFollowPdas_step walletKey (pdas, m) a)
      with (pdas ++ [UseProfiles.deriveFollowPda walletKey a],
            JSMap.set m (toString a) (UseProfiles.deriveFollowPda walletKey a)).
    etransitivity; [apply IH |].
    simpl. rewrite <- app_assoc. reflexivity.
Qed.

Lemma deriveFollowPdas_fst (walletKey : PublicKey) (authorities : list PublicKey) :
  fst (UseProfiles.deriveFollowPdas walletKey authorities)
  = map (UseProfiles.deriveFollowPda walletKey) authorities.
Proof. apply (deriveFollowPdas_fold_fst walletKey authorities [] JSMap.empty). Qed.

(** C9.  A fetch of all profiles either stores nothing, or stores the
    profiles of the scan without the connected wallet's own: no stored
    profile has the wallet's key as its authority.  The own profile is
    dropped before the follow status is looked up: the batch read asks for
    the follow addresses of the other authorities only. *)
Theorem own_profile_is_filtered_out (reply : nat -> Remote) (w0 : AnchorWallet.t)
  (s : UseProfiles.State) :
  (UseProfiles.profiles
     (final (run (quiet reply) (UseProfiles.fetchAllProfiles (Some w0)) s))
   = UseProfiles.profiles s
   \/ exists allProfiles,
        reply 0%nat _ userProfile_all = Ok allProfiles
        /\ map UseProfiles.ProfileWithFollowStatus.authority
             (UseProfiles.profiles
                (final (run (quiet reply) (UseProfiles.fetchAllProfiles (Some w0)) s)))
           = map (fun profileAccount =>
                    UserProfileAccount.authority (account profileAccount))
               (UseProfiles.otherProfiles (AnchorWallet.publicKey w0) allProfiles)
        /\ Forall (fun p => UseProfiles.ProfileWithFollowStatus.authority p
                            <> AnchorWallet.publicKey w0)
             (UseProfiles.profiles
                (final (run (quiet reply) (UseProfiles.fetchAllProfiles (Some w0)) s))))
  /\ (forall allProfiles,
        UseProfiles.fetchingRef s = false ->
        reply 0%nat _ userProfile_all = Ok allProfiles ->
        calls (run (quiet reply) (UseProfiles.fetchAllProfiles (Some w0)) s)
        = [ call userProfile_all;
            call (getMultipleAccountsInfo
                    (map (UseProfiles.deriveFollowPda (AnchorWallet.publicKey w0))
                       (map (fun profileAccount =>
                               UserProfileAccount.authority (account profileAccount))
                          (UseProfiles.otherProfiles (AnchorWallet.publicKey w0)
                             allProfiles)))) ]).
Proof.
  split.
  - unfold run, UseProfiles.fetchAllProfiles. simpl.
    destruct (UseProfiles.fetchingRef s); simpl; [left; reflexivity |].
    destruct (reply 0%nat _ userProfile_all) as [allProfiles | e] eqn:E0; simpl;
      [| left; reflexivity].
    destruct (UseProfiles.deriveFollowPdas _ _) as [followPdas authorityToFollowPda].
    simpl.
    destruct (reply 1%nat _ (getMultipleAccountsInfo followPdas)) as [infos | e]; simpl;
      [| left; reflexivity].
    destruct (JSArray.forEach _ infos JSMap.empty) as [followStatusMap | e]; simpl;
      [| left; reflexivity].
    destruct (mapM _ _) as [profilesWithStatus | e] eqn:Em; simpl; [| left; reflexivity].
    right. exists allProfiles. split; [reflexivity |].
    pose proof (mapM_withFollowStatus_authorities _ _ _ Em) as Hauth.
    split; [exact Hauth |].
    pose proof (otherProfiles_not_own (AnchorWallet.publicKey w0) allProfiles) as Hno.
    rewrite <- Hauth in Hno. rewrite Forall_map in Hno. exact Hno.
  - intros allProfiles Hfree E0.
    rewrite <- deriveFollowPdas_fst.
    unfold run, UseProfiles.fetchAllProfiles. simpl. rewrite Hfree. simpl.
    rewrite E0. simpl.
    destruct (UseProfiles.deriveFollowPdas _ _) as [followPdas authorityToFollowPda].
    simpl.
    destruct (reply 1%nat _ (getMultipleAccountsInfo followPdas)) as [infos | e]; simpl;
      [| reflexivity].
    destruct (JSArray.forEach _ infos JSMap.empty) as [followStatusMap | e]; simpl;
      [| reflexivity].
    destruct (mapM _ _) as [profilesWithStatus | e]; reflexivity.
Qed.

End Profiles.

Section FollowStatus.
Context {lib : Library} {ok : LibraryContract lib}.

Lemma deriveFollowPdas_fold (walletKey : PublicKey) (authorities : list PublicKey) :
  forall seen pdas m,
    follow_entries walletKey seen m ->
    fst (fold_left (UseProfiles.deriveFollowPdas_step walletKey) authorities (pdas, m))
      = pdas ++ map (UseProfiles.deriveFollowPda walletKey) authorities
    /\ follow_entries walletKey (seen ++ authorities)
         (snd (fold_left (UseProfiles.deriveFollowPdas_step walletKey) authorities (pdas, m))).
Proof.
  induction authorities as [| a authorities IH]; intros seen pdas m Hm; cbn [fold_left].
  - simpl. rewrite !app_nil_r. auto.
  - change (UseProfiles.deriveFollowPdas_step walletKey (pdas, m) a)
      with (pdas ++ [UseProfiles.deriveFollowPda walletKey a],
            JSMap.set m (toString a) (UseProfiles.deriveFollowPda walletKey a)).
    destruct (IH (seen ++ [a]) (pdas ++ [UseProfiles.deriveFollowPda walletKey a])
                (JSMap.set m (toString a) (UseProfiles.deriveFollowPda walletKey a)))
      as (H1 & H2).
    + intros k p. split.
      * intros H. apply JSMap_set_In in H. destruct H as [[= -> ->] | H].
        -- exists a. split; [apply in_or_app; right; left; reflexivity | auto].
        -- apply Hm in H. destruct H as (b & Hb & -> & ->).
           exists b. split; [apply in_or_app; auto | auto].
      * intros (b & Hb & -> & ->). apply in_app_or in Hb.
        destruct Hb as [Hb | [<- | []]]; [| apply JSMap_In_set_same].
        destruct (string_dec (toString a) (toString b)) as [E | E].
        -- apply toString_inj in E. subst b. apply JSMap_In_set_same.
        -- apply JSMap_In_set_other; [exact E |]. apply Hm. eauto.
    + split.
      * etransitivity; [exact H1 |]. rewrite <- app_assoc. reflexivity.
      * rewrite <- app_assoc in H2. exact H2.
Qed.

Lemma deriveFollowPdas_spec (walletKey : PublicKey) (authorities : list PublicKey) :
  fst (UseProfiles.deriveFollowPdas walletKey authorities)
    = map (UseProfiles.deriveFollowPda walletKey) authorities
  /\ follow_entries walletKey authorities
       (snd (UseProfiles.deriveFollowPdas walletKey authorities)).
Proof.
  destruct (deriveFollowPdas_fold walletKey authorities [] [] JSMap.empty)
    as (H1 & H2).
  - intros k p. split; [intros [] | intros (a & [] & _)].
  - split; [exact H1 | exact H2].
Qed.

(** The entry found for a follow address is the entry of its authority. *)
Lemma find_key_of_address (l : list (string * PublicKey)) (k : string)
  (v : PublicKey) :
  In (k, v) l ->
  (forall k', In (k', v) l -> k' = k) ->
  JSArray.find_key (fun pda => equals_js pda (Some v)) l = Ok (Some k).
Proof.
  induction l as [| [k0 v0] l IH]; simpl; intros Hin Huniq; [contradiction |].
  destruct (equals v0 v) eqn:E.
  - apply equals_eq in E. subst v0. rewrite (Huniq k0) by auto. reflexivity.
  - destruct Hin as [[= -> ->] | Hin]; [rewrite equals_refl in E; discriminate |].
    apply IH; [exact Hin |]. intros k' H. apply Huniq. auto.
Qed.

Lemma resultMap_step_sets (accounts : PublicKey -> option AccountInfo)
  (walletKey : PublicKey) (authorities : list PublicKey) followPdas m resultMap a i :
  follow_addresses_distinct walletKey authorities ->
  follow_entries walletKey authorities m ->
  In a authorities ->
  nth_error followPdas i = Some (UseProfiles.deriveFollowPda walletKey a) ->
  UseProfiles.resultMap_step followPdas m resultMap
    (accounts (UseProfiles.deriveFollowPda walletKey a)) i
  = Ok (JSMap.set resultMap (toString a) (followStatusOf accounts walletKey a)).
Proof.
  intros Hdist Hm Ha Hnth. unfold UseProfiles.resultMap_step. rewrite Hnth.
  rewrite (find_key_of_address _ (toString a)).
  - simpl. rewrite toString_nonempty. reflexivity.
  - apply Hm. eauto.
  - intros k' H. apply Hm in H. destruct H as (b & Hb & -> & Hp).
    rewrite (Hdist a b Ha Hb Hp). reflexivity.
Qed.

Lemma resultMap_forEach (accounts : PublicKey -> option AccountInfo)
  (walletKey : PublicKey) (authorities : list PublicKey) m :
  follow_addresses_distinct walletKey authorities ->
  follow_entries walletKey authorities m ->
  forall rest seen resultMap,
    authorities = seen ++ rest ->
    JSArray.forEach_from
      (UseProfiles.resultMap_step
         (map (UseProfiles.deriveFollowPda walletKey) authorities) m)
      (map accounts (map (UseProfiles.deriveFollowPda walletKey) rest))
      (List.length seen) resultMap
    = Ok (fold_left
            (fun acc a => JSMap.set acc (toString a) (followStatusOf accounts walletKey a))
            rest resultMap).
Proof.
  intros Hdist Hm. induction rest as [| a rest IH]; intros seen resultMap Hsplit; simpl.
  - reflexivity.
  - rewrite (resultMap_step_sets accounts walletKey authorities _ m resultMap a).
    + simpl. specialize (IH (seen ++ [a])).
      rewrite length_app, Nat.add_1_r in IH. apply IH.
      rewrite <- app_assoc. exact Hsplit.
    + exact Hdist.
    + exact Hm.
    + rewrite Hsplit. apply in_or_app. right. left. reflexivity.
    + rewrite Hsplit, map_app, nth_error_app2 by (rewrite length_map; lia).
      rewrite length_map, Nat.sub_diag. reflexivity.
Qed.

Lemma followStatus_fold_get (accounts : PublicKey -> option AccountInfo)
  (walletKey a : PublicKey) :
  forall l resultMap,
    In a l
    \/ JSMap.get resultMap (toString a) = Some (followStatusOf accounts walletKey a) ->
    JSMap.get
      (fold_left
         (fun acc b => JSMap.set acc (toString b) (followStatusOf accounts walletKey b))
         l resultMap)
      (toString a)
    = Some (followStatusOf accounts walletKey a).
Proof.
  induction l as [| b l IH]; intros resultMap H; simpl.
  - destruct H as [[] | H]. exact H.
  - apply IH.
    destruct (string_dec (toString b) (toString a)) as [E | E].
    + right. apply toString_inj in E. subst b. apply JSMap_get_set_same.
    + destruct H as [[-> | H] | H]; [congruence | auto |].
      right. rewrite JSMap_get_set_other by exact E. exact H.
Qed.

(** What [batchCheckFollowStatus] asks for and returns, in terms of the
    hook's own derivation. *)
Lemma batchCheckFollowStatus_result (reply reply' : nat -> Remote)
  (accounts accounts' : PublicKey -> option AccountInfo)
  (w0 : AnchorWallet.t) (s : UseProfiles.State) (authorities : list PublicKey) :
  (forall pdas, reply 0%nat _ (getMultipleAccountsInfo pdas) = Ok (map accounts pdas)) ->
  (forall pdas, reply' 0%nat _ (getMultipleAccountsInfo pdas) = Ok (map accounts' pdas)) ->
  (forall k, isSome (accounts' k) = isSome (accounts k)) ->
  follow_addresses_distinct (AnchorWallet.publicKey w0) authorities ->
  exists resultMap,
    result (run (quiet reply) (UseProfiles.batchCheckFollowStatus (Some w0) authorities) s)
    = Ok resultMap
    /\ calls (run (quiet reply)
                (UseProfiles.batchCheckFollowStatus (Some w0) authorities) s)
       = [ call (getMultipleAccountsInfo
                   (map (UseProfiles.deriveFollowPda (AnchorWallet.publicKey w0))
                      authorities)) ]
    /\ (forall a, In a authorities ->
          JSMap.get resultMap (toString a)
          = Some (UseProfiles.FollowStatus.mk
                    (isSome (accounts
                               (UseProfiles.deriveFollowPda (AnchorWallet.publicKey w0) a)))
                    (if isSome (accounts
                                  (UseProfiles.deriveFollowPda (AnchorWallet.publicKey w0) a))
                     then Some (UseProfiles.deriveFollowPda (AnchorWallet.publicKey w0) a)
                     else None)))
    /\ result (run (quiet reply')
                 (UseProfiles.batchCheckFollowStatus (Some w0) authorities) s)
       = Ok resultMap.
Proof.
  intros Hreply Hreply' Hsame Hdist.
  destruct (deriveFollowPdas_spec (AnchorWallet.publicKey w0) authorities) as (Hpdas & Hent).
  exists (fold_left
            (fun acc a => JSMap.set acc (toString a)
                            (followStatusOf accounts (AnchorWallet.publicKey w0) a))
            authorities JSMap.empty).
  unfold run, UseProfiles.batchCheckFollowStatus. simpl.
  destruct (UseProfiles.deriveFollowPdas (AnchorWallet.publicKey w0) authorities)
    as [followPdas m].
  simpl in Hpdas, Hent. subst followPdas. simpl.
  rewrite Hreply, Hreply'. unfold JSArray.forEach.
  pose proof (resultMap_forEach accounts (AnchorWallet.publicKey w0) authorities m
                Hdist Hent authorities [] JSMap.empty eq_refl) as Hrun.
  pose proof (resultMap_forEach accounts' (AnchorWallet.publicKey w0) authorities m
                Hdist Hent authorities [] JSMap.empty eq_refl) as Hrun'.
  change (List.length (@nil PublicKey)) with 0%nat in Hrun, Hrun'.
  cbn [bind]. rewrite Hrun, Hrun'. simpl. repeat split.
  - intros a Ha. apply followStatus_fold_get. auto.
  - apply f_equal.
    assert (Hext : forall a,
               followStatusOf accounts' (AnchorWallet.publicKey w0) a
               = followStatusOf accounts (AnchorWallet.publicKey w0) a).
    { intros a. unfold followStatusOf. rewrite Hsame. reflexivity. }
    clear - Hext. generalize (@JSMap.empty UseProfiles.FollowStatus.t).
    induction authorities as [| a l IH]; intros acc; simpl; [reflexivity |].
    rewrite Hext. apply IH.
Qed.

(** C10.  The follow address of the connected wallet and an authority is
    derived from the seeds ["follow"], the wallet's key and the authority's
    key, in that order.  With the batch read answered from the ledger, the
    result map holds for every input authority whether an account exists at
    that address, and the address when it does (null otherwise); the one
    batch read asks for exactly these addresses; only the existence of the
    account is used, so ledgers that agree on existence give the same map. *)
Theorem follow_status_reports_account_existence (reply reply' : nat -> Remote)
  (accounts accounts' : PublicKey -> option AccountInfo)
  (w0 : AnchorWallet.t) (s : UseProfiles.State) (authorities : list PublicKey) :
  (forall pdas, reply 0%nat _ (getMultipleAccountsInfo pdas) = Ok (map accounts pdas)) ->
  (forall pdas, reply' 0%nat _ (getMultipleAccountsInfo pdas) = Ok (map accounts' pdas)) ->
  (forall k, isSome (accounts' k) = isSome (accounts k)) ->
  (forall a b, In a authorities -> In b authorities ->
     fst (findProgramAddressSync
            [Buffer_from "follow"; toBuffer (AnchorWallet.publicKey w0); toBuffer a]
            PROGRAM_ID)
     = fst (findProgramAddressSync
              [Buffer_from "follow"; toBuffer (AnchorWallet.publicKey w0); toBuffer b]
              PROGRAM_ID) ->
     a = b) ->
  (forall follower following,
      UseProfiles.deriveFollowPda follower following
      = fst (findProgramAddressSync
               [Buffer_from "follow"; toBuffer follower; toBuffer following]
               PROGRAM_ID))
  /\ exists resultMap,
       result (run (quiet reply)
                 (UseProfiles.batchCheckFollowStatus (Some w0) authorities) s)
       = Ok resultMap
       /\ calls (run (quiet reply)
                   (UseProfiles.batchCheckFollowStatus (Some w0) authorities) s)
          = [ call (getMultipleAccountsInfo
                      (map (fun a =>
                              fst (findProgramAddressSync
                                     [ Buffer_from "follow";
                                       toBuffer (AnchorWallet.publicKey w0);
                                       toBuffer a ]
                                     PROGRAM_ID))
                         authorities)) ]
       /\ (forall a, In a authorities ->
             JSMap.get resultMap (toString a)
             = Some (UseProfiles.FollowStatus.mk
                       (isSome (accounts
                                  (fst (findProgramAddressSync
                                          [ Buffer_from "follow";
                                            toBuffer (AnchorWallet.publicKey w0);
                                            toBuffer a ]
                                          PROGRAM_ID))))
                       (if isSome (accounts
                                     (fst (findProgramAddressSync
                                             [ Buffer_from "follow";
                                               toBuffer (AnchorWallet.publicKey w0);
                                               toBuffer a ]
                                             PROGRAM_ID)))
                        then Some (fst (findProgramAddressSync
                                          [ Buffer_from "follow";
                                            toBuffer (AnchorWallet.publicKey w0);
                                            toBuffer a ]
                                          PROGRAM_ID))
                        else None)))
       /\ result (run (quiet reply')
                    (UseProfiles.batchCheckFollowStatus (Some w0) authorities) s)
          = Ok resultMap.
Proof.
  intros Hreply Hreply' Hsame Hdist.
  split; [reflexivity |].
  exact (batchCheckFollowStatus_result reply reply' accounts accounts' w0 s authorities
           Hreply Hreply' Hsame Hdist).
Qed.

End FollowStatus.

(** ** Address derivation *)

Section Addresses.
Context {lib : Library}.

Lemma createPost_calls (reply : nat -> Remote) (w0 : AnchorWallet.t)
  (mediaUri content : string) (s : UsePost.State) :
  calls (run (quiet reply) (UsePost.createPost (Some w0) mediaUri content) s)
  = [ call (createPost_rpc mediaUri content (AnchorWallet.publicKey w0)
              (fst (findProgramAddressSync
                      [ Buffer_from "post";
                        toBuffer (AnchorWallet.publicKey w0);
                        content_digest mediaUri;
                        toBuffer (profileAddress (AnchorWallet.publicKey w0)) ]
                      PROGRAM_ID))
              (profileAddress (AnchorWallet.publicKey w0))) ].
Proof.
  unfold run, UsePost.createPost. simpl.
  destruct (reply 0%nat _ _); reflexivity.
Qed.

Lemma fetchPost_calls (reply : nat -> Remote) (w0 : AnchorWallet.t)
  (mediaUri : string) (s : UsePost.State) :
  calls (run (quiet reply) (UsePost.fetchPost (Some w0) mediaUri) s)
  = [ call (post_fetch
              (fst (findProgramAddressSync
                      [ Buffer_from "post";
                        toBuffer (AnchorWallet.publicKey w0);
                        content_digest mediaUri;
                        toBuffer (profileAddress (AnchorWallet.publicKey w0)) ]
                      PROGRAM_ID))) ].
Proof.
  unfold run, UsePost.fetchPost. simpl.
  destruct (reply 0%nat _ _) as [postAccount | e]; simpl; [| reflexivity].
  destruct (UsePost.userPost_of postAccount); reflexivity.
Qed.

(** C1, as amended.  For a connected owner the comment address is derived
    from seeds that include the first 4 bytes of the SHA-256 of the comment's
    content, and the post address from seeds that include the first 4 bytes
    of the SHA-256 of the post's media URI (the post's content is no seed).
    Deriving again from the same inputs gives the same address: the address
    [createPost] submits to is the one [fetchPost] reads afterwards, whatever
    the hook state and the remote store.  Two hashed values with the same
    4-byte digest give the same address. *)
Theorem addresses_keyed_by_four_byte_digest (w0 : AnchorWallet.t) :
  (forall mediaUri profilePda,
      List.length (content_digest mediaUri) = 4%nat
      /\ UsePost.derivePostPda (Some w0) mediaUri profilePda
         = Some (fst (findProgramAddressSync
                        [ Buffer_from "post";
                          toBuffer (AnchorWallet.publicKey w0);
                          firstn 4 (SHA256.digest (Buffer_from mediaUri));
                          toBuffer profilePda ]
                        PROGRAM_ID)))
  /\ (forall postPda content,
        List.length (content_digest content) = 4%nat
        /\ UseComments.deriveCommentPda (Some w0) postPda content
           = Some (fst (findProgramAddressSync
                          [ Buffer_from "comment";
                            toBuffer postPda;
                            toBuffer (AnchorWallet.publicKey w0);
                            firstn 4 (SHA256.digest (Buffer_from content)) ]
                          PROGRAM_ID)))
  /\ (forall mediaUri1 mediaUri2 profilePda,
        content_digest mediaUri1 = content_digest mediaUri2 ->
        UsePost.derivePostPda (Some w0) mediaUri1 profilePda
        = UsePost.derivePostPda (Some w0) mediaUri2 profilePda)
  /\ (forall content1 content2 postPda,
        content_digest content1 = content_digest content2 ->
        UseComments.deriveCommentPda (Some w0) postPda content1
        = UseComments.deriveCommentPda (Some w0) postPda content2)
  /\ (forall (reply reply' : nat -> Remote) mediaUri content s s',
        exists postPda,
          UsePost.derivePostPda (Some w0) mediaUri
            (profileAddress (AnchorWallet.publicKey w0)) = Some postPda
          /\ calls (run (quiet reply) (UsePost.createPost (Some w0) mediaUri content) s)
             = [ call (createPost_rpc mediaUri content (AnchorWallet.publicKey w0)
                         postPda (profileAddress (AnchorWallet.publicKey w0))) ]
          /\ calls (run (quiet reply') (UsePost.fetchPost (Some w0) mediaUri) s')
             = [ call (post_fetch postPda) ]).
Proof.
  repeat split.
  - apply content_digest_length.
  - apply content_digest_length.
  - intros mediaUri1 mediaUri2 profilePda H. unfold UsePost.derivePostPda.
    rewrite H. reflexivity.
  - intros content1 content2 postPda H. unfold UseComments.deriveCommentPda.
    rewrite H. reflexivity.
  - intros reply reply' mediaUri content s s'. eexists. split; [reflexivity |].
    split; [apply createPost_calls | apply fetchPost_calls].
Qed.

End Addresses.

(** C1 as stated fails: two different comment contents share their 4-byte
    digest, hence their address, for every owner, post and library; and two
    posts that differ only in content are submitted to the same address. *)
Lemma different_content_same_address :
  "nice post 41472" <> "nice post 140658"
  /\ (forall (lib : Library) wallet postPda,
        UseComments.deriveCommentPda wallet postPda "nice post 41472"
        = UseComments.deriveCommentPda wallet postPda "nice post 140658")
  /\ (forall (lib : Library) (reply : nat -> Remote) (w0 : AnchorWallet.t) s,
        exists postPda profilePda,
          calls (run (quiet reply) (UsePost.createPost (Some w0) "photo.png" "hello") s)
          = [ call (createPost_rpc "photo.png" "hello" (AnchorWallet.publicKey w0)
                      postPda profilePda) ]
          /\ calls (run (quiet reply) (UsePost.createPost (Some w0) "photo.png" "goodbye") s)
             = [ call (createPost_rpc "photo.png" "goodbye" (AnchorWallet.publicKey w0)
                         postPda profilePda) ]).
Proof.
  split; [discriminate |]. split.
  - intros lib wallet postPda. unfold UseComments.deriveCommentPda.
    rewrite content_digest_collision. reflexivity.
  - intros lib reply w0 s. do 2 eexists.
    split; apply createPost_calls.
Qed.

(** ** In-flight guards *)

Section Guards.
Context {lib : Library}.

Ltac guard_released :=
  right; rewrite run_from_try_finally; simpl; rewrite app_nil_r; split;
  [ discriminate | reflexivity ].

Lemma fetchAllPosts_releases (w : World UsePost.State) wallet s :
  released UsePost.fetchingRef false s (run w (UsePost.fetchAllPosts wallet) s).
Proof.
  unfold released, run, UsePost.fetchAllPosts.
  destruct wallet as [w0 |]; simpl; [| left; auto].
  destruct (UsePost.fetchingRef s) eqn:E; simpl; [left; auto |].
  guard_released.
Qed.

Lemma fetchCommentsForPost_releases (w : World UseComments.State) wallet postPda s :
  released UseComments.fetchingRef None s
    (run w (UseComments.fetchCommentsForPost wallet postPda) s).
Proof.
  unfold released, run, UseComments.fetchCommentsForPost.
  destruct wallet as [w0 |]; simpl; [| left; auto].
  destruct (option_string_eqb _ _) eqn:E; simpl; [left; auto |].
  guard_released.
Qed.

Lemma fetchProfile_releases (w : World UseUserProfile.State) wallet s :
  released UseUserProfile.fetchingRef false s
    (run w (UseUserProfile.fetchProfile wallet) s).
Proof.
  unfold released, run, UseUserProfile.fetchProfile.
  destruct wallet as [w0 |]; simpl; [| left; auto].
  destruct (UseUserProfile.fetchingRef s) eqn:E; simpl; [left; auto |].
  destruct (_ && _) eqn:E2; simpl; [left; auto |].
  guard_released.
Qed.

Lemma fetchAllProfiles_releases (w : World UseProfiles.State) wallet s :
  released UseProfiles.fetchingRef false s
    (run w (UseProfiles.fetchAllProfiles wallet) s).
Proof.
  unfold released, run, UseProfiles.fetchAllProfiles.
  destruct wallet as [w0 |]; simpl; [| left; auto].
  destruct (UseProfiles.fetchingRef s) eqn:E; simpl; [left; auto |].
  guard_released.
Qed.

(** C4.  Whatever the remote calls settle to (a value or a rejection) and
    whatever happens to the hook while a fetch is suspended, a completed
    fetch that took the guard leaves it free; a fetch that issued no call
    never took it and leaves it as it was. *)
Theorem guard_released_on_every_exit :
  (forall (w : World UsePost.State) wallet s,
      released UsePost.fetchingRef false s (run w (UsePost.fetchAllPosts wallet) s))
  /\ (forall (w : World UseComments.State) wallet postPda s,
        released UseComments.fetchingRef None s
          (run w (UseComments.fetchCommentsForPost wallet postPda) s))
  /\ (forall (w : World UseUserProfile.State) wallet s,
        released UseUserProfile.fetchingRef false s
          (run w (UseUserProfile.fetchProfile wallet) s))
  /\ (forall (w : World UseProfiles.State) wallet s,
        released UseProfiles.fetchingRef false s
          (run w (UseProfiles.fetchAllProfiles wallet) s)).
Proof.
  repeat split.
  - apply fetchAllPosts_releases.
  - apply fetchCommentsForPost_releases.
  - apply fetchProfile_releases.
  - apply fetchAllProfiles_releases.
Qed.

(** A call made while the guard is held does nothing. *)
Lemma fetchAllPosts_while_in_flight wallet (l : Loop UsePost.State) :
  UsePost.fetchingRef (store l) = true ->
  invoke (UsePost.fetchAllPosts wallet) l = l.
Proof.
  intros H. unfold invoke, UsePost.fetchAllPosts.
  destruct wallet as [w0 |]; simpl; [| reflexivity].
  rewrite H. reflexivity.
Qed.

Lemma fetchCommentsForPost_while_in_flight wallet postPda (l : Loop UseComments.State) :
  UseComments.fetchingRef (store l) = Some (toString postPda) ->
  invoke (UseComments.fetchCommentsForPost wallet postPda) l = l.
Proof.
  intros H. unfold invoke, UseComments.fetchCommentsForPost.
  destruct wallet as [w0 |]; simpl; [| reflexivity].
  rewrite H. simpl. rewrite String.eqb_refl. reflexivity.
Qed.

(** Two calls for the same post back to back: one remote call. *)
Lemma fetchCommentsForPost_back_to_back (w0 : AnchorWallet.t) postPda
  (s : UseComments.State) :
  UseComments.fetchingRef s = None ->
  issued (invoke (UseComments.fetchCommentsForPost (Some w0) postPda)
            (invoke (UseComments.fetchCommentsForPost (Some w0) postPda)
               (mkLoop s [] [])))
  = [ call (comment_all_memcmp (mkMemcmp 8 (toString postPda))) ].
Proof.
  intros H.
  rewrite (fetchCommentsForPost_while_in_flight (Some w0) postPda).
  - unfold invoke, UseComments.fetchCommentsForPost. simpl. rewrite H. reflexivity.
  - unfold invoke, UseComments.fetchCommentsForPost. simpl. rewrite H. reflexivity.
Qed.

(** A call for another post takes the slot over: a later call for the first
    post is not suppressed although its scan is still in flight. *)
Lemma fetchCommentsForPost_slot_taken_over (w0 : AnchorWallet.t) (postA postB : PublicKey)
  (s : UseComments.State) :
  toString postA <> toString postB ->
  UseComments.fetchingRef s = None ->
  issued (invoke (UseComments.fetchCommentsForPost (Some w0) postA)
            (invoke (UseComments.fetchCommentsForPost (Some w0) postB)
               (invoke (UseComments.fetchCommentsForPost (Some w0) postA)
                  (mkLoop s [] []))))
  = [ call (comment_all_memcmp (mkMemcmp 8 (toString postA)));
      call (comment_all_memcmp (mkMemcmp 8 (toString postB)));
      call (comment_all_memcmp (mkMemcmp 8 (toString postA))) ].
Proof.
  intros Hne Hfree. apply String.eqb_neq in Hne.
  unfold invoke, UseComments.fetchCommentsForPost. simpl. rewrite Hfree. simpl.
  rewrite Hne. simpl. rewrite String.eqb_sym, Hne. reflexivity.
Qed.

End Guards.


(** ** NotFound and the change of identity *)

Section ProfileFetch.
Context {lib : Library}.

Lemma fetchProfile_run (reply : nat -> Remote) (w0 : AnchorWallet.t)
  (s : UseUserProfile.State) :
  UseUserProfile.fetchingRef s = false ->
  option_string_eqb (UseUserProfile.currentWalletKey (Some w0))
    (UseUserProfile.lastWalletRef s) && isSome (UseUserProfile.profile s) = false ->
  run (quiet reply) (UseUserProfile.fetchProfile (Some w0)) s
  = let started :=
      UseUserProfile.setError None
        (UseUserProfile.setIsLoading true (UseUserProfile.set_fetchingRef true s)) in
    let finish s' :=
      UseUserProfile.set_fetchingRef false (UseUserProfile.setIsLoading false s') in
    let remember :=
      UseUserProfile.set_lastWalletRef (UseUserProfile.currentWalletKey (Some w0)) in
    let failed e :=
      if includes (message e) "Account does not exist"
      then UseUserProfile.setProfile None started
      else UseUserProfile.setError (Some (message e)) started in
    mkRun
      (match reply 0%nat _ (userProfile_fetch (profileAddress (AnchorWallet.publicKey w0))) with
       | Ok profileAccount =>
           match UseUserProfile.userProfile_of profileAccount with
           | Ok userProfile =>
               finish (remember (UseUserProfile.setProfile (Some userProfile) started))
           | Thrown e => finish (remember (failed e))
           end
       | Thrown e => finish (remember (failed e))
       end)
      (Ok tt)
      [ call (userProfile_fetch (profileAddress (AnchorWallet.publicKey w0))) ].
Proof.
  intros Hfree Hchanged. unfold run, UseUserProfile.fetchProfile.
  cbn -[UseUserProfile.currentWalletKey option_string_eqb includes].
  rewrite Hfree.
  cbn -[UseUserProfile.currentWalletKey option_string_eqb includes].
  rewrite Hchanged.
  cbn -[UseUserProfile.currentWalletKey option_string_eqb includes].
  fold (profileAddress (AnchorWallet.publicKey w0)).
  destruct (reply 0%nat _ _) as [profileAccount | e]; simpl.
  - destruct (UseUserProfile.userProfile_of profileAccount) as [p | e]; simpl;
      [reflexivity |].
    destruct (includes (message e) _); reflexivity.
  - destruct (includes (message e) _); reflexivity.
Qed.

(** C8, as amended.  A profile fetch of an address that holds no account
    (the read is rejected with "Account does not exist") completes without
    an error: the profile is null, no error is recorded, the guard is free.
    A post fetch by address handles every rejection alike, NotFound
    included: it does not throw, resolves to [{ success: false, error }] with
    the mapped message, and leaves the hook state as it was. *)
Theorem not_found_profile_is_empty_and_post_is_failure :
  (forall (reply : nat -> Remote) (w0 : AnchorWallet.t) (s : UseUserProfile.State) e,
      UseUserProfile.fetchingRef s = false ->
      option_string_eqb (UseUserProfile.currentWalletKey (Some w0))
        (UseUserProfile.lastWalletRef s) && isSome (UseUserProfile.profile s) = false ->
      reply 0%nat _ (userProfile_fetch (profileAddress (AnchorWallet.publicKey w0)))
        = Thrown e ->
      notFoundError e ->
      result (run (quiet reply) (UseUserProfile.fetchProfile (Some w0)) s) = Ok tt
      /\ UseUserProfile.profile
           (final (run (quiet reply) (UseUserProfile.fetchProfile (Some w0)) s)) = None
      /\ UseUserProfile.error
           (final (run (quiet reply) (UseUserProfile.fetchProfile (Some w0)) s)) = None
      /\ UseUserProfile.fetchingRef
           (final (run (quiet reply) (UseUserProfile.fetchProfile (Some w0)) s)) = false)
  /\ (forall (reply : nat -> Remote) (w0 : AnchorWallet.t) mediaUri (s : UsePost.State) e,
        (forall pda, reply 0%nat _ (post_fetch pda) = Thrown e) ->
        result (run (quiet reply) (UsePost.fetchPost (Some w0) mediaUri) s)
        = Ok (UsePost.failure (getErrorMessage (errorCode e)))
        /\ final (run (quiet reply) (UsePost.fetchPost (Some w0) mediaUri) s) = s).
Proof.
  split.
  - intros reply w0 s e Hfree Hchanged Hreply Hnf.
    rewrite (fetchProfile_run reply w0 s Hfree Hchanged). simpl.
    rewrite Hreply. unfold notFoundError in Hnf. rewrite Hnf. simpl. auto.
  - intros reply w0 mediaUri s e Hreply.
    unfold run, UsePost.fetchPost. simpl. rewrite Hreply. simpl. auto.
Qed.

(** C5, as amended.  When the wallet goes away the profile is set to null,
    the last-wallet marker reset and the profile list emptied, and nothing is
    fetched.  When the identity changes to another connected wallet nothing
    is cleared: a profile fetch for the new identity is issued and the
    previous snapshot stays until the fetch settles, replaced by the fetched
    profile, set to null on NotFound, and kept on any other rejection. *)
Theorem identity_change_refetches_without_clearing :
  (forall (reply : nat -> Remote) (s : UseUserProfile.State),
      final (run (quiet reply) (UseUserProfile.useEffect None) s)
      = UseUserProfile.set_lastWalletRef None (UseUserProfile.setProfile None s)
      /\ calls (run (quiet reply) (UseUserProfile.useEffect None) s) = [])
  /\ (forall (reply : nat -> Remote) (s : UseProfiles.State),
        final (run (quiet reply) (UseProfiles.useEffect None) s)
        = UseProfiles.setProfiles [] s
        /\ calls (run (quiet reply) (UseProfiles.useEffect None) s) = [])
  /\ (forall (reply : nat -> Remote) (w0 : AnchorWallet.t) (s : UseUserProfile.State),
        UseUserProfile.fetchingRef s = false ->
        option_string_eqb (UseUserProfile.currentWalletKey (Some w0))
          (UseUserProfile.lastWalletRef s) = false ->
        (map awaited (inflight (invoke (UseUserProfile.useEffect (Some w0)) (mkLoop s [] [])))
         = [ call (userProfile_fetch (profileAddress (AnchorWallet.publicKey w0))) ]
         /\ UseUserProfile.profile
              (store (invoke (UseUserProfile.useEffect (Some w0)) (mkLoop s [] [])))
            = UseUserProfile.profile s)
        /\ (forall profileAccount userProfile,
              reply 0%nat _ (userProfile_fetch (profileAddress (AnchorWallet.publicKey w0)))
                = Ok profileAccount ->
              UseUserProfile.userProfile_of profileAccount = Ok userProfile ->
              UseUserProfile.profile
                (final (run (quiet reply) (UseUserProfile.useEffect (Some w0)) s))
              = Some userProfile)
        /\ (forall e,
              reply 0%nat _ (userProfile_fetch (profileAddress (AnchorWallet.publicKey w0)))
                = Thrown e ->
              UseUserProfile.profile
                (final (run (quiet reply) (UseUserProfile.useEffect (Some w0)) s))
              = if includes (message e) "Account does not exist"
                then None
                else UseUserProfile.profile s)).
Proof.
  split; [| split].
  - intros reply s. split; reflexivity.
  - intros reply s. split; reflexivity.
  - intros reply w0 s Hfree Hchanged.
    assert (Hgo : option_string_eqb (UseUserProfile.currentWalletKey (Some w0))
                    (UseUserProfile.lastWalletRef s)
                  && isSome (UseUserProfile.profile s) = false)
      by (rewrite Hchanged; reflexivity).
    split; [| split].
    + unfold invoke, UseUserProfile.useEffect, UseUserProfile.fetchProfile.
      cbn -[UseUserProfile.currentWalletKey option_string_eqb includes].
      rewrite Hfree.
      cbn -[UseUserProfile.currentWalletKey option_string_eqb includes].
      rewrite Hgo. simpl. auto.
    + intros profileAccount userProfile Hreply Hconv.
      change (UseUserProfile.useEffect (Some w0))
        with (UseUserProfile.fetchProfile (Some w0)).
      rewrite (fetchProfile_run reply w0 s Hfree Hgo). simpl.
      rewrite Hreply, Hconv. reflexivity.
    + intros e Hreply.
      change (UseUserProfile.useEffect (Some w0))
        with (UseUserProfile.fetchProfile (Some w0)).
      rewrite (fetchProfile_run reply w0 s Hfree Hgo). simpl.
      rewrite Hreply. destruct (includes (message e) _); reflexivity.
Qed.

End ProfileFetch.


(** * Further properties of the hooks *)

(** ** One fetch in flight under any schedule *)

Section Coalescing.
Context {St H : Type}.
Variable guard : St -> bool.
Variable handler : H -> Async St unit.

(** A call made while the guard is held starts nothing and keeps the guard. *)
Hypothesis held_is_ignored :
  forall h l, guard (store l) = true ->
    inflight (invoke (handler h) l) = inflight l
    /\ guard (store (invoke (handler h) l)) = true.

(** A call made while the guard is free ends with it free or takes it. *)
Hypothesis free_releases :
  forall h s, guard s = false -> releases guard (handler h) s.

Lemma advance_releases (m : Async St unit) :
  forall l, inflight l = [] -> releases guard m (store l) -> coalesced guard (advance m l).
Proof.
  induction m as [a | e | k IH | f k IH | R r k IH]; intros l Hnone Hrel; simpl in *.
  - left. auto.
  - left. auto.
  - apply IH; assumption.
  - apply IH; assumption.
  - right. destruct Hrel as [Hheld Hnext]. split; [exact Hheld |].
    exists R, r, k. rewrite Hnone. auto.
Qed.

Lemma step_coalesced (l : Loop St) (e : Event H) :
  coalesced guard l -> coalesced guard (step handler l e).
Proof.
  intros Hl. destruct e as [h | remote i]; simpl.
  - destruct Hl as [[Hfree Hnone] | [Hheld Hone]].
    + apply advance_releases; [exact Hnone | apply free_releases; exact Hfree].
    + destruct (held_is_ignored h l Hheld) as [Hin Hg].
      right. split; [exact Hg |]. rewrite Hin. exact Hone.
  - unfold settle. destruct Hl as [[Hfree Hnone] | [Hheld Hone]].
    + rewrite Hnone. destruct i; simpl; left; auto.
    + destruct Hone as (R & r & k & Hin & Hnext). rewrite Hin.
      destruct i as [| i]; simpl.
      * apply advance_releases; [reflexivity |]. simpl. apply Hnext. exact Hheld.
      * destruct i; simpl; right; (split; [exact Hheld |]); exists R, r, k; auto.
Qed.

Lemma play_coalesced (events : list (Event H)) :
  forall l, coalesced guard l -> coalesced guard (play handler events l).
Proof.
  induction events as [| e events IH]; intros l Hl; simpl; [exact Hl |].
  apply IH, step_coalesced, Hl.
Qed.

Lemma coalesced_at_most_one (l : Loop St) :
  coalesced guard l ->
  (List.length (inflight l) <= 1)%nat
  /\ (guard (store l) = false <-> inflight l = []).
Proof.
  intros [[Hfree Hnone] | [Hheld (R & r & k & Hin & _)]].
  - rewrite Hnone. simpl. split; [lia | tauto].
  - rewrite Hin. simpl. split; [lia |]. split; [congruence | discriminate].
Qed.

End Coalescing.

Section BooleanGuards.
Context {lib : Library}.

Lemma fetchAllPosts_takes_or_leaves wallet (s : UsePost.State) :
  UsePost.fetchingRef s = false ->
  releases UsePost.fetchingRef (UsePost.fetchAllPosts wallet) s.
Proof.
  intros Hfree. unfold UsePost.fetchAllPosts.
  destruct wallet as [w0 |]; simpl; [| exact Hfree].
  rewrite Hfree. simpl. split; [reflexivity |].
  intros [posts | e] s1 H1; simpl; [| reflexivity].
  destruct (UsePost.deriveProfilePdas _) as [pdas c2p]. simpl.
  split; [exact H1 |].
  intros [infos | e] s2 H2; simpl; [| reflexivity].
  destruct (JSArray.forEach _ infos JSMap.empty); reflexivity.
Qed.

Lemma fetchProfile_takes_or_leaves wallet (s : UseUserProfile.State) :
  UseUserProfile.fetchingRef s = false ->
  releases UseUserProfile.fetchingRef (UseUserProfile.fetchProfile wallet) s.
Proof.
  intros Hfree. unfold UseUserProfile.fetchProfile.
  destruct wallet as [w0 |]; simpl; [| exact Hfree].
  rewrite Hfree. simpl.
  destruct (_ && _); simpl; [exact Hfree |].
  split; [reflexivity |].
  intros [profileAccount | e] s1 H1; simpl.
  - destruct (UseUserProfile.userProfile_of profileAccount) as [p | e]; simpl;
      [reflexivity |].
    destruct (includes _ _); reflexivity.
  - destruct (includes _ _); reflexivity.
Qed.

Lemma fetchAllProfiles_takes_or_leaves wallet (s : UseProfiles.State) :
  UseProfiles.fetchingRef s = false ->
  releases UseProfiles.fetchingRef (UseProfiles.fetchAllProfiles wallet) s.
Proof.
  intros Hfree. unfold UseProfiles.fetchAllProfiles.
  destruct wallet as [w0 |]; simpl; [| exact Hfree].
  rewrite Hfree. simpl. split; [reflexivity |].
  intros [allProfiles | e] s1 H1; simpl; [| reflexivity].
  destruct (UseProfiles.deriveFollowPdas _ _) as [pdas m]. simpl.
  split; [exact H1 |].
  intros [infos | e] s2 H2; simpl; [| reflexivity].
  destruct (JSArray.forEach _ infos JSMap.empty); simpl; [| reflexivity].
  destruct (mapM _ _); reflexivity.
Qed.

Lemma fetchProfile_while_in_flight wallet (l : Loop UseUserProfile.State) :
  UseUserProfile.fetchingRef (store l) = true ->
  inflight (invoke (UseUserProfile.fetchProfile wallet) l) = inflight l
  /\ UseUserProfile.fetchingRef (store (invoke (UseUserProfile.fetchProfile wallet) l))
     = true.
Proof.
  intros H. unfold invoke, UseUserProfile.fetchProfile.
  destruct wallet as [w0 |]; simpl; [| auto].
  rewrite H. simpl. auto.
Qed.

Lemma fetchAllProfiles_while_in_flight wallet (l : Loop UseProfiles.State) :
  UseProfiles.fetchingRef (store l) = true ->
  invoke (UseProfiles.fetchAllProfiles wallet) l = l.
Proof.
  intros H. unfold invoke, UseProfiles.fetchAllProfiles.
  destruct wallet as [w0 |]; simpl; [| reflexivity].
  rewrite H. reflexivity.
Qed.

(** However calls and settlements interleave, each boolean guard keeps at
    most one fetch of its hook in flight, and it is held exactly while one
    is: [fetchAllPosts]; the effect and [refetch] of [useUserProfile]; the
    effect and [refetch] of [useProfiles]. *)
Theorem boolean_guards_coalesce_under_any_schedule :
  (forall (events : list (Event (option AnchorWallet.t))) (s : UsePost.State),
      UsePost.fetchingRef s = false ->
      (List.length (inflight (play UsePost.fetchAllPosts events (mkLoop s [] []))) <= 1)%nat
      /\ (UsePost.fetchingRef (store (play UsePost.fetchAllPosts events (mkLoop s [] [])))
          = false
          <-> inflight (play UsePost.fetchAllPosts events (mkLoop s [] [])) = []))
  /\ (forall (events : list (Event (bool * option AnchorWallet.t)))
             (s : UseUserProfile.State),
        UseUserProfile.fetchingRef s = false ->
        (List.length (inflight (play profileHandler events (mkLoop s [] []))) <= 1)%nat
        /\ (UseUserProfile.fetchingRef (store (play profileHandler events (mkLoop s [] [])))
            = false
            <-> inflight (play profileHandler events (mkLoop s [] [])) = []))
  /\ (forall (events : list (Event (bool * option AnchorWallet.t)))
             (s : UseProfiles.State),
        UseProfiles.fetchingRef s = false ->
        (List.length (inflight (play profilesHandler events (mkLoop s [] []))) <= 1)%nat
        /\ (UseProfiles.fetchingRef (store (play profilesHandler events (mkLoop s [] [])))
            = false
            <-> inflight (play profilesHandler events (mkLoop s [] [])) = [])).
Proof.
  split; [| split]; intros events s Hfree;
    apply coalesced_at_most_one; apply play_coalesced;
    try (left; simpl; auto).
  - intros h l Hheld. rewrite fetchAllPosts_while_in_flight by exact Hheld. auto.
  - intros h s0 H0. apply fetchAllPosts_takes_or_leaves, H0.
  - intros [[|] [w0 |]] l Hheld; unfold profileHandler; cbn [fst snd];
      try (apply fetchProfile_while_in_flight, Hheld).
    unfold invoke. simpl. auto.
  - intros [[|] [w0 |]] s0 H0; unfold profileHandler; cbn [fst snd];
      try (apply fetchProfile_takes_or_leaves, H0).
    simpl. exact H0.
  - intros [[|] [w0 |]] l Hheld; unfold profilesHandler; cbn [fst snd];
      try change (UseProfiles.useEffect (Some w0))
        with (UseProfiles.fetchAllProfiles (Some w0));
      try (rewrite fetchAllProfiles_while_in_flight by exact Hheld; auto).
    unfold invoke. simpl. auto.
  - intros [[|] [w0 |]] s0 H0; unfold profilesHandler; cbn [fst snd];
      try (apply fetchAllProfiles_takes_or_leaves, H0).
    simpl. exact H0.
Qed.

End BooleanGuards.

(** ** The handle of every post of the merged view *)

Section Handles.
Context {lib : Library} {ok : LibraryContract lib}.

Lemma deriveProfilePdas_entries (creators : list PublicKey) :
  forall seen pdas m,
    profile_entries seen m ->
    profile_entries (seen ++ creators)
      (snd (fold_left UsePost.deriveProfilePdas_step creators (pdas, m))).
Proof.
  induction creators as [| c creators IH]; intros seen pdas m Hm; cbn [fold_left].
  - simpl. rewrite app_nil_r. exact Hm.
  - change (UsePost.deriveProfilePdas_step (pdas, m) c)
      with (pdas ++ [profileAddress c], JSMap.set m (toString c) (profileAddress c)).
    specialize (IH (seen ++ [c]) (pdas ++ [profileAddress c])
                  (JSMap.set m (toString c) (profileAddress c))).
    rewrite <- app_assoc in IH. apply IH.
    intros k p. split.
    + intros H. apply JSMap_set_In in H. destruct H as [[= -> ->] | H].
      * exists c. split; [apply in_or_app; right; left; reflexivity | auto].
      * apply Hm in H. destruct H as (b & Hb & -> & ->).
        exists b. split; [apply in_or_app; auto | auto].
    + intros (b & Hb & -> & ->). apply in_app_or in Hb.
      destruct Hb as [Hb | [<- | []]]; [| apply JSMap_In_set_same].
      destruct (string_dec (toString c) (toString b)) as [E | E].
      * apply toString_inj in E. subst b. apply JSMap_In_set_same.
      * apply JSMap_In_set_other; [exact E |]. apply Hm. eauto.
Qed.

Lemma creatorToPda_entries (uniqueCreators : JSMap.t PublicKey) :
  profile_entries (JSMap.values uniqueCreators)
    (snd (UsePost.deriveProfilePdas uniqueCreators)).
Proof.
  apply (deriveProfilePdas_entries (JSMap.values uniqueCreators) [] [] JSMap.empty).
  intros k p. split; [intros [] | intros (c & [] & _)].
Qed.

Lemma profileMap_step_sets (accounts : PublicKey -> option AccountInfo)
  (creators : list PublicKey) pdas m profileMap c i :
  (forall a b, In a creators -> In b creators ->
     profileAddress a = profileAddress b -> a = b) ->
  profile_entries creators m ->
  In c creators ->
  nth_error pdas i = Some (profileAddress c) ->
  UsePost.profileMap_step pdas m profileMap (accounts (profileAddress c)) i
  = Ok (match decodedHandle accounts c with
        | Some h => JSMap.set profileMap (toString c) h
        | None => profileMap
        end).
Proof.
  intros Hdist Hm Hc Hnth. unfold UsePost.profileMap_step, decodedHandle.
  destruct (accounts (profileAddress c)) as [info |]; [| reflexivity].
  destruct (decode_userProfile (data info)) as [profileData | e]; simpl;
    [| reflexivity].
  rewrite Hnth. rewrite (find_key_of_address _ (toString c)).
  - simpl. rewrite toString_nonempty. reflexivity.
  - apply Hm. eauto.
  - intros k' H. apply Hm in H. destruct H as (b & Hb & -> & Hp).
    rewrite (Hdist c b Hc Hb Hp). reflexivity.
Qed.

Lemma profileMap_forEach (accounts : PublicKey -> option AccountInfo)
  (creators : list PublicKey) m :
  (forall a b, In a creators -> In b creators ->
     profileAddress a = profileAddress b -> a = b) ->
  profile_entries creators m ->
  forall rest seen profileMap,
    creators = seen ++ rest ->
    JSArray.forEach_from
      (UsePost.profileMap_step (map profileAddress creators) m)
      (map accounts (map profileAddress rest)) (List.length seen) profileMap
    = Ok (fold_left
            (fun acc c => match decodedHandle accounts c with
                          | Some h => JSMap.set acc (toString c) h
                          | None => acc
                          end)
            rest profileMap).
Proof.
  intros Hdist Hm. induction rest as [| c rest IH]; intros seen profileMap Hsplit; simpl.
  - reflexivity.
  - rewrite (profileMap_step_sets accounts creators _ m profileMap c).
    + simpl. specialize (IH (seen ++ [c])).
      rewrite length_app, Nat.add_1_r in IH. apply IH.
      rewrite <- app_assoc. exact Hsplit.
    + exact Hdist.
    + exact Hm.
    + rewrite Hsplit. apply in_or_app. right. left. reflexivity.
    + rewrite Hsplit, map_app, nth_error_app2 by (rewrite length_map; lia).
      rewrite length_map, Nat.sub_diag. reflexivity.
Qed.

Lemma handles_fold_kept (accounts : PublicKey -> option AccountInfo) (c : PublicKey) :
  forall l profileMap,
    JSMap.get profileMap (toString c) = decodedHandle accounts c ->
    JSMap.get
      (fold_left
         (fun acc b => match decodedHandle accounts b with
                       | Some h => JSMap.set acc (toString b) h
                       | None => acc
                       end)
         l profileMap)
      (toString c)
    = decodedHandle accounts c.
Proof.
  induction l as [| b l IH]; intros profileMap H; simpl; [exact H |].
  apply IH. destruct (decodedHandle accounts b) as [h |] eqn:Eb; [| exact H].
  destruct (string_dec (toString b) (toString c)) as [E | E].
  - apply toString_inj in E. subst b. rewrite Eb. apply JSMap_get_set_same.
  - rewrite JSMap_get_set_other by exact E. exact H.
Qed.

Lemma handles_fold_get (accounts : PublicKey -> option AccountInfo) (c : PublicKey) :
  forall l profileMap,
    In c l ->
    JSMap.get profileMap (toString c) = None
    \/ JSMap.get profileMap (toString c) = decodedHandle accounts c ->
    JSMap.get
      (fold_left
         (fun acc b => match decodedHandle accounts b with
                       | Some h => JSMap.set acc (toString b) h
                       | None => acc
                       end)
         l profileMap)
      (toString c)
    = decodedHandle accounts c.
Proof.
  induction l as [| b l IH]; intros profileMap Hin H; simpl; [contradiction |].
  destruct (string_dec (toString b) (toString c)) as [E | E].
  - apply toString_inj in E. subst b. apply handles_fold_kept.
    destruct (decodedHandle accounts c) as [h |] eqn:Ec.
    + apply JSMap_get_set_same.
    + destruct H as [H | H]; exact H.
  - destruct Hin as [-> | Hin]; [congruence |].
    apply IH; [exact Hin |].
    destruct (decodedHandle accounts b) as [h |]; [| exact H].
    rewrite JSMap_get_set_other by exact E. exact H.
Qed.

(** With the batch read answered from the ledger and no two creators sharing
    a profile address, the stored view is the scan, sorted by the hook's
    comparator (newest first), each post with the handle decoded from its
    creator's profile account, or with the placeholder (the word User, the
    first 8 characters of the creator's key, three dots) when that account
    is absent, does not decode, or holds an empty handle. *)
Theorem merged_view_shows_decoded_handles (reply : nat -> Remote)
  (accounts : PublicKey -> option AccountInfo) (w0 : AnchorWallet.t)
  (s : UsePost.State) (posts : list (ProgramAccount PostAccount.t)) :
  UsePost.fetchingRef s = false ->
  reply 0%nat _ post_all = Ok posts ->
  (forall pdas, reply 1%nat _ (getMultipleAccountsInfo pdas) = Ok (map accounts pdas)) ->
  profile_addresses_distinct posts ->
  UsePost.allPosts (final (run (quiet reply) (UsePost.fetchAllPosts (Some w0)) s))
  = JSArray.sort UsePost.byCreatedAtDesc
      (map (fun post =>
              UsePost.PostWithHandle.mk (publicKey post) (account post)
                (shownHandle accounts (PostAccount.creator (account post))))
         posts).
Proof.
  intros Hfree Hposts Hbatch Hdist.
  destruct (fetchAllPosts_success reply w0 s posts _ Hfree Hposts (Hbatch _))
    as (profileMap & Hmap & ->).
  simpl. f_equal. apply map_ext_in. intros post Hpost.
  unfold UsePost.withHandle, shownHandle. f_equal.
  destruct (uniqueCreators_spec posts) as (Hnd & Hent & Hcov).
  assert (Hval : forall c, In c (JSMap.values (UsePost.uniqueCreators posts)) ->
                   exists p, In p posts /\ PostAccount.creator (account p) = c).
  { intros c Hc. unfold JSMap.values in Hc. apply in_map_iff in Hc.
    destruct Hc as ([k c'] & <- & Hin). apply (Hent k c' Hin). }
  assert (Hcreator : In (PostAccount.creator (account post))
                       (JSMap.values (UsePost.uniqueCreators posts))).
  { specialize (Hcov post Hpost). unfold JSMap.keys in Hcov.
    apply in_map_iff in Hcov. destruct Hcov as ([k c] & Hk & Hin). simpl in Hk.
    destruct (Hent k c Hin) as (Hkc & _). rewrite Hkc in Hk.
    apply toString_inj in Hk. subst c.
    unfold JSMap.values. apply in_map_iff. exists (k, PostAccount.creator (account post)).
    auto. }
  assert (Hd : forall a b,
             In a (JSMap.values (UsePost.uniqueCreators posts)) ->
             In b (JSMap.values (UsePost.uniqueCreators posts)) ->
             profileAddress a = profileAddress b -> a = b).
  { intros a b Ha Hb E. destruct (Hval a Ha) as (p & Hp & <-).
    destruct (Hval b Hb) as (q & Hq & <-). apply Hdist; assumption. }
  unfold JSArray.forEach in Hmap.
  rewrite (proj1 (deriveProfilePdas_spec _)) in Hmap.
  pose proof (profileMap_forEach accounts (JSMap.values (UsePost.uniqueCreators posts))
                (snd (UsePost.deriveProfilePdas (UsePost.uniqueCreators posts)))
                Hd (creatorToPda_entries _)
                (JSMap.values (UsePost.uniqueCreators posts)) [] JSMap.empty eq_refl)
    as Hrun.
  change (List.length (@nil PublicKey)) with 0%nat in Hrun.
  rewrite Hrun in Hmap. injection Hmap as <-.
  rewrite (handles_fold_get accounts (PostAccount.creator (account post)))
    by (auto; left; reflexivity).
  destruct (decodedHandle accounts (PostAccount.creator (account post)))
    as [[| c rest] |]; reflexivity.
Qed.

End Handles.

(** ** Rejections, integers that do not fit, and the decorated profile list *)

Lemma toNumber_safe (bn : Z) : safeInteger bn -> toNumber bn = Ok bn.
Proof.
  unfold safeInteger, toNumber. intros H.
  destruct (Z.ltb_spec (Z.abs bn) (2 ^ 53)); [reflexivity | lia].
Qed.

Lemma toNumber_unsafe (bn : Z) : ~ safeInteger bn -> toNumber bn = Thrown tooLarge.
Proof.
  unfold safeInteger, toNumber. intros H.
  destruct (Z.ltb_spec (Z.abs bn) (2 ^ 53)); [contradiction | reflexivity].
Qed.

Lemma toNumber_cases (bn : Z) : toNumber bn = Ok bn \/ toNumber bn = Thrown tooLarge.
Proof.
  unfold toNumber. destruct (Z.abs bn <? 2 ^ 53); auto.
Qed.

Lemma mapM_all_ok {A B} (f : A -> Outcome B) (g : A -> B) (l : list A) :
  (forall x, In x l -> f x = Ok (g x)) -> mapM f l = Ok (map g l).
Proof.
  induction l as [| x l IH]; intros H; simpl; [reflexivity |].
  rewrite (H x) by (left; reflexivity). simpl.
  rewrite IH by (intros y Hy; apply H; right; exact Hy). reflexivity.
Qed.

(** When every failure is the same error, one failing element fails the lot. *)
Lemma mapM_one_fails {A B} (f : A -> Outcome B) (e : JsError) (l : list A) (x : A) :
  (forall y, In y l -> (exists b, f y = Ok b) \/ f y = Thrown e) ->
  In x l -> f x = Thrown e -> mapM f l = Thrown e.
Proof.
  induction l as [| y l IH]; intros Hall Hin Hx; simpl; [contradiction |].
  destruct (Hall y (or_introl eq_refl)) as [[b Hb] | Hb]; rewrite Hb; simpl;
    [| reflexivity].
  destruct Hin as [-> | Hin]; [congruence |].
  rewrite IH; auto. intros z Hz. apply Hall. right. exact Hz.
Qed.

Section Rejections.
Context {lib : Library}.

Lemma comment_of_cases (c : ProgramAccount CommentAccount.t) :
  (exists b, UseComments.comment_of c = Ok b)
  \/ UseComments.comment_of c = Thrown tooLarge.
Proof.
  unfold UseComments.comment_of.
  destruct (toNumber_cases (CommentAccount.createdAt (account c))) as [-> | ->]; simpl;
    [| auto].
  destruct (toNumber_cases (CommentAccount.updatedAt (account c))) as [-> | ->]; simpl;
    eauto.
Qed.

Lemma comment_of_unsafe (c : ProgramAccount CommentAccount.t) :
  ~ comment_safe c -> UseComments.comment_of c = Thrown tooLarge.
Proof.
  unfold comment_safe, UseComments.comment_of. intros H.
  destruct (Z.lt_ge_cases (Z.abs (CommentAccount.createdAt (account c))) (2 ^ 53))
    as [H1 | H1].
  - rewrite (toNumber_safe _ H1). simpl. rewrite toNumber_unsafe; [reflexivity |].
    unfold safeInteger in *. tauto.
  - rewrite toNumber_unsafe; [reflexivity |]. unfold safeInteger. lia.
Qed.

(** A fetch whose remote read is rejected keeps the list it held, records
    the message, ends loading, frees the guard and does not reject itself:
    [fetchAllPosts] (rejected scan or rejected batch read, with the default
    message when the rejection has none), [fetchCommentsForPost] and
    [fetchAllProfiles] (rejected scan). *)
Theorem rejected_fetch_keeps_the_last_list :
  (forall (reply : nat -> Remote) (w0 : AnchorWallet.t) (s : UsePost.State) e,
      UsePost.fetchingRef s = false ->
      reply 0%nat _ post_all = Thrown e
      \/ (exists posts,
             reply 0%nat _ post_all = Ok posts
             /\ reply 1%nat _ (getMultipleAccountsInfo
                                 (fst (UsePost.deriveProfilePdas
                                         (UsePost.uniqueCreators posts))))
                = Thrown e) ->
      final (run (quiet reply) (UsePost.fetchAllPosts (Some w0)) s)
      = UsePost.mkState (UsePost.post s) false
          (Some (or_else (message e) "Failed to fetch posts"))
          (UsePost.posts s) (UsePost.allPosts s) false
      /\ result (run (quiet reply) (UsePost.fetchAllPosts (Some w0)) s) = Ok tt)
  /\ (forall (reply : nat -> Remote) (w0 : AnchorWallet.t) postPda
             (s : UseComments.State) e,
        UseComments.fetchingRef s = None ->
        reply 0%nat _ (comment_all_memcmp (mkMemcmp 8 (toString postPda))) = Thrown e ->
        final (run (quiet reply) (UseComments.fetchCommentsForPost (Some w0) postPda) s)
        = UseComments.mkState (UseComments.comments s) false (Some (message e)) None
        /\ result (run (quiet reply)
                     (UseComments.fetchCommentsForPost (Some w0) postPda) s) = Ok tt)
  /\ (forall (reply : nat -> Remote) (w0 : AnchorWallet.t) (s : UseProfiles.State) e,
        UseProfiles.fetchingRef s = false ->
        reply 0%nat _ userProfile_all = Thrown e ->
        final (run (quiet reply) (UseProfiles.fetchAllProfiles (Some w0)) s)
        = UseProfiles.mkState (UseProfiles.profiles s) false (Some (message e)) false
        /\ result (run (quiet reply) (UseProfiles.fetchAllProfiles (Some w0)) s) = Ok tt).
Proof.
  split; [| split].
  - intros reply w0 s e Hfree [Hscan | (posts & Hscan & Hbatch)];
      unfold run, UsePost.fetchAllPosts; simpl; rewrite Hfree; simpl;
      rewrite Hscan; simpl.
    + auto.
    + destruct (UsePost.deriveProfilePdas (UsePost.uniqueCreators posts)) as [pdas c2p].
      simpl in *. rewrite Hbatch. simpl. auto.
  - intros reply w0 postPda s e Hfree Hscan.
    unfold run, UseComments.fetchCommentsForPost. simpl. rewrite Hfree. simpl.
    rewrite Hscan. simpl. auto.
  - intros reply w0 s e Hfree Hscan.
    unfold run, UseProfiles.fetchAllProfiles. simpl. rewrite Hfree. simpl.
    rewrite Hscan. simpl. auto.
Qed.

(** One comment whose timestamp does not fit 53 bits fails the whole fetch:
    no comment of the scan is stored, the list held before stays, and the
    error is the conversion's. *)
Theorem one_unsafe_timestamp_fails_the_comment_fetch (reply : nat -> Remote)
  (w0 : AnchorWallet.t) (postPda : PublicKey) (s : UseComments.State)
  (accts : list (ProgramAccount CommentAccount.t)) (c : ProgramAccount CommentAccount.t) :
  UseComments.fetchingRef s = None ->
  reply 0%nat _ (comment_all_memcmp (mkMemcmp 8 (toString postPda))) = Ok accts ->
  In c accts ->
  ~ comment_safe c ->
  final (run (quiet reply) (UseComments.fetchCommentsForPost (Some w0) postPda) s)
  = UseComments.mkState (UseComments.comments s) false (Some (message tooLarge)) None.
Proof.
  intros Hfree Hscan Hin Hbad.
  unfold run, UseComments.fetchCommentsForPost. simpl. rewrite Hfree. simpl.
  rewrite Hscan. simpl.
  rewrite (mapM_one_fails UseComments.comment_of tooLarge accts c
             (fun y _ => comment_of_cases y) Hin (comment_of_unsafe c Hbad)).
  reflexivity.
Qed.

End Rejections.

Section Decoration.
Context {lib : Library} {ok : LibraryContract lib}.

Lemma withFollowStatus_safe followStatusMap
  (profileAccount : ProgramAccount UserProfileAccount.t) st :
  profile_safe (account profileAccount) ->
  JSMap.get followStatusMap (toString (UserProfileAccount.authority (account profileAccount)))
  = Some st ->
  UseProfiles.withFollowStatus followStatusMap profileAccount
  = Ok (UseProfiles.ProfileWithFollowStatus.mk
          (UserProfileAccount.authority (account profileAccount))
          (UserProfileAccount.handle (account profileAccount))
          (UserProfileAccount.bio (account profileAccount))
          (UserProfileAccount.avatarUri (account profileAccount))
          (UserProfileAccount.createdAt (account profileAccount))
          (UserProfileAccount.updatedAt (account profileAccount))
          (UserProfileAccount.followerCount (account profileAccount))
          (UserProfileAccount.followingCount (account profileAccount))
          (UseProfiles.FollowStatus.isFollowing st)
          (UseProfiles.FollowStatus.followPda st)).
Proof.
  intros (H1 & H2 & H3 & H4) Hget. unfold UseProfiles.withFollowStatus.
  rewrite Hget, (toNumber_safe _ H1), (toNumber_safe _ H2), (toNumber_safe _ H3),
    (toNumber_safe _ H4).
  reflexivity.
Qed.

(** A fetch of all profiles whose reads succeed stores every scanned profile
    but the wallet's own, in scan order, with its fields as scanned and the
    follow status read from the ledger at the address derived from (wallet,
    authority); it records no error. *)
Theorem fetched_profiles_carry_follow_status (reply : nat -> Remote)
  (accounts : PublicKey -> option AccountInfo) (w0 : AnchorWallet.t)
  (s : UseProfiles.State) (allProfiles : list (ProgramAccount UserProfileAccount.t)) :
  UseProfiles.fetchingRef s = false ->
  reply 0%nat _ userProfile_all = Ok allProfiles ->
  (forall pdas, reply 1%nat _ (getMultipleAccountsInfo pdas) = Ok (map accounts pdas)) ->
  follow_addresses_distinct (AnchorWallet.publicKey w0)
    (map (fun profileAccount => UserProfileAccount.authority (account profileAccount))
       (UseProfiles.otherProfiles (AnchorWallet.publicKey w0) allProfiles)) ->
  (forall profileAccount,
      In profileAccount (UseProfiles.otherProfiles (AnchorWallet.publicKey w0) allProfiles) ->
      profile_safe (account profileAccount)) ->
  final (run (quiet reply) (UseProfiles.fetchAllProfiles (Some w0)) s)
  = UseProfiles.mkState
      (map (decorated accounts (AnchorWallet.publicKey w0))
         (UseProfiles.otherProfiles (AnchorWallet.publicKey w0) allProfiles))
      false None false.
Proof.
  intros Hfree Hscan Hbatch Hdist Hsafe.
  set (others := UseProfiles.otherProfiles (AnchorWallet.publicKey w0) allProfiles) in *.
  set (authorities :=
         map (fun profileAccount : ProgramAccount UserProfileAccount.t =>
                UserProfileAccount.authority (account profileAccount)) others) in *.
  destruct (deriveFollowPdas_spec (AnchorWallet.publicKey w0) authorities)
    as (Hpdas & Hent).
  pose proof (resultMap_forEach accounts (AnchorWallet.publicKey w0) authorities
                (snd (UseProfiles.deriveFollowPdas (AnchorWallet.publicKey w0) authorities))
                Hdist Hent authorities [] JSMap.empty eq_refl) as Hrun.
  change (List.length (@nil PublicKey)) with 0%nat in Hrun.
  unfold run, UseProfiles.fetchAllProfiles. simpl. rewrite Hfree. simpl.
  rewrite Hscan. simpl. fold others. fold authorities.
  destruct (UseProfiles.deriveFollowPdas (AnchorWallet.publicKey w0) authorities)
    as [followPdas m].
  simpl in Hpdas, Hent, Hrun. subst followPdas. simpl.
  rewrite Hbatch. cbn [bind]. unfold JSArray.forEach. rewrite Hrun. simpl.
  rewrite (mapM_all_ok _ (decorated accounts (AnchorWallet.publicKey w0))).
  - reflexivity.
  - intros profileAccount Hin.
    rewrite (withFollowStatus_safe _ _
               (followStatusOf accounts (AnchorWallet.publicKey w0)
                  (UserProfileAccount.authority (account profileAccount)))).
    + reflexivity.
    + apply Hsafe, Hin.
    + apply followStatus_fold_get. left. unfold authorities.
      apply in_map_iff. exists profileAccount. auto.
Qed.

End Decoration.

(** ** What the fetches never do: reject *)

Section NeverRejects.
Context {St A : Type}.

Lemma never_throws_run (m : Async St A) :
  never_throws m ->
  forall (w : World St) n s, exists a, result (run_from w n m s) = Ok a.
Proof.
  induction m as [a | e | k IH | g k IH | R r k IH]; simpl; intros H w n s.
  - exists a. reflexivity.
  - contradiction.
  - apply IH, H.
  - apply IH, H.
  - apply IH, H.
Qed.

End NeverRejects.

Lemma never_throws_unit {St} (m : Async St unit) :
  never_throws m ->
  forall (w : World St) n s, result (run_from w n m s) = Ok tt.
Proof.
  intros H w n s. destruct (never_throws_run m H w n s) as [[] E]. exact E.
Qed.

Section FetchesNeverReject.
Context {lib : Library}.

Lemma fetchProfile_never_throws wallet :
  never_throws (UseUserProfile.fetchProfile wallet).
Proof.
  unfold UseUserProfile.fetchProfile.
  destruct wallet as [w0 |]; simpl; [| exact I].
  intros s. destruct (UseUserProfile.fetchingRef s); simpl; [exact I |].
  destruct (_ && _); simpl; [exact I |].
  intros [profileAccount | e]; simpl.
  - destruct (UseUserProfile.userProfile_of profileAccount) as [p | e]; simpl;
      [exact I |].
    destruct (includes _ _); exact I.
  - destruct (includes _ _); exact I.
Qed.

Lemma fetchAllPosts_never_throws wallet :
  never_throws (UsePost.fetchAllPosts wallet).
Proof.
  unfold UsePost.fetchAllPosts.
  destruct wallet as [w0 |]; simpl; [| exact I].
  intros s. destruct (UsePost.fetchingRef s); simpl; [exact I |].
  intros [posts | e]; simpl; [| exact I].
  destruct (UsePost.deriveProfilePdas _) as [pdas c2p]. simpl.
  intros [infos | e]; simpl; [| exact I].
  destruct (JSArray.forEach _ infos JSMap.empty); exact I.
Qed.

Lemma fetchAllUserPosts_never_throws wallet :
  never_throws (UsePost.fetchAllUserPosts wallet).
Proof.
  unfold UsePost.fetchAllUserPosts.
  destruct wallet as [w0 |]; simpl; [| exact I].
  intros [posts | e]; exact I.
Qed.

Lemma fetchPost_never_throws wallet mediaUri :
  never_throws (UsePost.fetchPost wallet mediaUri).
Proof.
  unfold UsePost.fetchPost.
  destruct wallet as [w0 |]; simpl; [| exact I].
  intros [postAccount | e]; simpl; [| exact I].
  destruct (UsePost.userPost_of postAccount); exact I.
Qed.

Lemma fetchCommentsForPost_never_throws wallet postPda :
  never_throws (UseComments.fetchCommentsForPost wallet postPda).
Proof.
  unfold UseComments.fetchCommentsForPost.
  destruct wallet as [w0 |]; simpl; [| exact I].
  intros s. destruct (option_string_eqb _ _); simpl; [exact I |].
  intros [accts | e]; simpl; [| exact I].
  destruct (mapM _ accts); exact I.
Qed.

Lemma fetchAllProfiles_never_throws wallet :
  never_throws (UseProfiles.fetchAllProfiles wallet).
Proof.
  unfold UseProfiles.fetchAllProfiles.
  destruct wallet as [w0 |]; simpl; [| exact I].
  intros s. destruct (UseProfiles.fetchingRef s); simpl; [exact I |].
  intros [allProfiles | e]; simpl; [| exact I].
  destruct (UseProfiles.deriveFollowPdas _ _) as [pdas m]. simpl.
  intros [infos | e]; simpl; [| exact I].
  destruct (JSArray.forEach _ infos JSMap.empty); simpl; [| exact I].
  destruct (mapM _ _); exact I.
Qed.

(** No fetch of the hooks rejects, whatever the wallet, the hook state, the
    answers of the remote store (a rejection being an error object) and
    whatever else runs in between: every failure is caught and recorded (or,
    for [fetchPost], returned). *)
Theorem fetches_never_reject :
  (forall wallet (w : World UseUserProfile.State) n s,
      result (run_from w n (UseUserProfile.fetchProfile wallet) s) = Ok tt)
  /\ (forall wallet (w : World UseUserProfile.State) n s,
        result (run_from w n (UseUserProfile.useEffect wallet) s) = Ok tt)
  /\ (forall wallet (w : World UsePost.State) n s,
        result (run_from w n (UsePost.fetchAllPosts wallet) s) = Ok tt)
  /\ (forall wallet (w : World UsePost.State) n s,
        result (run_from w n (UsePost.fetchAllUserPosts wallet) s) = Ok tt)
  /\ (forall wallet mediaUri (w : World UsePost.State) n s,
        exists r, result (run_from w n (UsePost.fetchPost wallet mediaUri) s) = Ok r)
  /\ (forall wallet postPda (w : World UseComments.State) n s,
        result (run_from w n (UseComments.fetchCommentsForPost wallet postPda) s) = Ok tt)
  /\ (forall wallet (w : World UseProfiles.State) n s,
        result (run_from w n (UseProfiles.fetchAllProfiles wallet) s) = Ok tt)
  /\ (forall wallet (w : World UseProfiles.State) n s,
        result (run_from w n (UseProfiles.useEffect wallet) s) = Ok tt).
Proof.
  split; [| split; [| split; [| split; [| split; [| split; [| split]]]]]].
  - intros wallet. apply never_throws_unit, fetchProfile_never_throws.
  - intros [w0 |] w n s; [| reflexivity].
    exact (never_throws_unit _ (fetchProfile_never_throws (Some w0)) w n s).
  - intros wallet. apply never_throws_unit, fetchAllPosts_never_throws.
  - intros wallet. apply never_throws_unit, fetchAllUserPosts_never_throws.
  - intros wallet mediaUri. apply never_throws_run, fetchPost_never_throws.
  - intros wallet postPda.
    apply never_throws_unit, fetchCommentsForPost_never_throws.
  - intros wallet. apply never_throws_unit, fetchAllProfiles_never_throws.
  - intros [w0 |] w n s; [| reflexivity].
    exact (never_throws_unit _ (fetchAllProfiles_never_throws (Some w0)) w n s).
Qed.

(** After a submission: the result, and the refresh that runs before it. *)
Lemma refresh_then_success {St} (refresh : Async St unit) :
  never_throws refresh ->
  refreshes_with refresh
    (fun sent =>
       try_catch (tx <- lift sent ;; refresh ;;; Return (Success tx))
         (fun err => Return (Failure (getErrorMessage (errorCode err))))).
Proof.
  intros Hsafe. split.
  - intros world s e. reflexivity.
  - intros world s tx. unfold run. cbn [lift bind].
    rewrite run_from_try_catch, run_from_bind.
    rewrite (never_throws_unit refresh Hsafe). simpl.
    rewrite ?(never_throws_unit refresh Hsafe). simpl.
    rewrite ?app_nil_r. reflexivity.
Qed.

End FetchesNeverReject.

(** ** The profile cache of [useUserProfile] *)

Lemma userProfile_of_safe (profileAccount : UserProfileAccount.t) :
  profile_safe profileAccount ->
  UseUserProfile.userProfile_of profileAccount = Ok (profile_view profileAccount).
Proof.
  intros (H1 & H2 & H3 & H4). unfold UseUserProfile.userProfile_of.
  rewrite (toNumber_safe _ H1), (toNumber_safe _ H2), (toNumber_safe _ H3),
    (toNumber_safe _ H4).
  reflexivity.
Qed.

Section ProfileCache.
Context {lib : Library}.

(** A fetch for a wallet whose profile is loaded does nothing. *)
Lemma fetchProfile_cached (w0 : AnchorWallet.t) (s : UseUserProfile.State) :
  option_string_eqb (UseUserProfile.currentWalletKey (Some w0))
    (UseUserProfile.lastWalletRef s) && isSome (UseUserProfile.profile s) = true ->
  forall (world : World UseUserProfile.State) n,
    run_from world n (UseUserProfile.fetchProfile (Some w0)) s = mkRun s (Ok tt) [].
Proof.
  intros Hcached world n. unfold UseUserProfile.fetchProfile.
  cbn -[UseUserProfile.currentWalletKey option_string_eqb includes].
  destruct (UseUserProfile.fetchingRef s); [reflexivity |].
  rewrite Hcached. reflexivity.
Qed.

(** A fetch for a wallet whose profile is not loaded, with the guard free,
    issues the read of the wallet's profile address. *)
Lemma fetchProfile_asks (w0 : AnchorWallet.t) (s : UseUserProfile.State) :
  UseUserProfile.fetchingRef s = false ->
  option_string_eqb (UseUserProfile.currentWalletKey (Some w0))
    (UseUserProfile.lastWalletRef s) && isSome (UseUserProfile.profile s) = false ->
  forall (world : World UseUserProfile.State) n,
    calls (run_from world n (UseUserProfile.fetchProfile (Some w0)) s)
    = [ call (userProfile_fetch (profileAddress (AnchorWallet.publicKey w0))) ].
Proof.
  intros Hfree Hnot world n. unfold UseUserProfile.fetchProfile.
  cbn -[UseUserProfile.currentWalletKey option_string_eqb includes].
  rewrite Hfree, Hnot.
  cbn -[UseUserProfile.currentWalletKey option_string_eqb includes].
  unfold profileAddress. f_equal.
  destruct (reply world n _ _) as [profileAccount | e];
    cbn -[UseUserProfile.currentWalletKey option_string_eqb includes].
  - destruct (UseUserProfile.userProfile_of profileAccount); simpl; [reflexivity |].
    destruct (includes _ _); reflexivity.
  - destruct (includes _ _); reflexivity.
Qed.

Lemma option_string_eqb_refl (a : option string) : option_string_eqb a a = true.
Proof. destruct a as [x |]; simpl; [apply String.eqb_refl | reflexivity]. Qed.

(** A profile that was found is cached for its wallet: every later fetch for
    that wallet, by the effect or by [refetch], issues no read and changes
    nothing.  A profile that was not found is not: the hook shows no profile
    and no error, and every later fetch reads the address again. *)
Theorem found_profile_is_cached_and_missing_one_is_not (reply : nat -> Remote)
  (w0 : AnchorWallet.t) (s : UseUserProfile.State) :
  UseUserProfile.fetchingRef s = false ->
  option_string_eqb (UseUserProfile.currentWalletKey (Some w0))
    (UseUserProfile.lastWalletRef s) && isSome (UseUserProfile.profile s) = false ->
  (forall profileAccount,
      reply 0%nat _ (userProfile_fetch (profileAddress (AnchorWallet.publicKey w0)))
      = Ok profileAccount ->
      profile_safe profileAccount ->
      UseUserProfile.profile
        (final (run (quiet reply) (UseUserProfile.fetchProfile (Some w0)) s))
      = Some (profile_view profileAccount)
      /\ forall (world : World UseUserProfile.State) n,
           run_from world n (UseUserProfile.fetchProfile (Some w0))
             (final (run (quiet reply) (UseUserProfile.fetchProfile (Some w0)) s))
           = mkRun (final (run (quiet reply) (UseUserProfile.fetchProfile (Some w0)) s))
               (Ok tt) [])
  /\ (forall e,
        reply 0%nat _ (userProfile_fetch (profileAddress (AnchorWallet.publicKey w0)))
        = Thrown e ->
        notFoundError e ->
        UseUserProfile.profile
          (final (run (quiet reply) (UseUserProfile.fetchProfile (Some w0)) s))
        = None
        /\ UseUserProfile.error
             (final (run (quiet reply) (UseUserProfile.fetchProfile (Some w0)) s))
           = None
        /\ forall (world : World UseUserProfile.State) n,
             calls (run_from world n (UseUserProfile.fetchProfile (Some w0))
                      (final (run (quiet reply)
                                (UseUserProfile.fetchProfile (Some w0)) s)))
             = [ call (userProfile_fetch (profileAddress (AnchorWallet.publicKey w0))) ]).
Proof.
  intros Hfree Hnot. rewrite (fetchProfile_run reply w0 s Hfree Hnot).
  cbv zeta. cbn [final]. split.
  - intros profileAccount Hreply Hsafe.
    rewrite Hreply, (userProfile_of_safe _ Hsafe). split; [reflexivity |].
    apply fetchProfile_cached. cbn [UseUserProfile.lastWalletRef
      UseUserProfile.set_fetchingRef UseUserProfile.setIsLoading
      UseUserProfile.set_lastWalletRef UseUserProfile.setProfile UseUserProfile.profile].
    rewrite option_string_eqb_refl. reflexivity.
  - intros e Hreply Hmissing. unfold notFoundError in Hmissing.
    rewrite Hreply, Hmissing. split; [reflexivity |]. split; [reflexivity |].
    apply fetchProfile_asks; [reflexivity |].
    cbn [UseUserProfile.lastWalletRef
      UseUserProfile.set_fetchingRef UseUserProfile.setIsLoading
      UseUserProfile.set_lastWalletRef UseUserProfile.setProfile UseUserProfile.profile
      isSome].
    apply andb_false_r.
Qed.

(** A fetch that fails (otherwise than by a missing account) while the hook
    still holds the profile of the previous wallet leaves that profile in
    place and records the wallet as fetched: from then on the effect and
    [refetch] do nothing for this wallet, and the page keeps showing the
    previous wallet's profile next to the error. *)
Theorem failed_fetch_adopts_the_previous_profile (reply : nat -> Remote)
  (w0 : AnchorWallet.t) (s : UseUserProfile.State)
  (previous : UseUserProfile.UserProfile.t) (e : JsError) :
  UseUserProfile.fetchingRef s = false ->
  UseUserProfile.profile s = Some previous ->
  option_string_eqb (UseUserProfile.currentWalletKey (Some w0))
    (UseUserProfile.lastWalletRef s) = false ->
  reply 0%nat _ (userProfile_fetch (profileAddress (AnchorWallet.publicKey w0)))
  = Thrown e ->
  includes (message e) "Account does not exist" = false ->
  UseUserProfile.profile
    (final (run (quiet reply) (UseUserProfile.fetchProfile (Some w0)) s))
  = Some previous
  /\ UseUserProfile.error
       (final (run (quiet reply) (UseUserProfile.fetchProfile (Some w0)) s))
     = Some (message e)
  /\ (forall (world : World UseUserProfile.State) n,
         run_from world n (UseUserProfile.fetchProfile (Some w0))
           (final (run (quiet reply) (UseUserProfile.fetchProfile (Some w0)) s))
         = mkRun (final (run (quiet reply) (UseUserProfile.fetchProfile (Some w0)) s))
             (Ok tt) [])
  /\ (forall (world : World UseUserProfile.State) n,
         run_from world n (UseUserProfile.useEffect (Some w0))
           (final (run (quiet reply) (UseUserProfile.fetchProfile (Some w0)) s))
         = mkRun (final (run (quiet reply) (UseUserProfile.fetchProfile (Some w0)) s))
             (Ok tt) []).
Proof.
  intros Hfree Hprev Hchanged Hreply Hother.
  assert (Hnot : option_string_eqb (UseUserProfile.currentWalletKey (Some w0))
                   (UseUserProfile.lastWalletRef s)
                 && isSome (UseUserProfile.profile s) = false)
    by (rewrite Hchanged; reflexivity).
  rewrite (fetchProfile_run reply w0 s Hfree Hnot).
  cbv zeta. cbn [final]. rewrite Hreply, Hother.
  assert (Hcached :
            forall (world : World UseUserProfile.State) n,
              run_from world n (UseUserProfile.fetchProfile (Some w0))
                (UseUserProfile.set_fetchingRef false
                   (UseUserProfile.setIsLoading false
                      (UseUserProfile.set_lastWalletRef
                         (UseUserProfile.currentWalletKey (Some w0))
                         (UseUserProfile.setError (Some (message e))
                            (UseUserProfile.setError None
                               (UseUserProfile.setIsLoading true
                                  (UseUserProfile.set_fetchingRef true s)))))))
              = mkRun
                  (UseUserProfile.set_fetchingRef false
                     (UseUserProfile.setIsLoading false
                        (UseUserProfile.set_lastWalletRef
                           (UseUserProfile.currentWalletKey (Some w0))
                           (UseUserProfile.setError (Some (message e))
                              (UseUserProfile.setError None
                                 (UseUserProfile.setIsLoading true
                                    (UseUserProfile.set_fetchingRef true s)))))))
                  (Ok tt) []).
  { apply fetchProfile_cached.
    cbn [UseUserProfile.lastWalletRef UseUserProfile.set_fetchingRef
      UseUserProfile.setIsLoading UseUserProfile.set_lastWalletRef
      UseUserProfile.setProfile UseUserProfile.setError UseUserProfile.profile].
    rewrite option_string_eqb_refl, Hprev. reflexivity. }
  split; [exact Hprev |]. split; [reflexivity |]. split; [exact Hcached |].
  exact Hcached.
Qed.

End ProfileCache.

(** ** Submissions and the refresh that follows them *)

Section Submissions.
Context {lib : Library}.

(** The closure of a render, called while that render is the latest one, is
    [fetchProfile]. *)
Lemma fetchProfile_of_latest (wallet : option AnchorWallet.t)
  (world : World UseUserProfile.State) n s :
  run_from world n (UseUserProfile.fetchProfile_of (UseUserProfile.profile s) wallet) s
  = run_from world n (UseUserProfile.fetchProfile wallet) s.
Proof.
  unfold UseUserProfile.fetchProfile_of, UseUserProfile.fetchProfile.
  destruct wallet as [w0 |]; reflexivity.
Qed.

Lemma fetchProfile_of_never_throws rendered wallet :
  never_throws (UseUserProfile.fetchProfile_of rendered wallet).
Proof.
  unfold UseUserProfile.fetchProfile_of.
  destruct wallet as [w0 |]; simpl; [| exact I].
  intros s. destruct (UseUserProfile.fetchingRef s); simpl; [exact I |].
  destruct (_ && _); simpl; [exact I |].
  intros [profileAccount | e]; simpl.
  - destruct (UseUserProfile.userProfile_of profileAccount) as [p | e]; simpl;
      [exact I |].
    destruct (includes _ _); exact I.
  - destruct (includes _ _); exact I.
Qed.

(** [updateProfile] submits the new handle, bio and avatar for the wallet; a
    rejection becomes a failure result and touches nothing; after a success
    it runs the [fetchProfile] of the render it was called in and resolves to
    success whatever that fetch met.  That closure skips the read when its
    render held a profile and the wallet is the one recorded as fetched: a
    profile that was on the page when it was updated is not read again, the
    hook state stays what it was and no read is issued.  When its render
    held no profile and no fetch is in flight, it reads the profile address,
    even if a profile was loaded in the meantime. *)
Theorem update_does_not_reload_a_loaded_profile (w0 : AnchorWallet.t)
  (rendered : option UseUserProfile.UserProfile.t) (handle bio avatarUri : string) :
  exists afterwards,
    UseUserProfile.updateProfile (Some w0) rendered handle bio avatarUri
    = submitted (updateUserProfile handle bio avatarUri (AnchorWallet.publicKey w0))
        afterwards
    /\ refreshes_with (UseUserProfile.fetchProfile_of rendered (Some w0)) afterwards
    /\ (forall (world : World UseUserProfile.State) s tx,
          isSome rendered = true ->
          option_string_eqb (UseUserProfile.currentWalletKey (Some w0))
            (UseUserProfile.lastWalletRef s) = true ->
          run world (afterwards (Ok tx)) s = mkRun s (Ok (Success tx)) [])
    /\ (forall (world : World UseUserProfile.State) s tx,
          rendered = None ->
          UseUserProfile.fetchingRef s = false ->
          calls (run world (afterwards (Ok tx)) s)
          = [ call (userProfile_fetch (profileAddress (AnchorWallet.publicKey w0))) ]).
Proof.
  eexists. split; [reflexivity |].
  pose proof (refresh_then_success (UseUserProfile.fetchProfile_of rendered (Some w0))
                (fetchProfile_of_never_throws rendered (Some w0))) as Hrefresh.
  split; [exact Hrefresh |]. split.
  - intros world s tx Hheld Hsame. rewrite (proj2 Hrefresh world s tx).
    unfold run, UseUserProfile.fetchProfile_of.
    cbn -[UseUserProfile.currentWalletKey option_string_eqb includes].
    destruct (UseUserProfile.fetchingRef s); [reflexivity |].
    rewrite Hsame, Hheld. reflexivity.
  - intros world s tx -> Hfree. rewrite (proj2 Hrefresh world s tx).
    cbn [calls]. unfold run, UseUserProfile.fetchProfile_of.
    cbn -[UseUserProfile.currentWalletKey option_string_eqb includes].
    rewrite Hfree, andb_false_r.
    cbn -[UseUserProfile.currentWalletKey option_string_eqb includes].
    unfold profileAddress. f_equal.
    destruct (reply world 0%nat _ _) as [profileAccount | e];
      cbn -[UseUserProfile.currentWalletKey option_string_eqb includes].
    + destruct (UseUserProfile.userProfile_of profileAccount); simpl; [reflexivity |].
      destruct (includes _ _); reflexivity.
    + destruct (includes _ _); reflexivity.
Qed.

(** [followUser] and [unfollowUser] submit the wallet, the wallet's profile
    address and the profile address of the other authority; a rejection
    becomes a failure result and touches nothing; after a success they run
    [fetchAllProfiles] and resolve to success whatever that fetch met.  While
    a fetch of the profiles is in flight that refresh is skipped: the list
    is left as it is and no read is issued. *)
Theorem follow_and_unfollow_submit_then_refresh (w0 : AnchorWallet.t)
  (profileAuthority : PublicKey) :
  (exists afterwards,
      UseProfiles.followUser (Some w0) profileAuthority
      = submitted
          (followUserProfile (AnchorWallet.publicKey w0)
             (profileAddress (AnchorWallet.publicKey w0))
             (profileAddress profileAuthority))
          afterwards
      /\ refreshes_with (UseProfiles.fetchAllProfiles (Some w0)) afterwards
      /\ forall (world : World UseProfiles.State) s tx,
           UseProfiles.fetchingRef s = true ->
           run world (afterwards (Ok tx)) s = mkRun s (Ok (Success tx)) [])
  /\ (exists afterwards,
        UseProfiles.unfollowUser (Some w0) profileAuthority
        = submitted
            (unfollowUserProfile (AnchorWallet.publicKey w0)
               (profileAddress (AnchorWallet.publicKey w0))
               (profileAddress profileAuthority))
            afterwards
        /\ refreshes_with (UseProfiles.fetchAllProfiles (Some w0)) afterwards
        /\ forall (world : World UseProfiles.State) s tx,
             UseProfiles.fetchingRef s = true ->
             run world (afterwards (Ok tx)) s = mkRun s (Ok (Success tx)) []).
Proof.
  pose proof (refresh_then_success (UseProfiles.fetchAllProfiles (Some w0))
                (fetchAllProfiles_never_throws (Some w0))) as Hrefresh.
  assert (Hskip : forall (world : World UseProfiles.State) s,
             UseProfiles.fetchingRef s = true ->
             run world (UseProfiles.fetchAllProfiles (Some w0)) s = mkRun s (Ok tt) []).
  { intros world s Hheld. unfold run, UseProfiles.fetchAllProfiles. simpl.
    rewrite Hheld. reflexivity. }
  split; eexists; (split; [reflexivity |]); (split; [exact Hrefresh |]);
    intros world s tx Hheld; rewrite (proj2 Hrefresh world s tx);
    rewrite (Hskip world s Hheld); reflexivity.
Qed.

(** [addComment] submits the comment at the address derived from the post,
    the wallet and the content.  A rejection becomes a failure result and no
    comment is fetched.  After a success it fetches the comments of that post
    and resolves to success whatever that fetch met; while a fetch for the
    same post is in flight that refresh is skipped. *)
Theorem comment_is_submitted_then_the_thread_is_refreshed
  (world : World UseComments.State) (w0 : AnchorWallet.t) (postPda : PublicKey)
  (content : string) (s : UseComments.State) :
  UseComments.deriveCommentPda (Some w0) postPda content
  = Some (commentAddress (AnchorWallet.publicKey w0) postPda content)
  /\ run world (UseComments.addComment (Some w0) postPda content) s
     = match reply world 0%nat _
               (createComment_rpc content (AnchorWallet.publicKey w0)
                  (commentAddress (AnchorWallet.publicKey w0) postPda content) postPda)
       with
       | Ok tx =>
           mkRun
             (final (run_from world 1%nat
                       (UseComments.fetchCommentsForPost (Some w0) postPda)
                       (meanwhile world 0%nat s)))
             (Ok (Success tx))
             (call (createComment_rpc content (AnchorWallet.publicKey w0)
                      (commentAddress (AnchorWallet.publicKey w0) postPda content)
                      postPda)
              :: calls (run_from world 1%nat
                          (UseComments.fetchCommentsForPost (Some w0) postPda)
                          (meanwhile world 0%nat s)))
       | Thrown e =>
           mkRun (meanwhile world 0%nat s)
             (Ok (Failure (getErrorMessage (errorCode e))))
             [ call (createComment_rpc content (AnchorWallet.publicKey w0)
                       (commentAddress (AnchorWallet.publicKey w0) postPda content)
                       postPda) ]
       end
  /\ (UseComments.fetchingRef (meanwhile world 0%nat s) = Some (toString postPda) ->
      forall tx,
        reply world 0%nat _
          (createComment_rpc content (AnchorWallet.publicKey w0)
             (commentAddress (AnchorWallet.publicKey w0) postPda content) postPda)
        = Ok tx ->
        run world (UseComments.addComment (Some w0) postPda content) s
        = mkRun (meanwhile world 0%nat s) (Ok (Success tx))
            [ call (createComment_rpc content (AnchorWallet.publicKey w0)
                      (commentAddress (AnchorWallet.publicKey w0) postPda content)
                      postPda) ]).
Proof.
  assert (Hrun :
    run world (UseComments.addComment (Some w0) postPda content) s
     = match reply world 0%nat _
               (createComment_rpc content (AnchorWallet.publicKey w0)
                  (commentAddress (AnchorWallet.publicKey w0) postPda content) postPda)
       with
       | Ok tx =>
           mkRun
             (final (run_from world 1%nat
                       (UseComments.fetchCommentsForPost (Some w0) postPda)
                       (meanwhile world 0%nat s)))
             (Ok (Success tx))
             (call (createComment_rpc content (AnchorWallet.publicKey w0)
                      (commentAddress (AnchorWallet.publicKey w0) postPda content)
                      postPda)
              :: calls (run_from world 1%nat
                          (UseComments.fetchCommentsForPost (Some w0) postPda)
                          (meanwhile world 0%nat s)))
       | Thrown e =>
           mkRun (meanwhile world 0%nat s)
             (Ok (Failure (getErrorMessage (errorCode e))))
             [ call (createComment_rpc content (AnchorWallet.publicKey w0)
                       (commentAddress (AnchorWallet.publicKey w0) postPda content)
                       postPda) ]
       end).
  { unfold run, UseComments.addComment.
    cbn [program provider UseComments.profilePda UseUserProfile.profilePda
         UseComments.deriveCommentPda await bind try_catch run_from].
    fold (commentAddress (AnchorWallet.publicKey w0) postPda content).
    destruct (reply world 0%nat _ _) as [tx | e]; [| reflexivity].
    cbn [bind try_catch].
    rewrite run_from_try_catch, run_from_bind.
    rewrite (never_throws_unit _ (fetchCommentsForPost_never_throws (Some w0) postPda)).
    simpl.
    rewrite ?(never_throws_unit _ (fetchCommentsForPost_never_throws (Some w0) postPda)).
    simpl. rewrite ?app_nil_r. reflexivity. }
  split; [reflexivity |]. split; [exact Hrun |].
  intros Hheld tx Hreply. rewrite Hrun, Hreply.
  unfold UseComments.fetchCommentsForPost. simpl. rewrite Hheld. simpl.
  rewrite String.eqb_refl. reflexivity.
Qed.

(** [createPost], [fetchPost] and [deletePost] derive one address from the
    wallet and the media URI: what [deletePost] names as the post to delete
    is the address [createPost] submitted to and [fetchPost] reads.
    [createPost] and [deletePost] turn the settlement of their submission
    into a success or failure result and leave the hook state alone; neither
    refreshes the lists of posts. *)
Theorem delete_targets_the_address_create_used (w0 : AnchorWallet.t)
  (mediaUri : string) :
  UsePost.derivePostPda (Some w0) mediaUri (profileAddress (AnchorWallet.publicKey w0))
  = Some (postAddress (AnchorWallet.publicKey w0) mediaUri)
  /\ (forall (world : World UsePost.State) content s,
         run world (UsePost.createPost (Some w0) mediaUri content) s
         = mkRun (meanwhile world 0%nat s)
             (Ok match reply world 0%nat _
                         (createPost_rpc mediaUri content (AnchorWallet.publicKey w0)
                            (postAddress (AnchorWallet.publicKey w0) mediaUri)
                            (profileAddress (AnchorWallet.publicKey w0)))
                 with
                 | Ok tx => Success tx
                 | Thrown e => Failure (getErrorMessage (errorCode e))
                 end)
             [ call (createPost_rpc mediaUri content (AnchorWallet.publicKey w0)
                       (postAddress (AnchorWallet.publicKey w0) mediaUri)
                       (profileAddress (AnchorWallet.publicKey w0))) ])
  /\ (forall (world : World UsePost.State) s,
         calls (run world (UsePost.fetchPost (Some w0) mediaUri) s)
         = [ call (post_fetch (postAddress (AnchorWallet.publicKey w0) mediaUri)) ])
  /\ exists afterwards,
       UsePost.deletePost (Some w0) mediaUri
       = submitted
           (deleteUserPost (AnchorWallet.publicKey w0)
              (postAddress (AnchorWallet.publicKey w0) mediaUri))
           afterwards
       /\ forall (world : World UsePost.State) s sent,
            run world (afterwards sent) s
            = mkRun s
                (Ok match sent with
                    | Ok tx => Success tx
                    | Thrown e => Failure (getErrorMessage (errorCode e))
                    end)
                [].
Proof.
  split; [reflexivity |]. split; [| split].
  - intros world content s. unfold run, UsePost.createPost. simpl.
    fold (profileAddress (AnchorWallet.publicKey w0)).
    fold (postAddress (AnchorWallet.publicKey w0) mediaUri).
    destruct (reply world 0%nat _ _); reflexivity.
  - intros world s. unfold run, UsePost.fetchPost. simpl.
    fold (profileAddress (AnchorWallet.publicKey w0)).
    fold (postAddress (AnchorWallet.publicKey w0) mediaUri).
    destruct (reply world 0%nat _ _) as [postAccount | e]; simpl; [| reflexivity].
    destruct (UsePost.userPost_of postAccount); reflexivity.
  - eexists. split; [reflexivity |].
    intros world s [tx | e]; reflexivity.
Qed.

End Submissions.

(** ** Fetches without a guard, and a settlement after the wallet changed *)

Lemma userPost_of_safe (postAccount : PostAccount.t) :
  post_safe postAccount -> UsePost.userPost_of postAccount = Ok (post_view postAccount).
Proof.
  intros (H1 & H2 & H3 & H4 & H5 & H6 & H7 & H8 & H9 & H10).
  unfold UsePost.userPost_of.
  rewrite (toNumber_safe _ H1), (toNumber_safe _ H2), (toNumber_safe _ H3),
    (toNumber_safe _ H4), (toNumber_safe _ H5), (toNumber_safe _ H6),
    (toNumber_safe _ H7), (toNumber_safe _ H8), (toNumber_safe _ H9),
    (toNumber_safe _ H10).
  reflexivity.
Qed.

Lemma safeInteger_dec (bn : Z) : {safeInteger bn} + {~ safeInteger bn}.
Proof. unfold safeInteger. destruct (Z_lt_dec (Z.abs bn) (2 ^ 53)); auto. Qed.

Lemma userPost_of_unsafe (postAccount : PostAccount.t) :
  ~ post_safe postAccount -> UsePost.userPost_of postAccount = Thrown tooLarge.
Proof.
  intros Hbad. unfold UsePost.userPost_of.
  repeat match goal with
         | |- obind (toNumber ?x) _ = _ =>
             let Hs := fresh "Hs" in
             destruct (safeInteger_dec x) as [Hs | Hs];
             [ rewrite (toNumber_safe x Hs); cbn [obind]
             | rewrite (toNumber_unsafe x Hs); reflexivity ]
         end.
  exfalso. apply Hbad. unfold post_safe. tauto.
Qed.

Section Unguarded.
Context {lib : Library}.

Lemma fetchAllUserPosts_invoke (w0 : AnchorWallet.t) (l : Loop UsePost.State) :
  store (invoke (UsePost.fetchAllUserPosts (Some w0)) l) = store l
  /\ issued (invoke (UsePost.fetchAllUserPosts (Some w0)) l)
     = issued l ++ [userPostsScan (AnchorWallet.publicKey w0)]
  /\ map awaited (inflight (invoke (UsePost.fetchAllUserPosts (Some w0)) l))
     = map awaited (inflight l) ++ [userPostsScan (AnchorWallet.publicKey w0)].
Proof.
  unfold invoke, UsePost.fetchAllUserPosts. simpl.
  split; [reflexivity |]. split; [reflexivity |].
  rewrite map_app. reflexivity.
Qed.

Lemma fetchAllUserPosts_repeated (w0 : AnchorWallet.t) (n : nat) :
  forall l : Loop UsePost.State,
    store (play UsePost.fetchAllUserPosts (repeat (Call_handler (Some w0)) n) l)
    = store l
    /\ issued (play UsePost.fetchAllUserPosts (repeat (Call_handler (Some w0)) n) l)
       = issued l ++ repeat (userPostsScan (AnchorWallet.publicKey w0)) n
    /\ map awaited
         (inflight (play UsePost.fetchAllUserPosts (repeat (Call_handler (Some w0)) n) l))
       = map awaited (inflight l) ++ repeat (userPostsScan (AnchorWallet.publicKey w0)) n.
Proof.
  induction n as [| n IH]; intros l.
  - simpl. rewrite !app_nil_r. auto.
  - change (play UsePost.fetchAllUserPosts (repeat (Call_handler (Some w0)) (S n)) l)
      with (play UsePost.fetchAllUserPosts (repeat (Call_handler (Some w0)) n)
              (invoke (UsePost.fetchAllUserPosts (Some w0)) l)).
    destruct (IH (invoke (UsePost.fetchAllUserPosts (Some w0)) l)) as (H1 & H2 & H3).
    destruct (fetchAllUserPosts_invoke w0 l) as (I1 & I2 & I3).
    rewrite H1, H2, H3, I1, I2, I3, <- !app_assoc. auto.
Qed.

(** [fetchAllUserPosts] has no guard.  Called [n] times before anything
    settles it issues [n] scans, each filtered at offset 8 by the wallet's
    profile address, and all [n] are in flight.  The list the hook shows is
    then that of the scan that settles last, not of the call made last: when
    the second call's scan settles before the first call's, the first call's
    answer is what stays. *)
Theorem user_posts_fetch_is_not_coalesced (w0 : AnchorWallet.t) (s : UsePost.State) :
  (forall n,
      issued (play UsePost.fetchAllUserPosts (repeat (Call_handler (Some w0)) n)
                (mkLoop s [] []))
      = repeat (userPostsScan (AnchorWallet.publicKey w0)) n
      /\ map awaited
           (inflight (play UsePost.fetchAllUserPosts
                        (repeat (Call_handler (Some w0)) n) (mkLoop s [] [])))
         = repeat (userPostsScan (AnchorWallet.publicKey w0)) n)
  /\ (forall (first second : Remote) posts1 posts2,
         first _ (post_all_memcmp
                    (mkMemcmp 8 (toString (profileAddress (AnchorWallet.publicKey w0)))))
         = Ok posts1 ->
         second _ (post_all_memcmp
                     (mkMemcmp 8 (toString (profileAddress (AnchorWallet.publicKey w0)))))
         = Ok posts2 ->
         store (play UsePost.fetchAllUserPosts
                  [ Call_handler (Some w0); Call_handler (Some w0);
                    Settle second 1; Settle first 0 ]
                  (mkLoop s [] []))
         = UsePost.setPosts posts1 s).
Proof.
  split.
  - intros n.
    destruct (fetchAllUserPosts_repeated w0 n (mkLoop s [] [])) as (_ & H2 & H3).
    split; assumption.
  - intros first second posts1 posts2 H1 H2.
    unfold play, step, invoke, settle, UsePost.fetchAllUserPosts. simpl.
    fold (profileAddress (AnchorWallet.publicKey w0)).
    rewrite H2. simpl. rewrite H1. reflexivity.
Qed.

(** [fetchPost] reads the post address of the wallet and the media URI.  A
    record whose counters and timestamps all fit 53 bits is stored in the
    hook and returned, field by field; if one does not fit, the fetch
    resolves to a failure with the message of no error code and the hook
    keeps what it held. *)
Theorem fetched_post_is_stored_and_returned (reply : nat -> Remote)
  (w0 : AnchorWallet.t) (mediaUri : string) (s : UsePost.State)
  (postAccount : PostAccount.t) :
  reply 0%nat _ (post_fetch (postAddress (AnchorWallet.publicKey w0) mediaUri))
  = Ok postAccount ->
  (post_safe postAccount ->
   run (quiet reply) (UsePost.fetchPost (Some w0) mediaUri) s
   = mkRun (UsePost.setPost (Some (post_view postAccount)) s)
       (Ok (UsePost.userPost (post_view postAccount)))
       [ call (post_fetch (postAddress (AnchorWallet.publicKey w0) mediaUri)) ])
  /\ (~ post_safe postAccount ->
      run (quiet reply) (UsePost.fetchPost (Some w0) mediaUri) s
      = mkRun s (Ok (UsePost.failure (getErrorMessage None)))
          [ call (post_fetch (postAddress (AnchorWallet.publicKey w0) mediaUri)) ]).
Proof.
  intros Hreply.
  split; intros Hsafe; unfold run, UsePost.fetchPost; simpl;
    fold (profileAddress (AnchorWallet.publicKey w0));
    fold (postAddress (AnchorWallet.publicKey w0) mediaUri);
    rewrite Hreply; simpl.
  - rewrite (userPost_of_safe _ Hsafe). reflexivity.
  - rewrite (userPost_of_unsafe _ Hsafe). reflexivity.
Qed.

(** A profile fetch that is in flight when the wallet changes or is
    disconnected is not superseded: the effect for the next wallet finds the
    guard held and issues nothing, and when the read settles the hook shows
    the profile of the wallet the fetch was started for and records that
    wallet as fetched.  Only a further run of the effect for a wallet with
    another key then reads that wallet's profile, and the profile of the
    first wallet is shown meanwhile. *)
Theorem profile_fetch_in_flight_outlives_a_wallet_change (remote : Remote)
  (w0 : AnchorWallet.t) (next : option AnchorWallet.t) (s : UseUserProfile.State)
  (profileAccount : UserProfileAccount.t) :
  UseUserProfile.fetchingRef s = false ->
  option_string_eqb (UseUserProfile.currentWalletKey (Some w0))
    (UseUserProfile.lastWalletRef s) && isSome (UseUserProfile.profile s) = false ->
  remote _ (userProfile_fetch (profileAddress (AnchorWallet.publicKey w0)))
  = Ok profileAccount ->
  profile_safe profileAccount ->
  issued (invoke (UseUserProfile.useEffect next)
            (invoke (UseUserProfile.useEffect (Some w0)) (mkLoop s [] [])))
  = [ call (userProfile_fetch (profileAddress (AnchorWallet.publicKey w0))) ]
  /\ settle remote 0
       (invoke (UseUserProfile.useEffect next)
          (invoke (UseUserProfile.useEffect (Some w0)) (mkLoop s [] [])))
     = mkLoop
         (UseUserProfile.mkState (Some (profile_view profileAccount)) false None false
            (UseUserProfile.currentWalletKey (Some w0)))
         []
         [ call (userProfile_fetch (profileAddress (AnchorWallet.publicKey w0))) ]
  /\ forall w1,
       option_string_eqb (UseUserProfile.currentWalletKey (Some w1))
         (UseUserProfile.currentWalletKey (Some w0)) = false ->
       issued (invoke (UseUserProfile.useEffect (Some w1))
                 (settle remote 0
                    (invoke (UseUserProfile.useEffect next)
                       (invoke (UseUserProfile.useEffect (Some w0)) (mkLoop s [] [])))))
       = [ call (userProfile_fetch (profileAddress (AnchorWallet.publicKey w0)));
           call (userProfile_fetch (profileAddress (AnchorWallet.publicKey w1))) ]
       /\ UseUserProfile.profile
            (store (invoke (UseUserProfile.useEffect (Some w1))
                      (settle remote 0
                         (invoke (UseUserProfile.useEffect next)
                            (invoke (UseUserProfile.useEffect (Some w0))
                               (mkLoop s [] []))))))
          = Some (profile_view profileAccount).
Proof.
  intros Hfree Hnot Hremote Hsafe.
  assert (Hsettled :
    issued (invoke (UseUserProfile.useEffect next)
              (invoke (UseUserProfile.useEffect (Some w0)) (mkLoop s [] [])))
    = [ call (userProfile_fetch (profileAddress (AnchorWallet.publicKey w0))) ]
    /\ settle remote 0
         (invoke (UseUserProfile.useEffect next)
            (invoke (UseUserProfile.useEffect (Some w0)) (mkLoop s [] [])))
       = mkLoop
           (UseUserProfile.mkState (Some (profile_view profileAccount)) false None false
              (UseUserProfile.currentWalletKey (Some w0)))
           []
           [ call (userProfile_fetch (profileAddress (AnchorWallet.publicKey w0))) ]).
  { destruct next as [w1 |];
      unfold invoke, settle, UseUserProfile.useEffect, UseUserProfile.fetchProfile;
      cbn -[UseUserProfile.currentWalletKey option_string_eqb includes Buffer_from];
      rewrite Hfree;
      cbn -[UseUserProfile.currentWalletKey option_string_eqb includes Buffer_from];
      rewrite Hnot;
      cbn -[UseUserProfile.currentWalletKey option_string_eqb includes Buffer_from];
      fold (profileAddress (AnchorWallet.publicKey w0));
      rewrite Hremote;
      cbn -[UseUserProfile.currentWalletKey option_string_eqb includes Buffer_from];
      rewrite (userProfile_of_safe _ Hsafe);
      split; reflexivity. }
  destruct Hsettled as [Hissued Hsettled].
  split; [exact Hissued |]. split; [exact Hsettled |].
  intros w1 Hother. rewrite Hsettled.
  unfold invoke, UseUserProfile.useEffect, UseUserProfile.fetchProfile.
  cbn -[UseUserProfile.currentWalletKey option_string_eqb includes Buffer_from].
  rewrite Hother.
  cbn -[UseUserProfile.currentWalletKey option_string_eqb includes Buffer_from].
  split; reflexivity.
Qed.

(** Without a wallet no hook function issues a remote call.  The fetches
    return at once ([fetchProfile] and the effects clear what the hook held;
    [fetchPost] and [deletePost] resolve to [undefined]); [createPost],
    [addComment], [updateProfile], [followUser] and [unfollowUser] reject
    with the message that names what is missing. *)
Theorem without_a_wallet_nothing_is_requested :
  (forall (world : World UseUserProfile.State) s,
      run world (UseUserProfile.fetchProfile None) s
      = mkRun (UseUserProfile.setProfile None s) (Ok tt) []
      /\ run world (UseUserProfile.useEffect None) s
         = mkRun (UseUserProfile.set_lastWalletRef None (UseUserProfile.setProfile None s))
             (Ok tt) [])
  /\ (forall (world : World UsePost.State) s mediaUri content,
         run world (UsePost.fetchAllPosts None) s = mkRun s (Ok tt) []
         /\ run world (UsePost.fetchAllUserPosts None) s = mkRun s (Ok tt) []
         /\ run world (UsePost.fetchPost None mediaUri) s
            = mkRun s (Ok UsePost.undefined) []
         /\ run world (UsePost.createPost None mediaUri content) s
            = mkRun s (Thrown (Error "Program or wallet not available")) []
         /\ UsePost.deletePost None mediaUri = returned_undefined)
  /\ (forall (world : World UseComments.State) s postPda content,
         run world (UseComments.fetchCommentsForPost None postPda) s = mkRun s (Ok tt) []
         /\ run world (UseComments.addComment None postPda content) s
            = mkRun s (Thrown (Error "Program, wallet, or profile not available")) [])
  /\ (forall (world : World UseProfiles.State) s profileAuthority,
         run world (UseProfiles.fetchAllProfiles None) s = mkRun s (Ok tt) []
         /\ run world (UseProfiles.useEffect None) s
            = mkRun (UseProfiles.setProfiles [] s) (Ok tt) []
         /\ UseProfiles.followUser None profileAuthority
            = threw (Error "Program or wallet not available")
         /\ UseProfiles.unfollowUser None profileAuthority
            = threw (Error "Program or wallet not available"))
  /\ (forall rendered handle bio avatarUri,
         UseUserProfile.updateProfile None rendered handle bio avatarUri
         = threw (Error "Program or profile PDA or wallet not available")).
Proof.
  split; [| split; [| split; [| split]]]; intros; repeat split; reflexivity.
Qed.

End Unguarded.

(** ** Errors that stay, and scans that find nothing *)

Section StickyErrors.
Context {lib : Library}.

(** [usePost] never clears its error.  With an error recorded, a fetch of
    all posts whose scan and batch read both succeed stores every scanned
    post and leaves the error in place; a fetch of the user's posts whose
    scan succeeds stores the scanned list and leaves the error in place;
    [fetchPost] and [createPost] leave it in place whatever they meet.  The
    page keeps showing an error after the fetch that caused it was repeated
    with success. *)
Theorem post_errors_are_never_cleared (reply : nat -> Remote)
  (w0 : AnchorWallet.t) (s : UsePost.State) (earlier : string) :
  UsePost.error s = Some earlier ->
  (forall posts infos,
      UsePost.fetchingRef s = false ->
      reply 0%nat _ post_all = Ok posts ->
      reply 1%nat _ (getMultipleAccountsInfo
                       (fst (UsePost.deriveProfilePdas (UsePost.uniqueCreators posts))))
      = Ok infos ->
      UsePost.error (final (run (quiet reply) (UsePost.fetchAllPosts (Some w0)) s))
      = Some earlier
      /\ Permutation
           (map undecorate
              (UsePost.allPosts
                 (final (run (quiet reply) (UsePost.fetchAllPosts (Some w0)) s))))
           posts)
  /\ (forall userPosts,
        reply 0%nat _ (post_all_memcmp
                         (mkMemcmp 8 (toString (profileAddress (AnchorWallet.publicKey w0)))))
        = Ok userPosts ->
        UsePost.posts (final (run (quiet reply) (UsePost.fetchAllUserPosts (Some w0)) s))
        = userPosts
        /\ UsePost.error
             (final (run (quiet reply) (UsePost.fetchAllUserPosts (Some w0)) s))
           = Some earlier)
  /\ (forall wallet mediaUri,
        UsePost.error (final (run (quiet reply) (UsePost.fetchPost wallet mediaUri) s))
        = Some earlier)
  /\ (forall wallet mediaUri content,
        UsePost.error
          (final (run (quiet reply) (UsePost.createPost wallet mediaUri content) s))
        = Some earlier).
Proof.
  intros Herr. split; [| split; [| split]].
  - intros posts infos Hfree Hposts Hinfos.
    destruct (fetchAllPosts_success reply w0 s posts infos Hfree Hposts Hinfos)
      as (profileMap & _ & ->).
    cbn [final posts_after UsePost.allPosts UsePost.error UsePost.set_fetchingRef
         UsePost.setIsLoading UsePost.setAllPosts].
    split; [exact Herr |].
    eapply perm_trans; [apply Permutation_map, sort_perm |].
    rewrite undecorate_withHandle. apply Permutation_refl.
  - intros userPosts Hscan. unfold run, UsePost.fetchAllUserPosts. simpl.
    fold (profileAddress (AnchorWallet.publicKey w0)).
    rewrite Hscan. simpl. split; [reflexivity | exact Herr].
  - intros wallet mediaUri. unfold run, UsePost.fetchPost.
    destruct wallet as [w1 |]; simpl; [| exact Herr].
    destruct (reply 0%nat _ _) as [postAccount | e]; simpl; [| exact Herr].
    destruct (UsePost.userPost_of postAccount); simpl; exact Herr.
  - intros wallet mediaUri content. unfold run, UsePost.createPost.
    destruct wallet as [w1 |]; simpl; [| exact Herr].
    destruct (reply 0%nat _ _); simpl; exact Herr.
Qed.

(** A scan that finds nothing to decorate does not end the fetch early: with
    no post on the ledger, and with no profile but the wallet's own, the
    batch read is still issued, for an empty list of addresses, and the hook
    then shows an empty list. *)
Theorem empty_scans_still_issue_the_batch_read (reply : nat -> Remote)
  (w0 : AnchorWallet.t) :
  reply 1%nat _ (getMultipleAccountsInfo []) = Ok [] ->
  (forall s,
      UsePost.fetchingRef s = false ->
      reply 0%nat _ post_all = Ok [] ->
      run (quiet reply) (UsePost.fetchAllPosts (Some w0)) s
      = mkRun (posts_after s []) (Ok tt)
          [ call post_all; call (getMultipleAccountsInfo []) ])
  /\ (forall s allProfiles,
         UseProfiles.fetchingRef s = false ->
         reply 0%nat _ userProfile_all = Ok allProfiles ->
         UseProfiles.otherProfiles (AnchorWallet.publicKey w0) allProfiles = [] ->
         run (quiet reply) (UseProfiles.fetchAllProfiles (Some w0)) s
         = mkRun (UseProfiles.mkState [] false None false) (Ok tt)
             [ call userProfile_all; call (getMultipleAccountsInfo []) ]).
Proof.
  intros Hbatch. split.
  - intros s Hfree Hscan. unfold run, UsePost.fetchAllPosts. simpl.
    rewrite Hfree. simpl. rewrite Hscan. simpl. rewrite Hbatch. reflexivity.
  - intros s allProfiles Hfree Hscan Hnone.
    unfold run, UseProfiles.fetchAllProfiles. simpl.
    rewrite Hfree. simpl. rewrite Hscan. simpl. rewrite Hnone. simpl.
    rewrite Hbatch. reflexivity.
Qed.

End StickyErrors.

(** ** Settlements that arrive late *)

Section LateSettlements.
Context {lib : Library} {ok : LibraryContract lib}.

Lemma comment_of_safe (c : ProgramAccount CommentAccount.t) :
  comment_safe c -> UseComments.comment_of c = Ok (comment_view c).
Proof.
  intros [H1 H2]. unfold UseComments.comment_of.
  cbv zeta. rewrite (toNumber_safe _ H1), (toNumber_safe _ H2). reflexivity.
Qed.

(** The comments shown are those of the scan that settles last, whatever
    post was asked for last.  A fetch for post A, then one for post B; B's
    scan settles first and A's after it: the hook shows the comments of A,
    with loading off and the guard free. *)
Theorem comments_shown_are_those_settled_last (remote : Remote)
  (w0 : AnchorWallet.t) (postA postB : PublicKey) (s : UseComments.State)
  (commentsA commentsB : list (ProgramAccount CommentAccount.t)) :
  UseComments.fetchingRef s = None ->
  postA <> postB ->
  remote _ (comment_all_memcmp (mkMemcmp 8 (toString postA))) = Ok commentsA ->
  remote _ (comment_all_memcmp (mkMemcmp 8 (toString postB))) = Ok commentsB ->
  Forall comment_safe commentsA ->
  Forall comment_safe commentsB ->
  store (settle remote 0
           (settle remote 1
              (invoke (UseComments.fetchCommentsForPost (Some w0) postB)
                 (invoke (UseComments.fetchCommentsForPost (Some w0) postA)
                    (mkLoop s [] [])))))
  = UseComments.mkState
      (JSArray.sort UseComments.byCreatedAtAsc (map comment_view commentsA))
      false None None
  /\ issued (settle remote 0
               (settle remote 1
                  (invoke (UseComments.fetchCommentsForPost (Some w0) postB)
                     (invoke (UseComments.fetchCommentsForPost (Some w0) postA)
                        (mkLoop s [] [])))))
     = [ call (comment_all_memcmp (mkMemcmp 8 (toString postA)));
         call (comment_all_memcmp (mkMemcmp 8 (toString postB))) ].
Proof.
  intros Hfree Hdiff HA HB HsafeA HsafeB.
  assert (Hkeys : String.eqb (toString postA) (toString postB) = false).
  { apply String.eqb_neq. intros E. apply Hdiff, toString_inj, E. }
  assert (HmA : mapM UseComments.comment_of commentsA = Ok (map comment_view commentsA)).
  { apply mapM_all_ok. intros c Hc. apply comment_of_safe.
    rewrite Forall_forall in HsafeA. apply HsafeA, Hc. }
  assert (HmB : mapM UseComments.comment_of commentsB = Ok (map comment_view commentsB)).
  { apply mapM_all_ok. intros c Hc. apply comment_of_safe.
    rewrite Forall_forall in HsafeB. apply HsafeB, Hc. }
  unfold invoke, settle, UseComments.fetchCommentsForPost.
  cbn -[String.eqb]. rewrite Hfree. cbn -[String.eqb]. rewrite Hkeys.
  cbn -[String.eqb]. rewrite HB. cbn -[String.eqb]. rewrite HmB.
  cbn -[String.eqb]. rewrite HA. cbn -[String.eqb]. rewrite HmA.
  split; reflexivity.
Qed.

(** A fetch of the profiles that is in flight when the wallet changes or is
    disconnected is not superseded: the effect for the next wallet finds the
    guard held and issues nothing, and when the scan and the batch read have
    settled the hook shows the list made for the first wallet: all profiles
    but the first wallet's, with the follow status as the first wallet has
    it. *)
Theorem profiles_fetch_in_flight_outlives_a_wallet_change (remote : Remote)
  (accounts : PublicKey -> option AccountInfo) (w0 : AnchorWallet.t)
  (next : option AnchorWallet.t) (s : UseProfiles.State)
  (allProfiles : list (ProgramAccount UserProfileAccount.t)) :
  UseProfiles.fetchingRef s = false ->
  remote _ userProfile_all = Ok allProfiles ->
  (forall pdas, remote _ (getMultipleAccountsInfo pdas) = Ok (map accounts pdas)) ->
  follow_addresses_distinct (AnchorWallet.publicKey w0)
    (map (fun profileAccount => UserProfileAccount.authority (account profileAccount))
       (UseProfiles.otherProfiles (AnchorWallet.publicKey w0) allProfiles)) ->
  (forall profileAccount,
      In profileAccount (UseProfiles.otherProfiles (AnchorWallet.publicKey w0) allProfiles) ->
      profile_safe (account profileAccount)) ->
  issued (invoke (UseProfiles.useEffect next)
            (invoke (UseProfiles.useEffect (Some w0)) (mkLoop s [] [])))
  = [ call userProfile_all ]
  /\ store (settle remote 0
              (settle remote 0
                 (invoke (UseProfiles.useEffect next)
                    (invoke (UseProfiles.useEffect (Some w0)) (mkLoop s [] [])))))
     = UseProfiles.mkState
         (map (decorated accounts (AnchorWallet.publicKey w0))
            (UseProfiles.otherProfiles (AnchorWallet.publicKey w0) allProfiles))
         false None false
  /\ inflight (settle remote 0
                 (settle remote 0
                    (invoke (UseProfiles.useEffect next)
                       (invoke (UseProfiles.useEffect (Some w0)) (mkLoop s [] [])))))
     = [].
Proof.
  intros Hfree Hscan Hbatch Hdist Hsafe.
  set (others := UseProfiles.otherProfiles (AnchorWallet.publicKey w0) allProfiles) in *.
  set (authorities :=
         map (fun profileAccount : ProgramAccount UserProfileAccount.t =>
                UserProfileAccount.authority (account profileAccount)) others) in *.
  destruct (deriveFollowPdas_spec (AnchorWallet.publicKey w0) authorities)
    as (Hpdas & Hent).
  pose proof (resultMap_forEach accounts (AnchorWallet.publicKey w0) authorities
                (snd (UseProfiles.deriveFollowPdas (AnchorWallet.publicKey w0) authorities))
                Hdist Hent authorities [] JSMap.empty eq_refl) as Hrun.
  change (List.length (@nil PublicKey)) with 0%nat in Hrun.
  assert (Hmap : forall m,
             (forall a, In a authorities ->
                JSMap.get m (toString a)
                = Some (followStatusOf accounts (AnchorWallet.publicKey w0) a)) ->
             mapM (UseProfiles.withFollowStatus m) others
             = Ok (map (decorated accounts (AnchorWallet.publicKey w0)) others)).
  { intros m Hget. apply mapM_all_ok. intros profileAccount Hin.
    rewrite (withFollowStatus_safe _ _
               (followStatusOf accounts (AnchorWallet.publicKey w0)
                  (UserProfileAccount.authority (account profileAccount)))).
    - reflexivity.
    - apply Hsafe, Hin.
    - apply Hget. unfold authorities. apply in_map_iff. exists profileAccount. auto. }
  destruct next as [w1 |];
    unfold invoke, settle, UseProfiles.useEffect, UseProfiles.fetchAllProfiles;
    simpl; rewrite Hfree; simpl; rewrite Hscan; simpl;
    fold others; fold authorities;
    destruct (UseProfiles.deriveFollowPdas (AnchorWallet.publicKey w0) authorities)
      as [followPdas m];
    simpl in Hpdas, Hent, Hrun; subst followPdas; simpl;
    rewrite Hbatch; cbn [bind]; unfold JSArray.forEach; rewrite Hrun; simpl;
    rewrite Hmap by (intros a Ha; apply followStatus_fold_get; left; exact Ha);
    repeat split; reflexivity.
Qed.

End LateSettlements.
(** * The hooks on a concrete library and ledger *)

#[local] Existing Instance Demo.library.

Ltac by_computation :=
  repeat match goal with |- _ /\ _ => split end; vm_compute; reflexivity.

Lemma demo_contract : LibraryContract Demo.library.
Proof.
  split.
  - intros [a] [b]. simpl. unfold Demo.demo_toString. simpl. intros [= H].
    f_equal. rewrite <- (list_byte_of_string_of_list_byte a),
      <- (list_byte_of_string_of_list_byte b), H. reflexivity.
  - intros a. reflexivity.
Qed.

(** Scenario B: 50 posts by 5 creators are decorated with one batch read of
    5 addresses. *)
Lemma fifty_posts_five_creators_one_batch_read :
  UsePost.fetchingRef UsePost.initial = false
  /\ Demo.remote Demo.fiftyPosts _ post_all = Ok Demo.posts50
  /\ List.length Demo.posts50 = 50%nat
  /\ List.length (JSMap.values (UsePost.uniqueCreators Demo.posts50)) = 5%nat
  /\ List.length
       (filter is_getMultipleAccountsInfo
          (calls (run (Demo.world Demo.fiftyPosts)
                    (UsePost.fetchAllPosts (Demo.walletOf "alice")) UsePost.initial)))
     = 1%nat.
Proof.
  split; [reflexivity |]. split; [reflexivity |]. split; [reflexivity |].
  split; [vm_compute; reflexivity |].
  exact (proj2 (proj2 (proj2 (proj2
           (one_batch_read_for_unique_creators (fun _ => Demo.remote Demo.fiftyPosts)
              (AnchorWallet.mk (Demo.key "alice")) UsePost.initial Demo.posts50
              eq_refl eq_refl))))).
Defined.



(** Beyond 53 bits the comparator sees doubles: the posts created at 2^53 and
    at 2^53 + 1 are the same double and keep the order of the scan, behind
    the post created at 2^53 + 2. *)
Example timestamps_beyond_53_bits_compare_as_doubles :
  map (fun p => toString (UsePost.PostWithHandle.publicKey p))
      (UsePost.allPosts
         (final (run (Demo.world Demo.farFuture)
                   (UsePost.fetchAllPosts (Demo.walletOf "alice")) UsePost.initial)))
  = ["Kr3"; "Kr1"; "Kr2"]
  /\ Number (2 ^ 53 + 1) = Number (2 ^ 53)
  /\ Number (2 ^ 53 + 2) = finite (2 ^ 53 + 2).
Proof. by_computation. Qed.


(** C3 at the failing input: a fetch for post A, one for post B, then one for
    post A again, none settled yet.  The single slot holds the latest key
    only, so the third call is not suppressed: two scans for post A are
    outstanding. *)
Example comment_guard_holds_latest_key_only :
  issued Demo.interleaved
  = [ call (comment_all_memcmp (mkMemcmp 8 "KpostA"));
      call (comment_all_memcmp (mkMemcmp 8 "KpostB"));
      call (comment_all_memcmp (mkMemcmp 8 "KpostA")) ]
  /\ map awaited (inflight Demo.interleaved) = issued Demo.interleaved
  /\ outstanding (is_comment_scan "KpostA") Demo.interleaved = 2%nat
  /\ UseComments.fetchingRef (store Demo.interleaved) = Some "KpostA".
Proof. by_computation. Qed.

(** C5 as stated fails: after alice's profile was fetched and the wallet
    changed to bob's, alice's profile is still in the hook while bob's is
    being fetched, and it stays there when that fetch fails. *)
Lemma switching_wallet_keeps_previous_profile :
  option_map UseUserProfile.UserProfile.handle (UseUserProfile.profile Demo.afterAlice)
  = Some "alice.sol"
  /\ map awaited (inflight Demo.switchedToBob)
     = [ call (userProfile_fetch (profileAddress (Demo.key "bob"))) ]
  /\ option_map UseUserProfile.UserProfile.handle
       (UseUserProfile.profile (store Demo.switchedToBob))
     = Some "alice.sol"
  /\ option_map UseUserProfile.UserProfile.handle
       (UseUserProfile.profile
          (store (settle (Demo.remote Demo.aliceOnly) 0 Demo.switchedToBob)))
     = Some "alice.sol"
  /\ UseUserProfile.lastWalletRef
       (store (settle (Demo.remote Demo.aliceOnly) 0 Demo.switchedToBob))
     = Some "Kbob"
  /\ List.length (inflight (settle (Demo.remote Demo.aliceOnly) 0 Demo.switchedToBob))
     = 0%nat.
Proof. by_computation. Qed.

(** After the change to bob's wallet a fetch of bob's profile is in flight
    and the profile in the hook is the one it held before. *)
Lemma switching_wallet_refetches :
  (UseUserProfile.fetchingRef Demo.afterAlice = false
   /\ option_string_eqb (UseUserProfile.currentWalletKey (Demo.walletOf "bob"))
        (UseUserProfile.lastWalletRef Demo.afterAlice) = false)
  /\ map awaited
       (inflight (invoke (UseUserProfile.useEffect (Demo.walletOf "bob"))
                    (mkLoop Demo.afterAlice [] [])))
     = [ call (userProfile_fetch (profileAddress (Demo.key "bob"))) ]
  /\ UseUserProfile.profile
       (store (invoke (UseUserProfile.useEffect (Demo.walletOf "bob"))
                 (mkLoop Demo.afterAlice [] [])))
     = UseUserProfile.profile Demo.afterAlice.
Proof.
  assert (H1 : UseUserProfile.fetchingRef Demo.afterAlice = false)
    by (vm_compute; reflexivity).
  assert (H2 : option_string_eqb (UseUserProfile.currentWalletKey (Demo.walletOf "bob"))
                 (UseUserProfile.lastWalletRef Demo.afterAlice) = false)
    by (vm_compute; reflexivity).
  split; [split; assumption |].
  exact (proj1 (proj2 (proj2 identity_change_refetches_without_clearing)
                  (fun _ => Demo.remote Demo.aliceOnly)
                  (AnchorWallet.mk (Demo.key "bob")) Demo.afterAlice H1 H2)).
Defined.

(** C8 as stated fails for a post fetch: a post address that holds no record
    is reported as [{ success: false, error }], and the post fetched before
    stays in the hook. *)
Lemma post_not_found_is_reported_as_failure :
  result (run (Demo.world Demo.emptyLedger)
            (UsePost.fetchPost (Demo.walletOf "alice") "missing.png")
            (UsePost.setPost (Some Demo.stalePost) UsePost.initial))
  = Ok (UsePost.failure "Operation failed")
  /\ UsePost.post
       (final (run (Demo.world Demo.emptyLedger)
                 (UsePost.fetchPost (Demo.walletOf "alice") "missing.png")
                 (UsePost.setPost (Some Demo.stalePost) UsePost.initial)))
     = Some Demo.stalePost.
Proof. by_computation. Qed.

(** Scenario C: a profile address that holds no record gives a null profile
    and no error. *)
Lemma profile_not_found_is_empty :
  (UseUserProfile.fetchingRef UseUserProfile.initial = false
   /\ notFoundError Demo.notFound)
  /\ result (run (Demo.world Demo.emptyLedger)
               (UseUserProfile.fetchProfile (Demo.walletOf "alice"))
               UseUserProfile.initial) = Ok tt
  /\ UseUserProfile.profile
       (final (run (Demo.world Demo.emptyLedger)
                 (UseUserProfile.fetchProfile (Demo.walletOf "alice"))
                 UseUserProfile.initial)) = None
  /\ UseUserProfile.error
       (final (run (Demo.world Demo.emptyLedger)
                 (UseUserProfile.fetchProfile (Demo.walletOf "alice"))
                 UseUserProfile.initial)) = None
  /\ UseUserProfile.fetchingRef
       (final (run (Demo.world Demo.emptyLedger)
                 (UseUserProfile.fetchProfile (Demo.walletOf "alice"))
                 UseUserProfile.initial)) = false.
Proof.
  split; [split; reflexivity |].
  exact (proj1 not_found_profile_is_empty_and_post_is_failure
           (fun _ => Demo.remote Demo.emptyLedger)
           (AnchorWallet.mk (Demo.key "alice")) UseUserProfile.initial Demo.notFound
           eq_refl eq_refl eq_refl eq_refl).
Defined.

(** Alice follows bob and not carol: the account on the ledger sits at the
    address derived from the seeds follow, alice's key, bob's key. *)
Lemma alice_follows_bob_only :
  (forall a b,
      In a [Demo.key "bob"; Demo.key "carol"] ->
      In b [Demo.key "bob"; Demo.key "carol"] ->
      fst (findProgramAddressSync
             [Buffer_from "follow"; toBuffer (Demo.key "alice"); toBuffer a] PROGRAM_ID)
      = fst (findProgramAddressSync
               [Buffer_from "follow"; toBuffer (Demo.key "alice"); toBuffer b] PROGRAM_ID) ->
      a = b)
  /\ isSome (Demo.followAccounts
               (fst (findProgramAddressSync
                       [ Buffer_from "follow"; toBuffer (Demo.key "alice");
                         toBuffer (Demo.key "bob") ]
                       PROGRAM_ID))) = true
  /\ isSome (Demo.followAccounts
               (fst (findProgramAddressSync
                       [ Buffer_from "follow"; toBuffer (Demo.key "bob");
                         toBuffer (Demo.key "alice") ]
                       PROGRAM_ID))) = false
  /\ exists resultMap,
       result (run (Demo.world Demo.following)
                 (UseProfiles.batchCheckFollowStatus (Demo.walletOf "alice")
                    [Demo.key "bob"; Demo.key "carol"])
                 UseProfiles.initial) = Ok resultMap
       /\ JSMap.get resultMap "Kbob"
          = Some (UseProfiles.FollowStatus.mk true
                    (Some (fst (findProgramAddressSync
                                  [ Buffer_from "follow"; toBuffer (Demo.key "alice");
                                    toBuffer (Demo.key "bob") ]
                                  PROGRAM_ID))))
       /\ JSMap.get resultMap "Kcarol"
          = Some (UseProfiles.FollowStatus.mk false None).
Proof.
  assert (Hd : forall a b,
             In a [Demo.key "bob"; Demo.key "carol"] ->
             In b [Demo.key "bob"; Demo.key "carol"] ->
             fst (findProgramAddressSync
                    [Buffer_from "follow"; toBuffer (Demo.key "alice"); toBuffer a]
                    PROGRAM_ID)
             = fst (findProgramAddressSync
                      [Buffer_from "follow"; toBuffer (Demo.key "alice"); toBuffer b]
                      PROGRAM_ID) ->
             a = b).
  { intros a b [<- | [<- | []]] [<- | [<- | []]] E; try reflexivity;
      vm_compute in E; discriminate. }
  split; [exact Hd |].
  split; [vm_compute; reflexivity |].
  split; [vm_compute; reflexivity |].
  destruct (follow_status_reports_account_existence (ok := demo_contract)
              (fun _ => Demo.remote Demo.following) (fun _ => Demo.remote Demo.following)
              Demo.followAccounts Demo.followAccounts
              (AnchorWallet.mk (Demo.key "alice")) UseProfiles.initial
              [Demo.key "bob"; Demo.key "carol"]
              (fun _ => eq_refl) (fun _ => eq_refl) (fun _ => eq_refl) Hd)
    as (_ & resultMap & Hres & _ & Hget & _).
  exists resultMap. split; [exact Hres |]. split.
  - change "Kbob" with (toString (Demo.key "bob")).
    rewrite Hget by (left; reflexivity). vm_compute. reflexivity.
  - change "Kcarol" with (toString (Demo.key "carol")).
    rewrite Hget by (right; left; reflexivity). vm_compute. reflexivity.
Defined.

(** ** Further properties on the concrete ledger *)

(** Alice's post shows her decoded handle; bob's (no profile) and carol's
    (profile does not decode) show the placeholder. *)
Lemma three_posts_show_decoded_or_placeholder_handles :
  (UsePost.fetchingRef UsePost.initial = false
   /\ Demo.remote Demo.threeCreators _ post_all = Ok Demo.threePosts
   /\ profile_addresses_distinct Demo.threePosts)
  /\ UsePost.allPosts
       (final (run (Demo.world Demo.threeCreators)
                 (UsePost.fetchAllPosts (Demo.walletOf "alice")) UsePost.initial))
     = JSArray.sort UsePost.byCreatedAtDesc
         (map (fun post =>
                 UsePost.PostWithHandle.mk (publicKey post) (account post)
                   (shownHandle Demo.profileAccounts
                      (PostAccount.creator (account post))))
            Demo.threePosts)
  /\ map (shownHandle Demo.profileAccounts)
       [Demo.key "alice"; Demo.key "bob"; Demo.key "carol"]
     = ["alice.sol"; "User Kbob..."; "User Kcarol..."].
Proof.
  assert (Hd : profile_addresses_distinct Demo.threePosts).
  { intros p q [<- | [<- | [<- | []]]] [<- | [<- | [<- | []]]] E; try reflexivity;
      vm_compute in E; discriminate. }
  split; [split; [reflexivity | split; [reflexivity | exact Hd]] |].
  split; [| vm_compute; reflexivity].
  exact (merged_view_shows_decoded_handles (ok := demo_contract)
           (fun _ => Demo.remote Demo.threeCreators) Demo.profileAccounts
           (AnchorWallet.mk (Demo.key "alice")) UsePost.initial Demo.threePosts
           eq_refl eq_refl (fun _ => eq_refl) Hd).
Defined.

(** The second comment of the scan has a timestamp of 2^53: neither comment
    is stored. *)
Lemma comment_with_timestamp_of_54_bits_fails_the_thread :
  (UseComments.fetchingRef UseComments.initial = None
   /\ In (Demo.commentAt "huge" (2 ^ 53)) Demo.hugeComments
   /\ ~ comment_safe (Demo.commentAt "huge" (2 ^ 53)))
  /\ final (run (Demo.world Demo.overflowing)
              (UseComments.fetchCommentsForPost (Demo.walletOf "alice") (Demo.key "post"))
              UseComments.initial)
     = UseComments.mkState [] false
         (Some "Number can only safely store up to 53 bits") None.
Proof.
  assert (Hbad : ~ comment_safe (Demo.commentAt "huge" (2 ^ 53))).
  { intros [H _]. vm_compute in H. discriminate. }
  split; [split; [reflexivity | split; [right; left; reflexivity | exact Hbad]] |].
  exact (one_unsafe_timestamp_fails_the_comment_fetch
           (fun _ => Demo.remote Demo.overflowing)
           (AnchorWallet.mk (Demo.key "alice")) (Demo.key "post") UseComments.initial
           Demo.hugeComments (Demo.commentAt "huge" (2 ^ 53))
           eq_refl eq_refl (or_intror (or_introl eq_refl)) Hbad).
Defined.

(** Alice sees bob (followed) and carol (not followed), not herself. *)
Lemma alice_sees_bob_followed_and_carol_not :
  (UseProfiles.fetchingRef UseProfiles.initial = false
   /\ follow_addresses_distinct (Demo.key "alice") [Demo.key "bob"; Demo.key "carol"])
  /\ final (run (Demo.world Demo.following)
              (UseProfiles.fetchAllProfiles (Demo.walletOf "alice")) UseProfiles.initial)
     = UseProfiles.mkState
         (map (decorated Demo.followAccounts (Demo.key "alice"))
            [Demo.profileOf "bob" "bob.sol"; Demo.profileOf "carol" "carol.sol"])
         false None false
  /\ map (fun p => (UseProfiles.ProfileWithFollowStatus.handle p,
                    UseProfiles.ProfileWithFollowStatus.isFollowing p))
       (UseProfiles.profiles
          (final (run (Demo.world Demo.following)
                    (UseProfiles.fetchAllProfiles (Demo.walletOf "alice"))
                    UseProfiles.initial)))
     = [("bob.sol", true); ("carol.sol", false)].
Proof.
  assert (Hd : follow_addresses_distinct (Demo.key "alice")
                 [Demo.key "bob"; Demo.key "carol"]).
  { intros a b [<- | [<- | []]] [<- | [<- | []]] E; try reflexivity;
      vm_compute in E; discriminate. }
  split; [split; [reflexivity | exact Hd] |].
  split; [| vm_compute; reflexivity].
  refine (fetched_profiles_carry_follow_status (ok := demo_contract)
            (fun _ => Demo.remote Demo.following) Demo.followAccounts
            (AnchorWallet.mk (Demo.key "alice")) UseProfiles.initial
            [Demo.profileOf "alice" "alice.sol"; Demo.profileOf "bob" "bob.sol";
             Demo.profileOf "carol" "carol.sol"]
            eq_refl eq_refl (fun _ => eq_refl) Hd _).
  intros profileAccount [<- | [<- | []]]; vm_compute; repeat split; reflexivity.
Defined.

(** Alice's profile is cached once found; with nothing at her address the
    hook shows no profile and asks again on every fetch. *)
Lemma alice_found_is_cached_and_alice_missing_is_not :
  (UseUserProfile.fetchingRef UseUserProfile.initial = false
   /\ profile_safe Demo.aliceAccount
   /\ notFoundError Demo.notFound)
  /\ (UseUserProfile.profile
        (final (run (Demo.world Demo.aliceOnly)
                  (UseUserProfile.fetchProfile (Demo.walletOf "alice"))
                  UseUserProfile.initial))
      = Some (profile_view Demo.aliceAccount)
      /\ forall (world : World UseUserProfile.State) n,
           calls (run_from world n (UseUserProfile.fetchProfile (Demo.walletOf "alice"))
                    (final (run (Demo.world Demo.aliceOnly)
                              (UseUserProfile.fetchProfile (Demo.walletOf "alice"))
                              UseUserProfile.initial)))
           = [])
  /\ (UseUserProfile.profile
        (final (run (Demo.world Demo.emptyLedger)
                  (UseUserProfile.fetchProfile (Demo.walletOf "alice"))
                  UseUserProfile.initial))
      = None
      /\ forall (world : World UseUserProfile.State) n,
           calls (run_from world n (UseUserProfile.fetchProfile (Demo.walletOf "alice"))
                    (final (run (Demo.world Demo.emptyLedger)
                              (UseUserProfile.fetchProfile (Demo.walletOf "alice"))
                              UseUserProfile.initial)))
           = [ call (userProfile_fetch (profileAddress (Demo.key "alice"))) ]).
Proof.
  assert (Hsafe : profile_safe Demo.aliceAccount)
    by (vm_compute; repeat split; reflexivity).
  assert (Hnot : option_string_eqb
                   (UseUserProfile.currentWalletKey (Demo.walletOf "alice"))
                   (UseUserProfile.lastWalletRef UseUserProfile.initial)
                 && isSome (UseUserProfile.profile UseUserProfile.initial) = false)
    by (vm_compute; reflexivity).
  assert (Hfound : Demo.remote Demo.aliceOnly _
                     (userProfile_fetch (profileAddress (Demo.key "alice")))
                   = Ok Demo.aliceAccount)
    by (vm_compute; reflexivity).
  split; [split; [reflexivity | split; [exact Hsafe | reflexivity]] |].
  split.
  - destruct (proj1 (found_profile_is_cached_and_missing_one_is_not
                       (fun _ => Demo.remote Demo.aliceOnly)
                       (AnchorWallet.mk (Demo.key "alice")) UseUserProfile.initial
                       eq_refl Hnot)
                Demo.aliceAccount Hfound Hsafe) as [Hprofile Hcached].
    split; [exact Hprofile |].
    intros world n.
    exact (f_equal calls (Hcached world n)).
  - destruct (proj2 (found_profile_is_cached_and_missing_one_is_not
                       (fun _ => Demo.remote Demo.emptyLedger)
                       (AnchorWallet.mk (Demo.key "alice")) UseUserProfile.initial
                       eq_refl Hnot)
                Demo.notFound eq_refl eq_refl) as (Hprofile & _ & Hasks).
    split; [exact Hprofile | exact Hasks].
Defined.

(** After alice's profile was fetched the wallet changes to bob's and the
    read of bob's profile fails on the network: the hook keeps alice's
    profile, and no later fetch for bob's wallet reads anything. *)
Lemma bob_inherits_alice_profile_after_a_network_error :
  (UseUserProfile.fetchingRef Demo.afterAlice = false
   /\ UseUserProfile.profile Demo.afterAlice = Some (profile_view Demo.aliceAccount)
   /\ option_string_eqb (UseUserProfile.currentWalletKey (Demo.walletOf "bob"))
        (UseUserProfile.lastWalletRef Demo.afterAlice) = false
   /\ includes (message Demo.networkError) "Account does not exist" = false)
  /\ UseUserProfile.profile
       (final (run (Demo.world Demo.aliceOnly)
                 (UseUserProfile.fetchProfile (Demo.walletOf "bob")) Demo.afterAlice))
     = Some (profile_view Demo.aliceAccount)
  /\ UseUserProfile.error
       (final (run (Demo.world Demo.aliceOnly)
                 (UseUserProfile.fetchProfile (Demo.walletOf "bob")) Demo.afterAlice))
     = Some "failed to get info about account"
  /\ forall (world : World UseUserProfile.State) n,
       calls (run_from world n (UseUserProfile.fetchProfile (Demo.walletOf "bob"))
                (final (run (Demo.world Demo.aliceOnly)
                          (UseUserProfile.fetchProfile (Demo.walletOf "bob"))
                          Demo.afterAlice)))
       = [].
Proof.
  assert (H1 : UseUserProfile.fetchingRef Demo.afterAlice = false)
    by (vm_compute; reflexivity).
  assert (H2 : UseUserProfile.profile Demo.afterAlice
               = Some (profile_view Demo.aliceAccount))
    by (vm_compute; reflexivity).
  assert (H3 : option_string_eqb (UseUserProfile.currentWalletKey (Demo.walletOf "bob"))
                 (UseUserProfile.lastWalletRef Demo.afterAlice) = false)
    by (vm_compute; reflexivity).
  assert (H4 : Demo.remote Demo.aliceOnly _
                 (userProfile_fetch (profileAddress (Demo.key "bob")))
               = Thrown Demo.networkError)
    by (vm_compute; reflexivity).
  split; [split; [exact H1 | split; [exact H2 | split; [exact H3 | reflexivity]]] |].
  destruct (failed_fetch_adopts_the_previous_profile
              (fun _ => Demo.remote Demo.aliceOnly)
              (AnchorWallet.mk (Demo.key "bob")) Demo.afterAlice
              (profile_view Demo.aliceAccount) Demo.networkError
              H1 H2 H3 H4 eq_refl) as (Hprofile & Herror & Hcached & _).
  split; [exact Hprofile |]. split; [exact Herror |].
  intros world n. exact (f_equal calls (Hcached world n)).
Defined.

(** A post within 53 bits is stored and returned; one with a like counter of
    2^53 is reported as a failure with the default message. *)
Lemma post_within_53_bits_is_returned_and_beyond_is_a_failure :
  (post_safe (account (Demo.postBy "p1" "alice" 10)) /\ ~ post_safe Demo.hugePost)
  /\ run (Demo.world Demo.onePost) (UsePost.fetchPost (Demo.walletOf "alice") "uri")
       UsePost.initial
     = mkRun
         (UsePost.setPost (Some (post_view (account (Demo.postBy "p1" "alice" 10))))
            UsePost.initial)
         (Ok (UsePost.userPost (post_view (account (Demo.postBy "p1" "alice" 10)))))
         [ call (post_fetch (postAddress (Demo.key "alice") "uri")) ]
  /\ run (Demo.world Demo.overflowing) (UsePost.fetchPost (Demo.walletOf "alice") "uri")
       UsePost.initial
     = mkRun UsePost.initial (Ok (UsePost.failure "Operation failed"))
         [ call (post_fetch (postAddress (Demo.key "alice") "uri")) ].
Proof.
  assert (Hsafe : post_safe (account (Demo.postBy "p1" "alice" 10)))
    by (vm_compute; repeat split; reflexivity).
  assert (Hbad : ~ post_safe Demo.hugePost).
  { intros [H _]. vm_compute in H. discriminate. }
  split; [split; [exact Hsafe | exact Hbad] |].
  split.
  - exact (proj1 (fetched_post_is_stored_and_returned
                    (fun _ => Demo.remote Demo.onePost)
                    (AnchorWallet.mk (Demo.key "alice")) "uri" UsePost.initial
                    (account (Demo.postBy "p1" "alice" 10)) eq_refl) Hsafe).
  - exact (proj2 (fetched_post_is_stored_and_returned
                    (fun _ => Demo.remote Demo.overflowing)
                    (AnchorWallet.mk (Demo.key "alice")) "uri" UsePost.initial
                    Demo.hugePost eq_refl) Hbad).
Defined.

(** The wallet changes from alice's to bob's while alice's profile is being
    read: nothing is issued for bob, and the settlement shows alice's
    profile. *)
Lemma alice_profile_arrives_after_the_change_to_bob :
  (UseUserProfile.fetchingRef UseUserProfile.initial = false
   /\ profile_safe Demo.aliceAccount)
  /\ issued (invoke (UseUserProfile.useEffect (Demo.walletOf "bob"))
               (invoke (UseUserProfile.useEffect (Demo.walletOf "alice"))
                  (mkLoop UseUserProfile.initial [] [])))
     = [ call (userProfile_fetch (profileAddress (Demo.key "alice"))) ]
  /\ settle (Demo.remote Demo.aliceOnly) 0
       (invoke (UseUserProfile.useEffect (Demo.walletOf "bob"))
          (invoke (UseUserProfile.useEffect (Demo.walletOf "alice"))
             (mkLoop UseUserProfile.initial [] [])))
     = mkLoop
         (UseUserProfile.mkState (Some (profile_view Demo.aliceAccount)) false None false
            (Some "Kalice"))
         []
         [ call (userProfile_fetch (profileAddress (Demo.key "alice"))) ]
  /\ issued (invoke (UseUserProfile.useEffect (Demo.walletOf "bob"))
               (settle (Demo.remote Demo.aliceOnly) 0
                  (invoke (UseUserProfile.useEffect (Demo.walletOf "bob"))
                     (invoke (UseUserProfile.useEffect (Demo.walletOf "alice"))
                        (mkLoop UseUserProfile.initial [] [])))))
     = [ call (userProfile_fetch (profileAddress (Demo.key "alice")));
         call (userProfile_fetch (profileAddress (Demo.key "bob"))) ].
Proof.
  assert (Hsafe : profile_safe Demo.aliceAccount)
    by (vm_compute; repeat split; reflexivity).
  assert (Hnot : option_string_eqb
                   (UseUserProfile.currentWalletKey (Demo.walletOf "alice"))
                   (UseUserProfile.lastWalletRef UseUserProfile.initial)
                 && isSome (UseUserProfile.profile UseUserProfile.initial) = false)
    by (vm_compute; reflexivity).
  assert (Hfound : Demo.remote Demo.aliceOnly _
                     (userProfile_fetch (profileAddress (Demo.key "alice")))
                   = Ok Demo.aliceAccount)
    by (vm_compute; reflexivity).
  assert (Hother : option_string_eqb
                     (UseUserProfile.currentWalletKey (Demo.walletOf "bob"))
                     (UseUserProfile.currentWalletKey (Demo.walletOf "alice")) = false)
    by (vm_compute; reflexivity).
  split; [split; [reflexivity | exact Hsafe] |].
  destruct (profile_fetch_in_flight_outlives_a_wallet_change
              (Demo.remote Demo.aliceOnly) (AnchorWallet.mk (Demo.key "alice"))
              (Demo.walletOf "bob") UseUserProfile.initial Demo.aliceAccount
              eq_refl Hnot Hfound Hsafe) as (Hissued & Hsettled & Hnext).
  split; [exact Hissued |]. split; [exact Hsettled |].
  exact (proj1 (Hnext (AnchorWallet.mk (Demo.key "bob")) Hother)).
Defined.

(** The error of an earlier fetch is still shown after a fetch of all posts
    that succeeded and stored the three posts. *)
Lemma earlier_error_is_shown_after_a_successful_fetch :
  (UsePost.error Demo.failedBefore = Some "failed to get info about account"
   /\ UsePost.fetchingRef Demo.failedBefore = false
   /\ Demo.remote Demo.threeCreators _ post_all = Ok Demo.threePosts)
  /\ UsePost.error
       (final (run (Demo.world Demo.threeCreators)
                 (UsePost.fetchAllPosts (Demo.walletOf "alice")) Demo.failedBefore))
     = Some "failed to get info about account"
  /\ Permutation
       (map undecorate
          (UsePost.allPosts
             (final (run (Demo.world Demo.threeCreators)
                       (UsePost.fetchAllPosts (Demo.walletOf "alice"))
                       Demo.failedBefore))))
       Demo.threePosts.
Proof.
  split; [split; [reflexivity | split; reflexivity] |].
  exact (proj1 (post_errors_are_never_cleared (fun _ => Demo.remote Demo.threeCreators)
                  (AnchorWallet.mk (Demo.key "alice")) Demo.failedBefore
                  "failed to get info about account" eq_refl)
           Demo.threePosts _ eq_refl eq_refl eq_refl).
Defined.

(** On the empty ledger the feed costs two remote calls and shows nothing. *)
Lemma empty_ledger_costs_two_calls :
  Demo.remote Demo.emptyLedger _ (getMultipleAccountsInfo []) = Ok []
  /\ calls (run (Demo.world Demo.emptyLedger)
              (UsePost.fetchAllPosts (Demo.walletOf "alice")) UsePost.initial)
     = [ call post_all; call (getMultipleAccountsInfo []) ]
  /\ UsePost.allPosts
       (final (run (Demo.world Demo.emptyLedger)
                 (UsePost.fetchAllPosts (Demo.walletOf "alice")) UsePost.initial))
     = [].
Proof.
  split; [reflexivity |].
  pose proof (proj1 (empty_scans_still_issue_the_batch_read
                       (fun _ => Demo.remote Demo.emptyLedger)
                       (AnchorWallet.mk (Demo.key "alice")) eq_refl)
                UsePost.initial eq_refl eq_refl) as H.
  split; [exact (f_equal calls H) | exact (f_equal (fun r => UsePost.allPosts (final r)) H)].
Defined.

(** Post A is asked for, then post B; B's scan settles first: the hook ends
    up showing the three comments of post A. *)
Lemma thread_of_post_a_is_shown_after_post_b_was_asked :
  (UseComments.fetchingRef UseComments.initial = None
   /\ Demo.key "postA" <> Demo.key "postB"
   /\ Forall comment_safe Demo.threeComments)
  /\ map UseComments.Comment.content
       (UseComments.comments
          (store (settle (Demo.remote Demo.twoThreads) 0
                    (settle (Demo.remote Demo.twoThreads) 1
                       (invoke (UseComments.fetchCommentsForPost (Demo.walletOf "alice")
                                  (Demo.key "postB"))
                          (invoke (UseComments.fetchCommentsForPost
                                     (Demo.walletOf "alice") (Demo.key "postA"))
                             (mkLoop UseComments.initial [] [])))))))
     = ["first"; "second"; "third"].
Proof.
  assert (Hdiff : Demo.key "postA" <> Demo.key "postB")
    by (intros E; vm_compute in E; discriminate).
  assert (Hsafe : Forall comment_safe Demo.threeComments)
    by (repeat (constructor; [vm_compute; split; reflexivity |]); constructor).
  split; [split; [reflexivity | split; [exact Hdiff | exact Hsafe]] |].
  pose proof (proj1 (comments_shown_are_those_settled_last (ok := demo_contract)
                       (Demo.remote Demo.twoThreads) (AnchorWallet.mk (Demo.key "alice"))
                       (Demo.key "postA") (Demo.key "postB") UseComments.initial
                       Demo.threeComments [] eq_refl Hdiff eq_refl eq_refl Hsafe
                       (Forall_nil _))) as Hstore.
  etransitivity;
    [ exact (f_equal (fun st => map UseComments.Comment.content (UseComments.comments st))
               Hstore)
    | vm_compute; reflexivity ].
Defined.

(** The wallet changes from alice's to bob's while the profiles are being
    fetched for alice: nothing is issued for bob, and the list that arrives
    is alice's: it has bob's own profile, marked as followed, and not
    alice's. *)
Lemma list_made_for_alice_is_shown_to_bob :
  (UseProfiles.fetchingRef UseProfiles.initial = false
   /\ follow_addresses_distinct (Demo.key "alice") [Demo.key "bob"; Demo.key "carol"])
  /\ issued (invoke (UseProfiles.useEffect (Demo.walletOf "bob"))
               (invoke (UseProfiles.useEffect (Demo.walletOf "alice"))
                  (mkLoop UseProfiles.initial [] [])))
     = [ call userProfile_all ]
  /\ map (fun p => (UseProfiles.ProfileWithFollowStatus.handle p,
                    UseProfiles.ProfileWithFollowStatus.isFollowing p))
       (UseProfiles.profiles
          (store (settle (Demo.remote Demo.following) 0
                    (settle (Demo.remote Demo.following) 0
                       (invoke (UseProfiles.useEffect (Demo.walletOf "bob"))
                          (invoke (UseProfiles.useEffect (Demo.walletOf "alice"))
                             (mkLoop UseProfiles.initial [] [])))))))
     = [("bob.sol", true); ("carol.sol", false)].
Proof.
  assert (Hd : follow_addresses_distinct (Demo.key "alice")
                 [Demo.key "bob"; Demo.key "carol"]).
  { intros a b [<- | [<- | []]] [<- | [<- | []]] E; try reflexivity;
      vm_compute in E; discriminate. }
  assert (Hsafe : forall profileAccount,
             In profileAccount
               [Demo.profileOf "bob" "bob.sol"; Demo.profileOf "carol" "carol.sol"] ->
             profile_safe (account profileAccount)).
  { intros profileAccount [<- | [<- | []]]; vm_compute; repeat split; reflexivity. }
  split; [split; [reflexivity | exact Hd] |].
  destruct (profiles_fetch_in_flight_outlives_a_wallet_change (ok := demo_contract)
              (Demo.remote Demo.following) Demo.followAccounts
              (AnchorWallet.mk (Demo.key "alice")) (Demo.walletOf "bob")
              UseProfiles.initial
              [Demo.profileOf "alice" "alice.sol"; Demo.profileOf "bob" "bob.sol";
               Demo.profileOf "carol" "carol.sol"]
              eq_refl eq_refl (fun _ => eq_refl) Hd Hsafe) as (Hissued & Hstore & _).
  split; [exact Hissued |].
  etransitivity;
    [ exact (f_equal
               (fun st => map (fun p => (UseProfiles.ProfileWithFollowStatus.handle p,
                                         UseProfiles.ProfileWithFollowStatus.isFollowing p))
                            (UseProfiles.profiles st))
               Hstore)
    | vm_compute; reflexivity ].
Defined.
